(** * Neural Monkey decoders

    A shallow embedding of [neuralmonkey/decoders/decoder.py] (the attentive
    recurrent [Decoder]) and of
    [neuralmonkey/decoders/sequence_regressor.py] (the [SequenceRegressor]).

    The Python code builds a TensorFlow graph that a session evaluates
    later.  The embedding collapses the two stages: the attributes that
    [__init__] resolves (sizes, projections, created variables, attention
    objects) form the record [Decoder]; every tensor attribute becomes a
    function of that record and of the values a session feeds ([Feed]).
    Tensors are typed by rank: a rank-1 tensor is a list of scalars, a
    rank-2 tensor (batch x width) a list of rows, a rank-3 tensor a list of
    rank-2 tensors.  An exception the constructor would raise while it
    builds a tensor (a failed shape assertion, an index out of range) is
    the [Raise] the tensor's function returns.  The operations [decoder.py]
    imports from TensorFlow and from other Neural Monkey modules (cells,
    [linear], [dropout], attention, the encoder projections) are the fields
    of the interface [Ops]. *)

From stdpp Require Import gmap strings list fin_maps.
From Stdlib Require Import ZArith Lia.

(** ** Python exceptions and fallible computations *)

Module python.

Inductive Exception : Type :=
| ValueError (msg : string)
| AssertionError
| AttributeError (name : string)
| TypeError
| IndexError
| KeyError.

Inductive Result (A : Type) : Type :=
| Ok (a : A)
| Raise (e : Exception).
Arguments Ok {A} a.
Arguments Raise {A} e.

#[global] Instance Result_ret : MRet Result := @Ok.
#[global] Instance Result_bind : MBind Result :=
  λ A B f m, match m with Ok a => f a | Raise e => Raise e end.

(** [assert c] *)
Definition py_assert (c : bool) : Result unit :=
  if c then Ok tt else Raise AssertionError.

(** [xs[i]]: a negative index counts from the end *)
Definition py_index {A} (xs : list A) (i : Z) : Result A :=
  let j := if (i <? 0)%Z then (Z.of_nat (length xs) + i)%Z else i in
  if (j <? 0)%Z then Raise IndexError
  else match xs !! Z.to_nat j with
       | Some x => Ok x
       | None => Raise IndexError
       end.

(** [xs[:-1]] *)
Definition py_but_last {A} (xs : list A) : list A :=
  take (length xs - 1) xs.

(** [for i in range(start, start + count): s = body(i, s)] *)
Fixpoint for_range {St} (body : nat → St → Result St)
    (start count : nat) (s : St) : Result St :=
  match count with
  | O => Ok s
  | S count' => s' ← body start s; for_range body (S start) count' s'
  end.

Definition is_ok {A} (r : Result A) : bool :=
  match r with Ok _ => true | Raise _ => false end.

End python.
Export python.

(** ** Tensors and the TensorFlow operations the decoder calls *)

Module tensorflow.

(** float32 scalars: only their comparison matters to the decoder. *)
Class Scalar : Type := {
  float : Type;
  float_zero : float;
  float_gt : float → float → bool;
}.

(** Rank-1 and rank-2 tensors of scalars. *)
Abbreviation Vec := (list float).
Abbreviation Mat := (list (list float)).

Section tensors.
Context `{Scalar}.

(** [tf.argmax] over one row: the index of the first largest entry.
    TensorFlow rejects an empty reduction axis when the graph is built;
    the embedding answers 0 there. *)
Fixpoint argmax_from (best : float) (best_i i : Z) (l : list float) : Z :=
  match l with
  | [] => best_i
  | x :: l' =>
      if float_gt x best then argmax_from x i (i + 1) l'
      else argmax_from best best_i (i + 1) l'
  end.

Definition argmax_row (l : list float) : Z :=
  match l with
  | [] => 0
  | x :: l' => argmax_from x 0 1 l'
  end.

(** [tf.argmax(m, 1)] *)
Definition tf_argmax (m : Mat) : list Z := argmax_row <$> m.

(** [m[:, 1:]] *)
Definition slice_from_1 (m : Mat) : Mat := drop 1 <$> m.

(** [tf.equal(ids, k)], [tf.logical_or], [tf.logical_not] on rank-1
    tensors *)
Definition tf_equal (ids : list Z) (k : Z) : list bool :=
  (λ i, bool_decide (i = k)) <$> ids.
Definition tf_logical_or (a b : list bool) : list bool := zip_with orb a b.
Definition tf_logical_not (a : list bool) : list bool := negb <$> a.

(** [tf.zeros([rows, cols])] *)
Definition tf_zeros (rows : nat) (cols : Z) : Mat :=
  replicate rows (replicate (Z.to_nat cols) float_zero).
Definition tf_zeros_bool (n : nat) : list bool := replicate n false.

(** [tf.tile(v, [n])] on a rank-1 tensor *)
Definition tf_tile (v : Vec) (n : nat) : Vec := concat (replicate n v).

Fixpoint chunks (width rows : nat) (flat : Vec) : Mat :=
  match rows with
  | O => []
  | S rows' => take width flat :: chunks width rows' (drop width flat)
  end.

(** [tf.reshape(flat, [-1, width])] *)
Definition tf_reshape_rows (flat : Vec) (width : Z) : Result Mat :=
  if bool_decide (0 < width ∧ (Z.of_nat (length flat) mod width = 0))%Z
  then Ok (chunks (Z.to_nat width) (length flat / Z.to_nat width) flat)
  else Raise (ValueError "reshape").

(** The static shape of a rank-2 value. *)
Definition has_shape (m : Mat) (rows : nat) (cols : Z) : Prop :=
  length m = rows ∧ Forall (λ r, Z.of_nat (length r) = cols) m.

(** A graph variable ([tf.get_variable]): [var_id] is its identity. *)
Record TfVariable : Type := {
  var_id : nat;
  var_name : string;
  var_shape : list (option Z);
}.

(** [v.get_shape()[i].value] *)
Definition shape_dim (v : TfVariable) (i : Z) : Result (option Z) :=
  py_index (var_shape v) i.

End tensors.

(** Building a graph: log messages ([neuralmonkey.logging]) and fresh
    variables. *)

Inductive LogEntry : Type :=
| Log (msg : string)
| Warn (msg : string).

Record Graph : Type := {
  next_var : nat;
  messages : list LogEntry;
}.

Definition Build (A : Type) : Type := Graph → Graph * Result A.

#[global] Instance Build_ret : MRet Build := λ A a g, (g, Ok a).
#[global] Instance Build_bind : MBind Build :=
  λ A B f m g,
    match m g with
    | (g', Ok a) => f a g'
    | (g', Raise e) => (g', Raise e)
    end.

Definition raise {A} (e : Exception) : Build A := λ g, (g, Raise e).
Definition lift {A} (r : Result A) : Build A := λ g, (g, r).
Definition log (msg : string) : Build unit :=
  λ g, ({| next_var := next_var g; messages := messages g ++ [Log msg] |},
        Ok tt).
Definition warn (msg : string) : Build unit :=
  λ g, ({| next_var := next_var g; messages := messages g ++ [Warn msg] |},
        Ok tt).

(** [tf.get_variable(name, shape, ...)] in a scope that does not reuse *)
Definition tf_get_variable (name : string) (shape : list (option Z))
    : Build TfVariable :=
  λ g, ({| next_var := S (next_var g); messages := messages g |},
        Ok {| var_id := next_var g; var_name := name; var_shape := shape |}).

End tensorflow.
Export tensorflow.

(** ** [neuralmonkey/decoders/decoder.py] *)

Module decoder.

Section interface.
Context `{Scalar}.

(** An attention object ([BaseAttention]): the width of its context vector
    and [a.attention(query, prev_state, input)].  The list
    [attentions_in_time] it also keeps is only read by the visualisation. *)
Record BaseAttention : Type := {
  attn_size : Z;
  attention : Mat → Mat → Mat → Mat;
}.

(** An encoder object.  [enc_id] is the object's identity (the key of the
    attention dictionaries), [encoded] the value of its summary tensor for
    the batch under evaluation, [encoded_width] is
    [encoded.get_shape()[1].value], and [create_attention_object] is [None]
    exactly when the encoder is not an instance of [Attentive]. *)
Record Encoder : Type := {
  enc_id : nat;
  encoded : Mat;
  encoded_width : option Z;
  create_attention_object : option BaseAttention;
}.

(** [len(vocabulary)] and [vocabulary.get_word_index]. *)
Record Vocabulary : Type := {
  vocabulary_len : Z;
  get_word_index : string → Z;
}.

(** An [EmbeddedSequence] owns the variable [embedding_matrix]. *)
Record EmbeddedSequence : Type := {
  embedding_matrix_of : TfVariable;
}.

(** What an encoder projection returns: a single vector, or one row per
    batch element. *)
Inductive Projected : Type :=
| Rank1 (v : Vec)
| Rank2 (m : Mat).

Definition EncoderProjection : Type :=
  bool → option Z → list Encoder → Projected.
Definition OutputProjection : Type := Mat → Mat → list Mat → Mat.

(** The recurrent state: a tensor for the GRU, an [LSTMStateTuple] for the
    LSTM. *)
Inductive RnnState : Type :=
| GRUState (h : Mat)
| LSTMStateTuple (c h : Mat).

(** The operations and constants [decoder.py] imports from TensorFlow and
    from other Neural Monkey modules.  [dropout] draws a random mask when
    training; here it is an arbitrary function of the tensor, of the keep
    probability and of the train flag. *)
Class Ops : Type := {
  (* neuralmonkey.vocabulary *)
  START_TOKEN : string;
  END_TOKEN_INDEX : Z;
  (* neuralmonkey.nn.utils.dropout, at ranks 1, 2 and 3 *)
  dropout1 : Vec → float → bool → Vec;
  dropout : Mat → float → bool → Mat;
  dropout3 : list Mat → float → bool → list Mat;
  (* tf.nn.embedding_lookup on a rank-1 tensor of ids *)
  tf_embedding_lookup : Mat → list Z → Mat;
  (* neuralmonkey.nn.projection.linear(inputs, size, scope=...) *)
  linear : list Mat → option Z → option string → Mat;
  (* the cells: size, input, state *)
  OrthoGRUCell : Z → Mat → Mat → Mat * Mat;
  LSTMCell : Z → Mat → Mat * Mat → Mat * (Mat * Mat);
  GRUCell : Z → string → Mat → Mat → Mat * Mat;
  (* tf.concat(values, -1), tf.matmul, broadcast + *)
  tf_concat : list Mat → Result Mat;
  tf_matmul : Mat → Mat → Mat;
  tf_add : Mat → Vec → Mat;
  (* neuralmonkey.decoders.encoder_projection, output_projection *)
  empty_initial_state : EncoderProjection;
  concat_encoder_projection : EncoderProjection;
  linear_encoder_projection : float → EncoderProjection;
  no_deep_output : OutputProjection;
}.

End interface.

(** [sum(w for ...)]: starts from 0 and adds from the left; adding [None]
    to an integer raises [TypeError]. *)
Fixpoint py_sum_from (acc : Z) (ws : list (option Z)) : Result Z :=
  match ws with
  | [] => Ok acc
  | None :: _ => Raise TypeError
  | Some w :: ws' => py_sum_from (acc + w)%Z ws'
  end.
Definition py_sum (ws : list (option Z)) : Result Z := py_sum_from 0%Z ws.

Section decoder.
Context `{Ops}.

(** [RNN_CELL_TYPES]: the cell constructors by name.  A cell is called
    with an input and a state of its own kind. *)
Definition Cell : Type := Mat → RnnState → Result (Mat * RnnState).

Definition gru_cell (size : Z) : Cell :=
  λ x st,
    match st with
    | GRUState h => let '(out, h') := OrthoGRUCell size x h in
                    Ok (out, GRUState h')
    | LSTMStateTuple _ _ => Raise TypeError
    end.

Definition lstm_cell (size : Z) : Cell :=
  λ x st,
    match st with
    | LSTMStateTuple c h =>
        let '(out, (c', h')) := LSTMCell size x (c, h) in
        Ok (out, LSTMStateTuple c' h')
    | GRUState _ => Raise TypeError
    end.

Definition RNN_CELL_TYPES : gmap string (Z → Cell) :=
  <["GRU" := gru_cell]> (<["LSTM" := lstm_cell]> ∅).

(** The arguments of [Decoder.__init__].  The signature's defaults are
    [dropout_keep_prob = 1.0], [rnn_size = None], [embedding_size = None],
    [output_projection = None], [encoder_projection = None],
    [use_attention = False], [embeddings_source = None],
    [attention_on_input = True], [rnn_cell = 'GRU'],
    [conditional_gru = False]. *)
Record Args : Type := {
  arg_encoders : list Encoder;
  arg_vocabulary : Vocabulary;
  arg_data_id : string;
  arg_name : string;
  arg_max_output_len : Z;
  arg_dropout_keep_prob : float;
  arg_rnn_size : option Z;
  arg_embedding_size : option Z;
  arg_output_projection : option OutputProjection;
  arg_encoder_projection : option EncoderProjection;
  arg_use_attention : bool;
  arg_embeddings_source : option EmbeddedSequence;
  arg_attention_on_input : bool;
  arg_rnn_cell : string;
  arg_conditional_gru : bool;
  arg_save_checkpoint : option string;
  arg_load_checkpoint : option string;
}.

(** The attributes of a constructed [Decoder]. *)
Record Decoder : Type := {
  encoders : list Encoder;
  vocabulary : Vocabulary;
  data_id : string;
  max_output_len : Z;
  dropout_keep_prob : float;
  embedding_size : option Z;
  rnn_size : Z;
  output_projection : OutputProjection;
  encoder_projection : EncoderProjection;
  use_attention : bool;
  embeddings_source : option EmbeddedSequence;
  _conditional_gru : bool;
  _attention_on_input : bool;
  _rnn_cell_str : string;
  embedding_matrix : TfVariable;
  decoding_w : TfVariable;
  decoding_b : TfVariable;
  _train_attention_objects : gmap nat BaseAttention;
  _runtime_attention_objects : gmap nat BaseAttention;
}.

(** [{e: e.create_attention_object() for e in encoders
      if isinstance(e, Attentive)}] *)
Definition attention_objects_of (es : list Encoder)
    : gmap nat BaseAttention :=
  foldl (λ m e, match create_attention_object e with
                | Some a => <[enc_id e := a]> m
                | None => m
                end) ∅ es.

(** [_create_embedding_matrix] *)
Definition _create_embedding_matrix (vocab : Vocabulary)
    (embedding_size : option Z) (embeddings_source : option EmbeddedSequence)
    : Build TfVariable :=
  match embeddings_source with
  | None => tf_get_variable "word_embeddings"
              [Some (vocabulary_len vocab); embedding_size]
  | Some src => mret (embedding_matrix_of src)
  end.

(** The messages of the errors and of the warning of [__init__]. *)
Definition missing_embedding_message : string :=
  "You must specify either embedding size or the embedded sequence from which to reuse the embeddings (e.g. set either 'embedding_size' or  'embeddings_source' parameter)".
Definition override_warning : string :=
  "Overriding the embedding_size parameter with the size of the reused embeddings from the encoder.".
Definition unknown_cell_message : string :=
  "RNN cell must be a either 'GRU' or 'LSTM'".

(** [Decoder.__init__], up to the creation of the variables and of the
    attention objects.  The tensors the constructor goes on to build
    ([initial_state], [train_logits], [runtime_logits], [runtime_mask],
    [decoded]) are the functions of the constructed record and of a feed
    defined below.  [ModelPart.__init__] only records the name and the
    checkpoint paths. *)
Definition __init__ (a : Args) : Build Decoder :=
  log ("Initializing decoder, name: '" +:+ arg_name a +:+ "'");;
  match arg_embedding_size a, arg_embeddings_source a with
  | None, None =>
      raise (ValueError missing_embedding_message)
  | _, _ => mret tt
  end;;
  embedding_size ←
    match arg_embeddings_source a with
    | Some src =>
        (if arg_embedding_size a is Some _
         then warn override_warning
         else mret tt);;
        lift (shape_dim (embedding_matrix_of src) 1)
    | None => mret (arg_embedding_size a)
    end;
  '(encoder_projection, rnn_size) ←
    match arg_encoder_projection a with
    | None =>
        if arg_encoders a is [] then
          log "No encoder - language model only.";;
          mret (empty_initial_state, arg_rnn_size a)
        else if arg_rnn_size a is None then
          log "No rnn_size or encoder_projection: Using concatenation of encoded states";;
          total ← lift (py_sum (encoded_width <$> arg_encoders a));
          mret (concat_encoder_projection, Some total)
        else
          log "Using linear projection of encoders as the initial state";;
          mret (linear_encoder_projection (arg_dropout_keep_prob a),
                arg_rnn_size a)
    | Some projection => mret (projection, arg_rnn_size a)
    end;
  rnn_size ← match rnn_size with
             | Some n => mret n
             | None => raise AssertionError
             end;
  (if RNN_CELL_TYPES !! arg_rnn_cell a is None
   then raise (ValueError unknown_cell_message)
   else mret tt);;
  output_projection ←
    match arg_output_projection a with
    | None =>
        log "No output projection specified - using simple concatenation";;
        mret no_deep_output
    | Some projection => mret projection
    end;
  embedding_matrix ←
    _create_embedding_matrix (arg_vocabulary a) embedding_size
      (arg_embeddings_source a);
  decoding_w ←
    tf_get_variable "state_to_word_W"
      [Some rnn_size; Some (vocabulary_len (arg_vocabulary a))];
  decoding_b ←
    tf_get_variable "state_to_word_b"
      [Some (vocabulary_len (arg_vocabulary a))];
  let train_attention_objects :=
    if arg_use_attention a then attention_objects_of (arg_encoders a)
    else ∅ in
  let runtime_attention_objects :=
    if arg_use_attention a then attention_objects_of (arg_encoders a)
    else ∅ in
  log "Decoder initalized.";;
  mret {|
    encoders := arg_encoders a;
    vocabulary := arg_vocabulary a;
    data_id := arg_data_id a;
    max_output_len := arg_max_output_len a;
    dropout_keep_prob := arg_dropout_keep_prob a;
    embedding_size := embedding_size;
    rnn_size := rnn_size;
    output_projection := output_projection;
    encoder_projection := encoder_projection;
    use_attention := arg_use_attention a;
    embeddings_source := arg_embeddings_source a;
    _conditional_gru := arg_conditional_gru a;
    _attention_on_input := arg_attention_on_input a;
    _rnn_cell_str := arg_rnn_cell a;
    embedding_matrix := embedding_matrix;
    decoding_w := decoding_w;
    decoding_b := decoding_b;
    _train_attention_objects := train_attention_objects;
    _runtime_attention_objects := runtime_attention_objects;
  |}.

(** *** The tensors of a constructed decoder, under a feed *)

(** What a session run supplies: the placeholders ([train_mode];
    [go_symbols], of shape [1, batch], given by its single row;
    [train_inputs] and [train_padding], of shape [max_output_len, batch])
    and the current values of the variables, by identity. *)
Record Feed : Type := {
  fd_train_mode : bool;
  fd_go_symbols : list Z;
  fd_train_inputs : list (list Z);
  fd_train_padding : Mat;
  fd_matrix : nat → Mat;
  fd_vector : nat → Vec;
}.

Section run.
Variable self : Decoder.
Variable fd : Feed.

(** [self.batch_size = tf.shape(self.go_symbols)[1]] *)
Definition batch_size : nat := length (fd_go_symbols fd).

(** [dropout] on the tensor an encoder projection returns *)
Definition dropout_projected (p : Projected) (keep_prob : float)
    (train_mode : bool) : Projected :=
  match p with
  | Rank1 v => Rank1 (dropout1 v keep_prob train_mode)
  | Rank2 m => Rank2 (dropout m keep_prob train_mode)
  end.

(** [_create_initial_state]: the projection of the encoders under
    dropout, then its broadcast to the batch when it has rank 1 *)
Definition projected_initial_state : Projected :=
  dropout_projected
    (encoder_projection self (fd_train_mode fd) (Some (rnn_size self))
       (encoders self))
    (dropout_keep_prob self) (fd_train_mode fd).

Definition _create_initial_state : Result Mat :=
  match projected_initial_state with
  | Rank2 initial_state => Ok initial_state
  | Rank1 initial_state =>
      py_assert
        (bool_decide (Z.of_nat (length initial_state) = rnn_size self));;
      let tiles := tf_tile initial_state batch_size in
      tf_reshape_rows tiles (rnn_size self)
  end.

(** [embed_and_dropout], on a rank-1 tensor of ids (the previous words of
    the batch) and on a rank-2 tensor of ids (the training inputs) *)
Definition embed_and_dropout (inputs : list Z) : Mat :=
  let embedded :=
    tf_embedding_lookup (fd_matrix fd (var_id (embedding_matrix self)))
      inputs in
  dropout embedded (dropout_keep_prob self) (fd_train_mode fd).

Definition embed_and_dropout_seq (inputs : list (list Z)) : list Mat :=
  let embedded :=
    tf_embedding_lookup (fd_matrix fd (var_id (embedding_matrix self)))
      <$> inputs in
  dropout3 embedded (dropout_keep_prob self) (fd_train_mode fd).

(** [embedded_train_inputs] and [embedded_go_symbols] of [__init__] *)
Definition embedded_train_inputs : list Mat :=
  embed_and_dropout_seq (py_but_last (fd_train_inputs fd)).

Definition embedded_go_symbols : list Mat :=
  [tf_embedding_lookup (fd_matrix fd (var_id (embedding_matrix self)))
     (fd_go_symbols fd)].

(** [_logit_function] *)
Definition _logit_function (state : Mat) : Mat :=
  let state := dropout state (dropout_keep_prob self) (fd_train_mode fd) in
  tf_add (tf_matmul state (fd_matrix fd (var_id (decoding_w self))))
    (fd_vector fd (var_id (decoding_b self))).

(** [_get_rnn_cell] and [_get_conditional_gru_cell] *)
Definition _get_rnn_cell : Result Cell :=
  match RNN_CELL_TYPES !! _rnn_cell_str self with
  | Some make => Ok (make (rnn_size self))
  | None => Raise KeyError
  end.

Definition _get_conditional_gru_cell
    : Mat → RnnState → string → Result (Mat * RnnState) :=
  λ x st scope,
    match st with
    | GRUState h => let '(out, h') := GRUCell (rnn_size self) scope x h in
                    Ok (out, GRUState h')
    | LSTMStateTuple _ _ => Raise TypeError
    end.

(** [get_attention_object] *)
Definition get_attention_object (encoder : Encoder) (train_mode : bool)
    : option BaseAttention :=
  if train_mode then _train_attention_objects self !! enc_id encoder
  else _runtime_attention_objects self !! enc_id encoder.

(** [prev_state] used as a tensor, and [prev_state.c] *)
Definition state_tensor (st : RnnState) : Result Mat :=
  match st with
  | GRUState h => Ok h
  | LSTMStateTuple _ _ => Raise TypeError
  end.

Definition state_c (st : RnnState) : Result Mat :=
  match st with
  | LSTMStateTuple c _ => Ok c
  | GRUState _ => Raise (AttributeError "c")
  end.

(** [step] *)
Definition step (att_objects : list BaseAttention) (input_ : Mat)
    (prev_state : RnnState) (prev_attns : list Mat)
    : Result (Mat * RnnState * list Mat) :=
  cell ← _get_rnn_cell;
  let x :=
    if _attention_on_input self
    then linear (input_ :: prev_attns) (embedding_size self) None
    else input_ in
  '(cell_output, state) ← cell x prev_state;
  attns ←
    (if bool_decide (_rnn_cell_str self = "GRU") then
       query ← state_tensor prev_state;
       Ok ((λ a, attention a cell_output query x) <$> att_objects)
     else if bool_decide (_rnn_cell_str self = "LSTM") then
       query ← state_c prev_state;
       Ok ((λ a, attention a cell_output query x) <$> att_objects)
     else Raise (ValueError "Unknown RNN cell."));
  '(cell_output, state) ←
    (if _conditional_gru self && bool_decide (_rnn_cell_str self = "GRU")
     then
       let cell_cond := _get_conditional_gru_cell in
       cond_input ← tf_concat attns;
       cell_cond cond_input state "cond_gru_2_cell"
     else Ok (cell_output, state));
  let output :=
    match attns with
    | [] => cell_output
    | _ :: _ => linear (cell_output :: attns) (Some (rnn_size self))
                  (Some "AttnOutputProjection")
    end in
  let logits := _logit_function output in
  Ok (logits, state, attns).

End run.
(** *** The decoding loop *)

(** The variables the loop of [_decoding_loop] updates. *)
Record LoopState : Type := {
  ls_step_logits : option Mat;
  ls_state : RnnState;
  ls_attns : list Mat;
  ls_states : list RnnState;
  ls_logits : list Mat;
  ls_mask : list (list bool);
  ls_finished : list bool;
}.

Section loop.
Variable self : Decoder.
Variable fd : Feed.
Variable go_symbols : list Mat.
Variable train_inputs : option (list Mat).
Variable train_mode : bool.

(** [att_objects]: the attention objects of the encoders that have one *)
Definition att_objects : list BaseAttention :=
  let att_objects :=
    (λ e, get_attention_object self e train_mode) <$> encoders self in
  omap id att_objects.

(** The state of the loop variables before the first iteration. *)
Definition initial_loop_state : Result LoopState :=
  initial_state ← _create_initial_state self fd;
  state ←
    (if bool_decide (_rnn_cell_str self = "GRU") then
       Ok (GRUState initial_state)
     else if bool_decide (_rnn_cell_str self = "LSTM") then
       Ok (LSTMStateTuple initial_state initial_state)
     else Raise (ValueError "Unknown RNN cell."));
  Ok {|
    ls_step_logits := None;
    ls_state := state;
    ls_attns := (λ a, tf_zeros (batch_size fd) (attn_size a)) <$> att_objects;
    ls_states := [];
    ls_logits := [];
    ls_mask := [];
    ls_finished := tf_zeros_bool (batch_size fd);
  |}.

(** The block [# choose the input] of iteration [i]. *)
Definition choose_input (i : nat) (step_logits : option Mat) : Result Mat :=
  match step_logits with
  | None =>
      py_assert (bool_decide (i = 0));;
      py_index go_symbols 0
  | Some step_logits =>
      if train_mode then
        match train_inputs with
        | Some train_inputs => py_index train_inputs (Z.of_nat i - 1)
        | None => Raise TypeError
        end
      else
        let prev_word_index := tf_argmax step_logits in
        Ok (embed_and_dropout self fd prev_word_index)
  end.

(** One iteration of [for i in range(self.max_output_len)].  The call
    [self.step_scope.reuse_variables()] of the iterations [i > 0] makes
    them share the weights of the first one: the operations of [Ops] are
    the same functions at every step. *)
Definition loop_body (i : nat) (s : LoopState) : Result LoopState :=
  inp ← choose_input i (ls_step_logits s);
  '(step_logits, state, attns) ←
    step self fd att_objects inp (ls_state s) (ls_attns s);
  let next_word_id := tf_argmax step_logits in
  let has_just_finished := tf_equal next_word_id END_TOKEN_INDEX in
  let finished := tf_logical_or has_just_finished (ls_finished s) in
  Ok {|
    ls_step_logits := Some step_logits;
    ls_state := state;
    ls_attns := attns;
    ls_states := ls_states s ++ [state];
    ls_logits := ls_logits s ++ [step_logits];
    ls_mask := ls_mask s ++ [tf_logical_not finished];
    ls_finished := finished;
  |}.

(** The loop variables after the first [k] iterations. *)
Definition loop_after (k : nat) : Result LoopState :=
  s ← initial_loop_state; for_range loop_body 0 k s.

(** [_decoding_loop] *)
Definition _decoding_loop
    : Result (list Mat * list RnnState * list (list bool)) :=
  s ← loop_after (Z.to_nat (max_output_len self));
  Ok (ls_logits s, ls_states s, ls_mask s).

End loop.

(** [train_logits], [runtime_logits], [runtime_rnn_states],
    [runtime_mask] and [decoded] of [__init__] *)
Definition train_logits (self : Decoder) (fd : Feed) : Result (list Mat) :=
  '(logits, _, _) ←
    _decoding_loop self fd (embedded_go_symbols self fd)
      (Some (embedded_train_inputs self fd)) true;
  Ok logits.

Definition runtime_loop (self : Decoder) (fd : Feed)
    : Result (list Mat * list RnnState * list (list bool)) :=
  _decoding_loop self fd (embedded_go_symbols self fd) None false.

Definition runtime_logits (self : Decoder) (fd : Feed)
    : Result (list Mat) :=
  '(logits, _, _) ← runtime_loop self fd; Ok logits.

Definition runtime_rnn_states (self : Decoder) (fd : Feed)
    : Result (list RnnState) :=
  '(_, states, _) ← runtime_loop self fd; Ok states.

Definition runtime_mask (self : Decoder) (fd : Feed)
    : Result (list (list bool)) :=
  '(_, _, mask) ← runtime_loop self fd; Ok mask.

Definition decoded_of (logits : list Mat) : list (list Z) :=
  (λ logit, (λ i, i + 1)%Z <$> tf_argmax (slice_from_1 logit)) <$> logits.

Definition decoded (self : Decoder) (fd : Feed) : Result (list (list Z)) :=
  logits ← runtime_logits self fd; Ok (decoded_of logits).

(** *** Definitions used to state the properties *)

(** The step the specification describes for a decoder without attention,
    written from its words for comparison with [step]: the bare recurrent
    cell applied to [x], then the logit layer, with no attention
    contexts. *)
Definition bare_cell_step (self : Decoder) (fd : Feed) (x : Mat)
    (prev_state : RnnState) : Result (Mat * RnnState * list Mat) :=
  cell ← _get_rnn_cell self;
  '(cell_output, state) ← cell x prev_state;
  Ok (_logit_function self fd cell_output, state, []).

(** The recurrent state is of the kind the decoder's cell handles. *)
Definition state_matches_cell (self : Decoder) (st : RnnState) : Prop :=
  match st with
  | GRUState _ => _rnn_cell_str self = "GRU"
  | LSTMStateTuple _ _ => _rnn_cell_str self = "LSTM"
  end.

(** The arguments [a] with [conditional_gru = flag], and the decoder
    [self] with [_conditional_gru = flag]. *)
Definition with_conditional_gru (flag : bool) (a : Args) : Args :=
  {| arg_encoders := arg_encoders a;
     arg_vocabulary := arg_vocabulary a;
     arg_data_id := arg_data_id a;
     arg_name := arg_name a;
     arg_max_output_len := arg_max_output_len a;
     arg_dropout_keep_prob := arg_dropout_keep_prob a;
     arg_rnn_size := arg_rnn_size a;
     arg_embedding_size := arg_embedding_size a;
     arg_output_projection := arg_output_projection a;
     arg_encoder_projection := arg_encoder_projection a;
     arg_use_attention := arg_use_attention a;
     arg_embeddings_source := arg_embeddings_source a;
     arg_attention_on_input := arg_attention_on_input a;
     arg_rnn_cell := arg_rnn_cell a;
     arg_conditional_gru := flag;
     arg_save_checkpoint := arg_save_checkpoint a;
     arg_load_checkpoint := arg_load_checkpoint a |}.

Definition set_conditional_gru (flag : bool) (self : Decoder) : Decoder :=
  {| encoders := encoders self;
     vocabulary := vocabulary self;
     data_id := data_id self;
     max_output_len := max_output_len self;
     dropout_keep_prob := dropout_keep_prob self;
     embedding_size := embedding_size self;
     rnn_size := rnn_size self;
     output_projection := output_projection self;
     encoder_projection := encoder_projection self;
     use_attention := use_attention self;
     embeddings_source := embeddings_source self;
     _conditional_gru := flag;
     _attention_on_input := _attention_on_input self;
     _rnn_cell_str := _rnn_cell_str self;
     embedding_matrix := embedding_matrix self;
     decoding_w := decoding_w self;
     decoding_b := decoding_b self;
     _train_attention_objects := _train_attention_objects self;
     _runtime_attention_objects := _runtime_attention_objects self |}.

(** [tf.concat(ms, 1)] of matrices with the same number of rows: the rows
    side by side. *)
Definition concat_rows (ms : list Mat) : Mat :=
  match ms with
  | [] => []
  | m :: ms' => foldl (zip_with app) m ms'
  end.

(** Modelled from the spec: the projector [empty_initial_state] of the
    module [neuralmonkey.decoders.encoder_projection], which is not among
    the sources.  Section 4.2, policy 1: without encoders, a constant
    initial state, a single vector of size [rnn_size]. *)
Definition spec_empty_initial_state : EncoderProjection :=
  λ _ rnn_size _,
    Rank1 (replicate (Z.to_nat (default 0%Z rnn_size)) float_zero).

(** Modelled from the spec: the projector [concat_encoder_projection] of
    the same module.  Section 4.2, policy 2: the concatenation of all the
    encoders' summary vectors. *)
Definition spec_concat_encoder_projection : EncoderProjection :=
  λ _ _ encoders, Rank2 (concat_rows (encoded <$> encoders)).

(** Modelled from the spec: the projector [linear_encoder_projection] of
    the same module.  Section 4.2, policy 3: a learned linear map from the
    concatenation of the encoders' summaries to [rnn_size], with
    dropout. *)
Definition spec_linear_encoder_projection (keep_prob : float)
    : EncoderProjection :=
  λ train_mode rnn_size encoders,
    Rank2 (linear [dropout (concat_rows (encoded <$> encoders)) keep_prob
                     train_mode]
             rnn_size None).

(** Modelled from the spec: the projector of the policy that the
    constructor selects for the arguments [a] when they give no
    [encoder_projection] (section 4.2: no encoders, no explicit [rnn_size],
    explicit [rnn_size]). *)
Definition spec_encoder_projection (a : Args) : EncoderProjection :=
  if arg_encoders a is [] then spec_empty_initial_state
  else if arg_rnn_size a is None then spec_concat_encoder_projection
  else spec_linear_encoder_projection (arg_dropout_keep_prob a).

(** The summary of the encoder [e] has one row per example of the batch,
    each of the encoder's static width when that is known. *)
Definition encoded_fits (fd : Feed) (e : Encoder) : Prop :=
  length (encoded e) = batch_size fd
  ∧ ∀ w, encoded_width e = Some w →
         Forall (λ row, Z.of_nat (length row) = w) (encoded e).

(** The arguments pass the embedding checks of [__init__]: a size or a
    source is given, and a given source's matrix has a second
    dimension. *)
Definition embedding_args_ok (a : Args) : Prop :=
  match arg_embeddings_source a with
  | Some src => is_ok (shape_dim (embedding_matrix_of src) 1) = true
  | None => is_Some (arg_embedding_size a)
  end.

(** The arguments pass every check [__init__] makes before it builds
    anything: the embedding arguments, the cell name, and an [rnn_size]
    that is given or can be summed from encoders of known width. *)
Definition passes_argument_checks (a : Args) : Prop :=
  embedding_args_ok a
  ∧ (arg_rnn_cell a = "GRU" ∨ arg_rnn_cell a = "LSTM")
  ∧ (is_Some (arg_rnn_size a)
     ∨ (arg_encoder_projection a = None ∧ arg_encoders a ≠ []
        ∧ None ∉ encoded_width <$> arg_encoders a)).

(** The arguments [a] with [output_projection = projection]. *)
Definition with_output_projection (projection : option OutputProjection)
    (a : Args) : Args :=
  {| arg_encoders := arg_encoders a;
     arg_vocabulary := arg_vocabulary a;
     arg_data_id := arg_data_id a;
     arg_name := arg_name a;
     arg_max_output_len := arg_max_output_len a;
     arg_dropout_keep_prob := arg_dropout_keep_prob a;
     arg_rnn_size := arg_rnn_size a;
     arg_embedding_size := arg_embedding_size a;
     arg_output_projection := projection;
     arg_encoder_projection := arg_encoder_projection a;
     arg_use_attention := arg_use_attention a;
     arg_embeddings_source := arg_embeddings_source a;
     arg_attention_on_input := arg_attention_on_input a;
     arg_rnn_cell := arg_rnn_cell a;
     arg_conditional_gru := arg_conditional_gru a;
     arg_save_checkpoint := arg_save_checkpoint a;
     arg_load_checkpoint := arg_load_checkpoint a |}.

(** *** Feeding the placeholders *)

(** A dataset: [len(dataset)] and
    [dataset.get_series(name, allow_none=True)], which is [None] for a
    series the dataset does not have. *)
Record Dataset : Type := {
  dataset_len : nat;
  get_series : string → option (list (list string));
}.

(** A value given to a placeholder. *)
Inductive FeedValue : Type :=
| FBool (b : bool)
| FIds (ids : list (list Z))
| FFloats (m : Mat).

(** The placeholders of [_create_input_placeholders] ([train_mode],
    [go_symbols] of shape [1, None]) and of
    [_create_training_placeholders] ([train_inputs] and [train_padding] of
    shape [max_output_len, None]), by the names they are created with. *)
Definition train_mode_placeholder : string := "train_mode".
Definition go_symbols_placeholder : string := "decoder_go_symbols".
Definition train_inputs_placeholder : string := "decoder_input_placeholder".
Definition train_padding_placeholder : string :=
  "decoder_padding_placeholder".

(** [array.shape == (rows, cols)] for a two-dimensional array *)
Definition np_shape_is {A} (m : list (list A)) (rows : Z) (cols : nat)
    : bool :=
  bool_decide (Z.of_nat (length m) = rows ∧ Forall (λ r, length r = cols) m).

Section feed.

(** [vocabulary.sentences_to_tensor(sentences, max_len, train_mode,
    add_start_symbol, add_end_symbol)] of [neuralmonkey.vocabulary]: the
    ids and the padding weights. *)
Variable sentences_to_tensor :
  Vocabulary → list (list string) → Z → bool → bool → bool →
  list (list Z) * Mat.

(** [Decoder.feed_dict] *)
Definition feed_dict (self : Decoder) (dataset : Dataset) (train : bool)
    : Result (gmap string FeedValue) :=
  let sentences := get_series dataset (data_id self) in
  (if sentences is None
   then if train
        then Raise (ValueError
                      "When training, you must feed reference sentences")
        else Ok tt
   else Ok tt);;
  let fd := <[train_mode_placeholder := FBool train]> ∅ in
  let go_symbol_idx := get_word_index (vocabulary self) START_TOKEN in
  let fd :=
    <[go_symbols_placeholder :=
        FIds [replicate (dataset_len dataset) go_symbol_idx]]> fd in
  match sentences with
  | Some sentences_list =>
      let '(inputs, weights) :=
        sentences_to_tensor (vocabulary self) sentences_list
          (max_output_len self) false false true in
      py_assert
        (np_shape_is inputs (max_output_len self) (length sentences_list));;
      py_assert
        (np_shape_is weights (max_output_len self) (length sentences_list));;
      let fd := <[train_inputs_placeholder := FIds inputs]> fd in
      let fd := <[train_padding_placeholder := FFloats weights]> fd in
      Ok fd
  | None => Ok fd
  end.

End feed.

(** The feed [fd] with other values for the training placeholders. *)
Definition set_training_placeholders (inputs : list (list Z))
    (padding : Mat) (fd : Feed) : Feed :=
  {| fd_train_mode := fd_train_mode fd;
     fd_go_symbols := fd_go_symbols fd;
     fd_train_inputs := inputs;
     fd_train_padding := padding;
     fd_matrix := fd_matrix fd;
     fd_vector := fd_vector fd |}.

End decoder.
End decoder.

(** ** [neuralmonkey/decoders/sequence_regressor.py] *)

Module sequence_regressor.

(** The graph nodes the constructor builds, as terms. *)
#[warnings="-register-all"]
Inductive Tensor : Type :=
| TVariable (v : TfVariable)
| TPlaceholder (name : string)
| TEncoded (encoder : nat)
| TConcat (values : list Tensor) (axis : Z)
| TMlpLogits (input : Tensor) (layers : option (list Z))
    (dropout_plc : Tensor) (output_size : Z)
| TSub (a b : Tensor)
| TSquare (a : Tensor)
| TReduceMean (a : Tensor).

(** The values the attributes of a regressor hold. *)
Inductive Value : Type :=
| VNone
| VInt (n : Z)
| VStr (s : string)
| VFloat (numerator denominator : Z)
| VInts (l : option (list Z))
| VEncoders (ids : list nat)
| VActivation (name : string)
| VTensor (t : Tensor).

(** An object: its instance dictionary and the attributes its classes
    define. *)
Record Object : Type := {
  obj_dict : gmap string Value;
  obj_class : gmap string Value;
}.

(** [self.name]: the instance dictionary first, then the classes;
    [AttributeError] when neither has it. *)
Definition getattr (self : Object) (name : string) : Result Value :=
  match obj_dict self !! name with
  | Some v => Ok v
  | None =>
      match obj_class self !! name with
      | Some v => Ok v
      | None => Raise (AttributeError name)
      end
  end.

(** [self.name = v] *)
Definition setattr (name : string) (v : Value) (self : Object) : Object :=
  {| obj_dict := <[name := v]> (obj_dict self);
     obj_class := obj_class self |}.

Record Args : Type := {
  arg_name : string;
  arg_encoders : list nat;
  arg_data_id : string;
  arg_layers : option (list Z);
  arg_activation : string;
  arg_dropout_keep_prob : Z * Z;
  arg_save_checkpoint : option string;
  arg_load_checkpoint : option string;
}.

Section regressor.

(** [ModelPart.__init__] and the attributes of the class [ModelPart] (of
    [neuralmonkey.model.model_part]): the object the base constructor
    leaves. *)
Variable ModelPart__init__ :
  string → option string → option string → Object.

(** [assert_shape] of [neuralmonkey.checking] on the logits of the MLP:
    whether the static shape matches [[-1, 1]]. *)
Variable assert_shape_ok : Tensor → bool.

(** [tf.concat(values, 1)] *)
Definition tf_concat (values : list Tensor) : Result Tensor :=
  match values with
  | [] => Raise (ValueError "concat")
  | _ :: _ => Ok (TConcat values 1)
  end.

(** [SequenceRegressor.__init__]; the two [tf.summary.scalar] calls only
    register summaries of [cost] and assign nothing. *)
Definition __init__ (a : Args) : Build Object :=
  let self := ModelPart__init__ (arg_name a) (arg_save_checkpoint a)
                (arg_load_checkpoint a) in
  let self := setattr "encoders" (VEncoders (arg_encoders a)) self in
  let self := setattr "data_id" (VStr (arg_data_id a)) self in
  let self := setattr "layers" (VInts (arg_layers a)) self in
  let self := setattr "activation" (VActivation (arg_activation a)) self in
  let self :=
    setattr "dropout_keep_prob"
      (VFloat (arg_dropout_keep_prob a).1 (arg_dropout_keep_prob a).2)
      self in
  let self := setattr "max_output_len" (VInt 1) self in
  learning_step ← tf_get_variable "learning_step" [];
  let self := setattr "learning_step" (VTensor (TVariable learning_step))
                self in
  let dropout_placeholder := TPlaceholder "dropout_plc" in
  let self := setattr "dropout_placeholder" (VTensor dropout_placeholder)
                self in
  let gt_inputs := TPlaceholder "targets" in
  let self := setattr "gt_inputs" (VTensor gt_inputs) self in
  mlp_input ← lift (tf_concat (TEncoded <$> arg_encoders a));
  let mlp_logits :=
    TMlpLogits mlp_input (arg_layers a) dropout_placeholder 1 in
  lift (py_assert (assert_shape_ok mlp_logits));;
  let self := setattr "prediction" (VTensor mlp_logits) self in
  let cost := TReduceMean (TSquare (TSub mlp_logits gt_inputs)) in
  let self := setattr "cost" (VTensor cost) self in
  mret self.

(** The properties [train_loss], [runtime_loss] and [decoded]. *)
Definition train_loss (self : Object) : Result Value := getattr self "cost".
Definition runtime_loss (self : Object) : Result Value :=
  getattr self "cost".
Definition decoded (self : Object) : Result Value :=
  getattr self "decoded_logit".

(** [zip] of the unpacked [rows]: the columns of [rows], as many as the
    shortest row has; no column for no row. *)
Definition py_zip_star (rows : list (list Z)) : list (list Z) :=
  match rows with
  | [] => []
  | row :: rows' =>
      (λ i, (λ r : list Z, default 0%Z (r !! i)) <$> rows)
        <$> seq 0 (foldr Nat.min (length row) (length <$> rows'))
  end.

(** [feed_dict]: the targets are the first entries of the sentences of
    the series [data_id] ([None] when the dataset has no such series); the
    method reads attributes and assigns none. *)
Definition feed_dict (self : Object) (sentences : option (list (list Z)))
    (train : bool) : Result (list (Value * Value)) :=
  sentences_list ← match sentences with
                   | Some l => Ok l
                   | None => Raise TypeError
                   end;
  targets ← py_index (py_zip_star sentences_list) 0;
  gt_inputs ← getattr self "gt_inputs";
  dropout_placeholder ← getattr self "dropout_placeholder";
  keep ← (if train then getattr self "dropout_keep_prob"
          else Ok (VFloat 1 1));
  Ok [(gt_inputs, VInts (Some targets)); (dropout_placeholder, keep)].

End regressor.

(** A base object as [ModelPart.__init__] could leave it, and the
    arguments of a regressor over one encoder. *)
Definition toy_model_part (name : string)
    (save_checkpoint load_checkpoint : option string) : Object :=
  {| obj_dict := <["_name" := VStr name]> ∅;
     obj_class := <["name" := VStr name]> ∅ |}.

Definition toy_args : Args :=
  {| arg_name := "regressor";
     arg_encoders := [1];
     arg_data_id := "score";
     arg_layers := Some [4%Z];
     arg_activation := "tanh";
     arg_dropout_keep_prob := (1, 2)%Z;
     arg_save_checkpoint := None;
     arg_load_checkpoint := None |}.

End sequence_regressor.

(** ** A small concrete backend

    Integers stand for the scalars; the operations are simple integer
    functions of the right shape.  Dropout doubles every entry while
    training and is the identity otherwise. *)

Module toy.
Import decoder.

#[export] Instance toy_scalar : Scalar := {|
  float := Z;
  float_zero := 0%Z;
  float_gt := Z.gtb;
|}.

Definition add_rows (a b : list (list Z)) : list (list Z) :=
  zip_with (zip_with Z.add) a b.

Definition double (m : list (list Z)) : list (list Z) :=
  (λ row : list Z, Z.mul 2 <$> row) <$> m.

Definition lookup_rows (m : list (list Z)) (ids : list Z)
    : list (list Z) :=
  (λ i, default [] (m !! Z.to_nat i)) <$> ids.

Definition join_rows (ms : list (list (list Z))) : Result (list (list Z)) :=
  match ms with
  | [] => Raise (ValueError "concat")
  | m :: ms' => Ok (foldl (zip_with app) m ms')
  end.

Definition fit (n : nat) (row : list Z) : list Z :=
  take n (row ++ replicate n 0%Z).

Definition matmul (a w : list (list Z)) : list (list Z) :=
  let width := length (default [] (head w)) in
  (λ row : list Z, foldr (zip_with Z.add) (replicate width 0%Z)
            (zip_with (λ x wrow, Z.mul x <$> wrow) row w)) <$> a.

Definition widen (size : option Z) (inputs : list (list (list Z)))
    : list (list Z) :=
  (λ row : list Z, fit (Z.to_nat (default 0%Z size)) (Z.add 1 <$> row))
    <$> default [] (head inputs).

#[export] Instance toy_ops : Ops := {|
  START_TOKEN := "<s>";
  END_TOKEN_INDEX := 1%Z;
  dropout1 := λ v _ train, if train then Z.mul 2 <$> v else v;
  dropout := λ m _ train, if train then double m else m;
  dropout3 := λ c _ train, if train then double <$> c else c;
  tf_embedding_lookup := lookup_rows;
  linear := λ inputs size _, widen size inputs;
  OrthoGRUCell := λ _ x h, (add_rows x h, add_rows x h);
  LSTMCell := λ _ x '(c, h), (add_rows (add_rows x c) h,
                               (add_rows x c, add_rows (add_rows x c) h));
  GRUCell := λ _ _ x h, (add_rows x h, add_rows x h);
  tf_concat := join_rows;
  tf_matmul := matmul;
  tf_add := λ m b, (λ row : list Z, zip_with Z.add row b) <$> m;
  empty_initial_state :=
    λ _ size _, Rank1 (replicate (Z.to_nat (default 0%Z size)) 0%Z);
  concat_encoder_projection :=
    λ _ _ es, Rank2 (default [] (match join_rows (encoded <$> es) with
                                 | Ok m => Some m
                                 | Raise _ => None
                                 end));
  linear_encoder_projection :=
    λ _ _ size es, Rank2 (widen size (encoded <$> es));
  no_deep_output := λ out _ _, out;
|}.

Definition toy_vocabulary : Vocabulary :=
  {| vocabulary_len := 10; get_word_index := λ _, 2%Z |}.

(** A language-model decoder (no encoders) of horizon 5 over ten ids, with
    the defaults of the signature except for the given flags. *)
Definition toy_args (rnn_cell : string) (conditional_gru : bool)
    (attention_on_input : bool) : Args :=
  {| arg_encoders := [];
     arg_vocabulary := toy_vocabulary;
     arg_data_id := "target";
     arg_name := "decoder";
     arg_max_output_len := 5;
     arg_dropout_keep_prob := 1%Z;
     arg_rnn_size := Some 2%Z;
     arg_embedding_size := Some 2%Z;
     arg_output_projection := None;
     arg_encoder_projection := None;
     arg_use_attention := false;
     arg_embeddings_source := None;
     arg_attention_on_input := attention_on_input;
     arg_rnn_cell := rnn_cell;
     arg_conditional_gru := conditional_gru;
     arg_save_checkpoint := None;
     arg_load_checkpoint := None |}.

(** An embedded sequence that owns a 10 x 16 matrix (variable 7), and the
    arguments of a decoder that borrows it while also asking for
    [embedding_size = 3]. *)
Definition toy_source : EmbeddedSequence :=
  {| embedding_matrix_of :=
       {| var_id := 7; var_name := "encoder/word_embeddings";
          var_shape := [Some 10%Z; Some 16%Z] |} |}.

Definition toy_borrowing_args : Args :=
  {| arg_encoders := [];
     arg_vocabulary := toy_vocabulary;
     arg_data_id := "target";
     arg_name := "decoder_b";
     arg_max_output_len := 5;
     arg_dropout_keep_prob := 1%Z;
     arg_rnn_size := Some 2%Z;
     arg_embedding_size := Some 3%Z;
     arg_output_projection := None;
     arg_encoder_projection := None;
     arg_use_attention := false;
     arg_embeddings_source := Some toy_source;
     arg_attention_on_input := true;
     arg_rnn_cell := "GRU";
     arg_conditional_gru := false;
     arg_save_checkpoint := None;
     arg_load_checkpoint := None |}.

(** Two encoders without attention, of widths 2 and 3, and the arguments
    of a decoder over them that gives neither [rnn_size] nor
    [encoder_projection]. *)
Definition toy_encoders : list Encoder :=
  [ {| enc_id := 1; encoded := [[1; 2]]%Z; encoded_width := Some 2%Z;
       create_attention_object := None |};
    {| enc_id := 2; encoded := [[3; 4; 5]]%Z; encoded_width := Some 3%Z;
       create_attention_object := None |} ].

Definition toy_encoder_args : Args :=
  {| arg_encoders := toy_encoders;
     arg_vocabulary := toy_vocabulary;
     arg_data_id := "target";
     arg_name := "decoder_c";
     arg_max_output_len := 5;
     arg_dropout_keep_prob := 1%Z;
     arg_rnn_size := None;
     arg_embedding_size := Some 2%Z;
     arg_output_projection := None;
     arg_encoder_projection := None;
     arg_use_attention := false;
     arg_embeddings_source := None;
     arg_attention_on_input := true;
     arg_rnn_cell := "GRU";
     arg_conditional_gru := false;
     arg_save_checkpoint := None;
     arg_load_checkpoint := None |}.

(** An encoder with an attention object whose context is the cell output,
    and the arguments of a GRU decoder that attends over it and over the
    first of the [toy_encoders]. *)
Definition toy_attention : BaseAttention :=
  {| attn_size := 2; attention := λ cell_output _ _, cell_output |}.

Definition toy_attentive_encoder : Encoder :=
  {| enc_id := 3; encoded := [[6; 7]]%Z; encoded_width := Some 2%Z;
     create_attention_object := Some toy_attention |}.

Definition toy_attentive_args (conditional_gru : bool) : Args :=
  {| arg_encoders :=
       [ {| enc_id := 1; encoded := [[1; 2]]%Z; encoded_width := Some 2%Z;
            create_attention_object := None |};
         toy_attentive_encoder ];
     arg_vocabulary := toy_vocabulary;
     arg_data_id := "target";
     arg_name := "decoder_d";
     arg_max_output_len := 5;
     arg_dropout_keep_prob := 1%Z;
     arg_rnn_size := Some 2%Z;
     arg_embedding_size := Some 2%Z;
     arg_output_projection := None;
     arg_encoder_projection := None;
     arg_use_attention := true;
     arg_embeddings_source := None;
     arg_attention_on_input := true;
     arg_rnn_cell := "GRU";
     arg_conditional_gru := conditional_gru;
     arg_save_checkpoint := None;
     arg_load_checkpoint := None |}.

(** A dataset of two target sentences, and a [sentences_to_tensor] that
    writes each sentence down a column, then the end token 1, then the
    padding 0, with weight 1 up to the end token. *)
Definition toy_dataset : Dataset :=
  {| dataset_len := 2;
     get_series := λ name,
       if decide (name = "target") then Some [["a"; "b"]; ["c"]]
       else None |}.

Definition toy_sentences_to_tensor (vocab : Vocabulary)
    (sentences : list (list string)) (max_len : Z)
    (train_mode add_start_symbol add_end_symbol : bool)
    : list (list Z) * list (list Z) :=
  ((λ t, (λ sentence : list string,
            match sentence !! t with
            | Some word => get_word_index vocab word
            | None => if decide (t = length sentence) then 1%Z else 0%Z
            end) <$> sentences) <$> seq 0 (Z.to_nat max_len),
   (λ t, (λ sentence : list string,
            if decide (t ≤ length sentence) then 1%Z else 0%Z)
           <$> sentences) <$> seq 0 (Z.to_nat max_len)).

Definition empty_graph : Graph := {| next_var := 0; messages := [] |}.

(** The decoder [__init__] builds for [toy_args] when the cell is known. *)
Definition toy_decoder (rnn_cell : string) (conditional_gru : bool)
    (attention_on_input : bool) : Decoder :=
  {| encoders := [];
     vocabulary := toy_vocabulary;
     data_id := "target";
     max_output_len := 5;
     dropout_keep_prob := 1%Z;
     embedding_size := Some 2%Z;
     rnn_size := 2;
     output_projection := no_deep_output;
     encoder_projection := empty_initial_state;
     use_attention := false;
     embeddings_source := None;
     _conditional_gru := conditional_gru;
     _attention_on_input := attention_on_input;
     _rnn_cell_str := rnn_cell;
     embedding_matrix :=
       {| var_id := 0; var_name := "word_embeddings";
          var_shape := [Some 10%Z; Some 2%Z] |};
     decoding_w :=
       {| var_id := 1; var_name := "state_to_word_W";
          var_shape := [Some 2%Z; Some 10%Z] |};
     decoding_b :=
       {| var_id := 2; var_name := "state_to_word_b";
          var_shape := [Some 10%Z] |};
     _train_attention_objects := ∅;
     _runtime_attention_objects := ∅ |}.

(** Variable values: an embedding matrix (variable 0) whose row [i] is
    [[i; 1]], zero output weights (variable 1) and an output bias
    (variable 2) that is 9 at index [top] and 0 elsewhere, so that every
    step's logits peak at [top]. *)
Definition toy_feed (train : bool) (top : nat) : Feed :=
  {| fd_train_mode := train;
     fd_go_symbols := [2%Z];
     fd_train_inputs := replicate 5 [1%Z];
     fd_train_padding := replicate 5 [1%Z];
     fd_matrix := λ v,
       if decide (v = 0)
       then (λ i, [Z.of_nat i; 1%Z]) <$> seq 0 10
       else replicate 2 (replicate 10 0%Z);
     fd_vector := λ _, <[top := 9%Z]> (replicate 10 0%Z) |}.

(** The inference feed of [toy_feed] for a batch of [batch] examples. *)
Definition toy_batch_feed (batch : nat) : Feed :=
  {| fd_train_mode := false;
     fd_go_symbols := replicate batch 2%Z;
     fd_train_inputs := replicate 5 (replicate batch 1%Z);
     fd_train_padding := replicate 5 (replicate batch 1%Z);
     fd_matrix := fd_matrix (toy_feed false 1);
     fd_vector := fd_vector (toy_feed false 1) |}.

End toy.

(** * Properties of the decoder *)

Module decoder_theory.
Import decoder toy.

(** ** The result monad and the loop combinator *)

Lemma bind_Ok {A B} (m : Result A) (k : A → Result B) (b : B) :
  m ≫= k = Ok b ↔ ∃ a, m = Ok a ∧ k a = Ok b.
Proof.
  destruct m as [a|e]; simpl; split.
  - intros Hk. by exists a.
  - by intros (a' & [= ->] & Hk).
  - discriminate.
  - by intros (a' & [=] & _).
Qed.

Lemma ret_bind {A B} (a : A) (k : A → Result B) : Ok a ≫= k = k a.
Proof. reflexivity. Qed.

Lemma bind_assoc {A B C} (m : Result A) (k : A → Result B)
    (k' : B → Result C) :
  (m ≫= k) ≫= k' = m ≫= (λ a, k a ≫= k').
Proof. by destruct m. Qed.

Lemma for_range_S_r {St} (body : nat → St → Result St) a n s :
  for_range body a (S n) s = for_range body a n s ≫= body (a + n).
Proof.
  revert a s. induction n as [|n IH]; intros a s.
  - simpl. rewrite Nat.add_0_r. by destruct (body a s).
  - change (for_range body a (S (S n)) s)
      with (body a s ≫= for_range body (S a) (S n)).
    change (for_range body a (S n) s)
      with (body a s ≫= for_range body (S a) n).
    rewrite bind_assoc. destruct (body a s) as [s'|e]; [|done].
    rewrite !ret_bind, IH.
    by replace (S a + n) with (a + S n) by lia.
Qed.

(** ** The loop variables along the iterations *)

Section loop_facts.
Context `{Ops}.
Variable self : Decoder.
Variable fd : Feed.
Variable go_symbols : list Mat.
Variable train_inputs : option (list Mat).
Variable train_mode : bool.

#[local] Abbreviation body :=
  (loop_body self fd go_symbols train_inputs train_mode).
#[local] Abbreviation after :=
  (loop_after self fd go_symbols train_inputs train_mode).
#[local] Abbreviation input_of :=
  (choose_input self fd go_symbols train_inputs train_mode).

Lemma loop_after_0 : after 0 = initial_loop_state self fd train_mode.
Proof.
  unfold loop_after. by destruct (initial_loop_state self fd train_mode).
Qed.

Lemma loop_after_S k : after (S k) = after k ≫= body k.
Proof.
  unfold loop_after.
  destruct (initial_loop_state self fd train_mode) as [s0|e]; [|done].
  by rewrite !ret_bind, for_range_S_r.
Qed.

(** What one iteration does to the loop variables. *)
Lemma loop_body_Ok i s s' :
  body i s = Ok s' →
  ∃ inp l st ctx,
    input_of i (ls_step_logits s) = Ok inp
    ∧ step self fd (att_objects self train_mode) inp (ls_state s)
        (ls_attns s) = Ok (l, st, ctx)
    ∧ ls_step_logits s' = Some l
    ∧ ls_state s' = st
    ∧ ls_attns s' = ctx
    ∧ ls_states s' = ls_states s ++ [st]
    ∧ ls_logits s' = ls_logits s ++ [l]
    ∧ ls_finished s' =
        tf_logical_or (tf_equal (tf_argmax l) END_TOKEN_INDEX)
          (ls_finished s)
    ∧ ls_mask s' = ls_mask s ++ [tf_logical_not (ls_finished s')].
Proof.
  unfold loop_body. intros Hbody.
  apply bind_Ok in Hbody as (inp & Hinp & Hbody).
  apply bind_Ok in Hbody as ([[l st] ctx] & Hstep & Hbody).
  injection Hbody as <-. exists inp, l, st, ctx. by repeat split.
Qed.

(** Each iteration appends one entry to each of the three lists. *)
Lemma loop_after_length k s :
  after k = Ok s →
  length (ls_logits s) = k ∧ length (ls_states s) = k
  ∧ length (ls_mask s) = k.
Proof.
  revert s. induction k as [|k IH]; intros s Hs.
  - rewrite loop_after_0 in Hs. unfold initial_loop_state in Hs.
    apply bind_Ok in Hs as (st0 & _ & Hs).
    apply bind_Ok in Hs as (st & _ & Hs).
    by injection Hs as <-.
  - rewrite loop_after_S in Hs. apply bind_Ok in Hs as (s1 & Hs1 & Hs).
    destruct (IH _ Hs1) as (Hl & Hst & Hm).
    apply loop_body_Ok in Hs
      as (inp & l & st & ctx & _ & _ & _ & _ & _ & Est & El & _ & Em).
    rewrite Est, El, Em, !length_app. simpl. lia.
Qed.

(** A run of [n] iterations passes through the run of every [k ≤ n], and
    only extends its lists. *)
Lemma loop_after_le n k sn :
  after n = Ok sn → k ≤ n →
  ∃ sk, after k = Ok sk
    ∧ ls_logits sk `prefix_of` ls_logits sn
    ∧ ls_states sk `prefix_of` ls_states sn
    ∧ ls_mask sk `prefix_of` ls_mask sn.
Proof.
  revert sn. induction n as [|n IH]; intros sn Hn Hk.
  - replace k with 0 by lia. by exists sn.
  - destruct (decide (k = S n)) as [->|Hne]; [by exists sn|].
    rewrite loop_after_S in Hn. apply bind_Ok in Hn as (s1 & Hs1 & Hn).
    destruct (IH _ Hs1) as (sk & Hsk & Pl & Pst & Pm); [lia|].
    apply loop_body_Ok in Hn
      as (inp & l & st & ctx & _ & _ & _ & _ & _ & Est & El & _ & Em).
    exists sk. rewrite Est, El, Em.
    split; [done|]. by repeat split; apply prefix_app_r.
Qed.

(** Iteration [t] of a run of [n > t] iterations: the loop variables
    [before] and [next] around it, the input it chooses, the step it
    performs and what it leaves in the lists the loop returns. *)
Lemma loop_iteration n t sn :
  after n = Ok sn → t < n →
  ∃ before next inp l,
    after t = Ok before
    ∧ after (S t) = Ok next
    ∧ input_of t (ls_step_logits before) = Ok inp
    ∧ step self fd (att_objects self train_mode) inp (ls_state before)
        (ls_attns before) = Ok (l, ls_state next, ls_attns next)
    ∧ ls_step_logits next = Some l
    ∧ ls_finished next =
        tf_logical_or (tf_equal (tf_argmax l) END_TOKEN_INDEX)
          (ls_finished before)
    ∧ ls_logits sn !! t = Some l
    ∧ ls_states sn !! t = Some (ls_state next)
    ∧ ls_mask sn !! t = Some (tf_logical_not (ls_finished next)).
Proof.
  intros Hn Ht.
  destruct (loop_after_le n (S t) sn Hn) as (next & Hnext & Pl & Pst & Pm);
    [lia|].
  pose proof Hnext as Hnext'. rewrite loop_after_S in Hnext'.
  apply bind_Ok in Hnext' as (before & Hbefore & Hbody).
  destruct (loop_after_length _ _ Hbefore) as (Ll & Lst & Lm).
  apply loop_body_Ok in Hbody
    as (inp & l & st & ctx & Hinp & Hstep & Esl & <- & <- & Est & El
        & Efin & Em).
  exists before, next, inp, l. repeat split; try done.
  - eapply prefix_lookup_Some; [|exact Pl].
    rewrite El. apply lookup_snoc_Some. right. by rewrite Ll.
  - eapply prefix_lookup_Some; [|exact Pst].
    rewrite Est. apply lookup_snoc_Some. right. by rewrite Lst.
  - eapply prefix_lookup_Some; [|exact Pm].
    rewrite Em. apply lookup_snoc_Some. right. by rewrite Lm.
Qed.

(** What [_decoding_loop] returns are the lists of the last loop state. *)
Lemma _decoding_loop_Ok logits states mask :
  _decoding_loop self fd go_symbols train_inputs train_mode
    = Ok (logits, states, mask) →
  ∃ s, after (Z.to_nat (max_output_len self)) = Ok s
    ∧ ls_logits s = logits ∧ ls_states s = states ∧ ls_mask s = mask.
Proof.
  unfold _decoding_loop. intros Hloop.
  apply bind_Ok in Hloop as (s & Hs & Hloop).
  injection Hloop as <- <- <-. by exists s.
Qed.

(** *** The finished flag *)

Lemma tf_logical_or_lookup_true (a b : list bool) (i : nat) :
  i < length a → b !! i = Some true → tf_logical_or a b !! i = Some true.
Proof.
  intros Hi Hb. unfold tf_logical_or.
  destruct (lookup_lt_is_Some_2 a i Hi) as [x Hx].
  rewrite lookup_zip_with, Hx, Hb. simpl. by rewrite orb_true_r.
Qed.

Lemma tf_logical_or_length (a b : list bool) (n : nat) :
  length a = n → length b = n → length (tf_logical_or a b) = n.
Proof. unfold tf_logical_or. rewrite length_zip_with. lia. Qed.

Lemma tf_argmax_length (l : Mat) : length (tf_argmax l) = length l.
Proof. unfold tf_argmax. by rewrite length_fmap. Qed.

Lemma tf_equal_length (ids : list Z) (k : Z) :
  length (tf_equal ids k) = length ids.
Proof. unfold tf_equal. by rewrite length_fmap. Qed.

(** When every step's logits have one row per example, so has the
    finished flag throughout the run. *)
Lemma finished_length n sn :
  after n = Ok sn →
  Forall (λ l, length l = batch_size fd) (ls_logits sn) →
  ∀ k sk, k ≤ n → after k = Ok sk →
    length (ls_finished sk) = batch_size fd.
Proof.
  intros Hn Hrows k. induction k as [|k IH]; intros sk Hk Hsk.
  - rewrite loop_after_0 in Hsk. unfold initial_loop_state in Hsk.
    apply bind_Ok in Hsk as (st0 & _ & Hsk).
    apply bind_Ok in Hsk as (st & _ & Hsk).
    injection Hsk as <-. simpl. unfold tf_zeros_bool.
    by rewrite length_replicate.
  - destruct (loop_iteration n k sn Hn)
      as (before & next & inp & l & Hb & Hnx & _ & _ & _ & Efin & Hl & _);
      [lia|].
    rewrite Hnx in Hsk. injection Hsk as <-. rewrite Efin.
    apply tf_logical_or_length.
    + rewrite tf_equal_length, tf_argmax_length.
      apply (proj1 (Forall_lookup _ _) Hrows k l Hl).
    + apply IH; [lia|done].
Qed.

(** Once true for an example, the flag is true at every later
    iteration. *)
Lemma finished_stays_true n sn :
  after n = Ok sn →
  Forall (λ l, length l = batch_size fd) (ls_logits sn) →
  ∀ t t' st st' b, t ≤ t' → t' ≤ n →
    after t = Ok st → after t' = Ok st' →
    ls_finished st !! b = Some true → ls_finished st' !! b = Some true.
Proof.
  intros Hn Hrows t t' st st' b Htt'. revert st'.
  induction Htt' as [|t' Htt' IH]; intros st' Ht'n Hst Hst' Hb.
  - rewrite Hst in Hst'. by injection Hst' as <-.
  - destruct (loop_iteration n t' sn Hn)
      as (before & next & inp & l & Hbf & Hnx & _ & _ & _ & Efin & Hl & _);
      [lia|].
    rewrite Hnx in Hst'. injection Hst' as <-. rewrite Efin.
    apply tf_logical_or_lookup_true; [|apply IH; [lia|done..]].
    rewrite tf_equal_length, tf_argmax_length.
    rewrite (proj1 (Forall_lookup _ _) Hrows t' l Hl).
    rewrite <- (finished_length n sn Hn Hrows t st); [|lia|done].
    by eapply lookup_lt_Some.
Qed.

End loop_facts.

(** ** The loss mask (C1) *)

Section loss_mask.
Context `{Ops}.

(** C1 (amended).  In every execution mode and at every step [t] of the
    decoding loop, the loss-mask entry of step [t] is the negation of the
    finished flag AFTER it has been updated with the argmax of step [t]'s
    logits: the mask is appended after the update.  Hence an example whose
    argmax at step [t] is the end token is already masked out at step [t]
    itself. *)
Theorem C1_mask_is_negation_of_updated_finished
    (self : Decoder) (fd : Feed) (go_symbols : list Mat)
    (train_inputs : option (list Mat)) (train_mode : bool)
    (logits : list Mat) (states : list RnnState) (mask : list (list bool))
    (t : nat) :
  _decoding_loop self fd go_symbols train_inputs train_mode
    = Ok (logits, states, mask) →
  t < Z.to_nat (max_output_len self) →
  ∃ before next l,
    loop_after self fd go_symbols train_inputs train_mode t = Ok before
    ∧ loop_after self fd go_symbols train_inputs train_mode (S t) = Ok next
    ∧ logits !! t = Some l
    ∧ ls_finished next =
        tf_logical_or (tf_equal (tf_argmax l) END_TOKEN_INDEX)
          (ls_finished before)
    ∧ mask !! t = Some (tf_logical_not (ls_finished next))
    ∧ ∀ b row m,
        l !! b = Some row → argmax_row row = END_TOKEN_INDEX →
        b < length (ls_finished before) →
        mask !! t = Some m → m !! b = Some false.
Proof.
  intros Hloop Ht.
  apply _decoding_loop_Ok in Hloop as (s & Hs & <- & <- & <-).
  destruct (loop_iteration _ _ _ _ _ _ _ _ Hs Ht)
    as (before & next & inp & l & Hb & Hn & _ & _ & _ & Efin & Hl & _ & Hm).
  exists before, next, l. repeat split; try done.
  intros b row m Hrow Hend Hlen Hm'. rewrite Hm in Hm'.
  injection Hm' as <-. rewrite Efin. unfold tf_logical_not.
  rewrite list_lookup_fmap.
  destruct (lookup_lt_is_Some_2 _ _ Hlen) as [x Hx].
  unfold tf_logical_or, tf_equal, tf_argmax.
  rewrite lookup_zip_with, !list_lookup_fmap, Hrow, Hx. simpl.
  by rewrite bool_decide_eq_true_2.
Qed.

End loss_mask.

(** The batch of one example of the toy decoder, trained on a target made
    of end tokens only, with logits that peak at the end token at every
    step. *)
Lemma C1_witness :
  ∃ logits states mask,
    _decoding_loop (toy_decoder "GRU" false true) (toy_feed true 1)
      (embedded_go_symbols (toy_decoder "GRU" false true) (toy_feed true 1))
      (Some (embedded_train_inputs (toy_decoder "GRU" false true)
               (toy_feed true 1)))
      true = Ok (logits, states, mask)
    ∧ 0 < Z.to_nat (max_output_len (toy_decoder "GRU" false true))
    ∧ mask !! 0 = Some [false].
Proof.
  eexists _, _, _. split; [vm_compute; reflexivity|].
  split; [vm_compute; lia|].
  edestruct C1_mask_is_negation_of_updated_finished
    with (self := toy_decoder "GRU" false true) (fd := toy_feed true 1)
         (go_symbols :=
            embedded_go_symbols (toy_decoder "GRU" false true)
              (toy_feed true 1))
         (train_inputs :=
            Some (embedded_train_inputs (toy_decoder "GRU" false true)
                    (toy_feed true 1)))
         (train_mode := true) (t := 0)
    as (before & next & l & Hb & Hn & Hl & Efin & Hm & _);
    [vm_compute; reflexivity | vm_compute; lia |].
  rewrite Hm. vm_compute in Hn. injection Hn as <-. reflexivity.
Defined.

(** C1 as stated fails: on a target of end tokens only, with the end token
    produced from step 0 onward, the mask of the five steps is all false,
    not [1,0,0,0,0]; at step 0 it is not the negation of the finished flag
    before the update (which is still false). *)
Lemma C1_counterexample :
  ∃ logits states mask before,
    _decoding_loop (toy_decoder "GRU" false true) (toy_feed true 1)
      (embedded_go_symbols (toy_decoder "GRU" false true) (toy_feed true 1))
      (Some (embedded_train_inputs (toy_decoder "GRU" false true)
               (toy_feed true 1)))
      true = Ok (logits, states, mask)
    ∧ loop_after (toy_decoder "GRU" false true) (toy_feed true 1)
        (embedded_go_symbols (toy_decoder "GRU" false true)
           (toy_feed true 1))
        (Some (embedded_train_inputs (toy_decoder "GRU" false true)
                 (toy_feed true 1)))
        true 0 = Ok before
    ∧ tf_argmax <$> logits = replicate 5 [END_TOKEN_INDEX]
    ∧ mask = replicate 5 [false]
    ∧ mask ≠ [[true]; [false]; [false]; [false]; [false]]
    ∧ mask !! 0 ≠ Some (tf_logical_not (ls_finished before)).
Proof.
  eexists _, _, _, _. split; [vm_compute; reflexivity|].
  split; [vm_compute; reflexivity|]. vm_compute. by repeat split.
Qed.

(** ** The finished flag (C3) *)

Section finished.
Context `{Ops}.

(** C3.  In every execution mode, when every step's logits hold one row
    per example of the batch: after step [t] the finished flag is the OR of
    its previous value with (argmax of step [t]'s full logits = end-token
    index), it keeps one entry per example, and an example finished before
    step [t] is finished after every later number of steps. *)
Theorem C3_finished_is_monotone
    (self : Decoder) (fd : Feed) (go_symbols : list Mat)
    (train_inputs : option (list Mat)) (train_mode : bool)
    (logits : list Mat) (states : list RnnState) (mask : list (list bool))
    (t : nat) :
  _decoding_loop self fd go_symbols train_inputs train_mode
    = Ok (logits, states, mask) →
  Forall (λ l, length l = batch_size fd) logits →
  t < Z.to_nat (max_output_len self) →
  ∃ before next l,
    loop_after self fd go_symbols train_inputs train_mode t = Ok before
    ∧ loop_after self fd go_symbols train_inputs train_mode (S t) = Ok next
    ∧ logits !! t = Some l
    ∧ ls_finished next =
        tf_logical_or (tf_equal (tf_argmax l) END_TOKEN_INDEX)
          (ls_finished before)
    ∧ length (ls_finished before) = batch_size fd
    ∧ length (ls_finished next) = batch_size fd
    ∧ ∀ t' later b,
        t ≤ t' → t' ≤ Z.to_nat (max_output_len self) →
        loop_after self fd go_symbols train_inputs train_mode t' = Ok later →
        ls_finished before !! b = Some true →
        ls_finished later !! b = Some true.
Proof.
  intros Hloop Hrows Ht.
  apply _decoding_loop_Ok in Hloop as (s & Hs & <- & <- & <-).
  destruct (loop_iteration _ _ _ _ _ _ _ _ Hs Ht)
    as (before & next & inp & l & Hb & Hn & _ & _ & _ & Efin & Hl & _).
  exists before, next, l. repeat split; try done.
  - eapply finished_length; [exact Hs|exact Hrows| |exact Hb]. lia.
  - eapply finished_length; [exact Hs|exact Hrows| |exact Hn]. lia.
  - intros t' later b Htt' Ht' Hlater Hfin.
    by eapply (finished_stays_true _ _ _ _ _ _ s Hs Hrows t t' before later).
Qed.

End finished.

(** The free-running toy decoder whose logits peak at the end token: the
    example is finished after the first step and stays so. *)
Lemma C3_witness :
  ∃ logits states mask later,
    runtime_loop (toy_decoder "GRU" false true) (toy_feed false 1)
      = Ok (logits, states, mask)
    ∧ Forall (λ l, length l = batch_size (toy_feed false 1)) logits
    ∧ 1 < Z.to_nat (max_output_len (toy_decoder "GRU" false true))
    ∧ loop_after (toy_decoder "GRU" false true) (toy_feed false 1)
        (embedded_go_symbols (toy_decoder "GRU" false true)
           (toy_feed false 1)) None false 5 = Ok later
    ∧ ls_finished later !! 0 = Some true.
Proof.
  eexists _, _, _, _. split; [vm_compute; reflexivity|].
  split; [by repeat constructor|]. split; [vm_compute; lia|].
  split; [vm_compute; reflexivity|].
  edestruct C3_finished_is_monotone
    with (self := toy_decoder "GRU" false true) (fd := toy_feed false 1)
         (go_symbols :=
            embedded_go_symbols (toy_decoder "GRU" false true)
              (toy_feed false 1))
         (train_inputs := @None (list (list (list Z))))
         (train_mode := false) (t := 1)
    as (before & next & l & Hb & _ & _ & _ & _ & _ & Hmono);
    [vm_compute; reflexivity | by repeat constructor | vm_compute; lia |].
  eapply (Hmono 5); [lia | vm_compute; lia | vm_compute; reflexivity |].
  vm_compute in Hb. by injection Hb as <-.
Defined.

(** ** The decoded tokens (C4) *)

Section decoded.
Context `{Ops}.

Lemma argmax_from_bounds (l : list float) (best : float) (best_i i : Z) :
  (0 ≤ best_i < i)%Z →
  (0 ≤ argmax_from best best_i i l < i + Z.of_nat (length l))%Z.
Proof.
  revert best best_i i.
  induction l as [|x l IH]; intros best best_i i Hi; simpl.
  - lia.
  - destruct (float_gt x best).
    + specialize (IH x i (i + 1)%Z). lia.
    + specialize (IH best best_i (i + 1)%Z). lia.
Qed.

Lemma argmax_row_bounds (l : list float) :
  l ≠ [] → (0 ≤ argmax_row l < Z.of_nat (length l))%Z.
Proof.
  destruct l as [|x l]; [done|]. intros _. unfold argmax_row.
  pose proof (argmax_from_bounds l x 0 1). simpl length. lia.
Qed.

Lemma argmax_row_nonneg (l : list float) : (0 ≤ argmax_row l)%Z.
Proof.
  destruct l as [|x l]; [done|].
  destruct (argmax_row_bounds (x :: l)) as [Hlo _]; done.
Qed.

(** When [float_gt] is a strict weak order (as [>] is on the floats that
    are numbers), the entry [argmax_row] selects is exceeded by no
    entry. *)
Lemma argmax_from_maximal (l : list float) (best : float) (best_i i : Z) :
  (∀ x y, float_gt x y = true → float_gt y x = false) →
  (∀ x y z, float_gt x y = false → float_gt y z = false →
            float_gt x z = false) →
  ∃ x,
    (argmax_from best best_i i l = best_i ∧ x = best
     ∨ ∃ j, l !! j = Some x
            ∧ argmax_from best best_i i l = (i + Z.of_nat j)%Z)
    ∧ float_gt best x = false
    ∧ ∀ j y, l !! j = Some y → float_gt y x = false.
Proof.
  intros Hasym Hneg.
  assert (∀ x, float_gt x x = false) as Hirrefl.
  { intros x. destruct (float_gt x x) eqn:E; [|done].
    by rewrite <- E, (Hasym x x E). }
  revert best best_i i.
  induction l as [|x' l IH]; intros best best_i i; simpl.
  - exists best. split; [by left|]. split; [apply Hirrefl|done].
  - destruct (float_gt x' best) eqn:Hgt.
    + destruct (IH x' i (i + 1)%Z) as (x & Hwhere & Hx' & Hall).
      exists x. split; [|split].
      * right. destruct Hwhere as [[-> ->]|(j & Hj & ->)].
        -- exists 0. split; [done|lia].
        -- exists (S j). split; [done|lia].
      * eapply Hneg; [|exact Hx']. by apply Hasym.
      * intros [|j] y Hy; [by injection Hy as <-|]. by eapply Hall.
    + destruct (IH best best_i (i + 1)%Z) as (x & Hwhere & Hbest & Hall).
      exists x. split; [|split].
      * destruct Hwhere as [[-> ->]|(j & Hj & ->)]; [by left|].
        right. exists (S j). split; [done|lia].
      * done.
      * intros [|j] y Hy; [|by eapply Hall].
        injection Hy as <-. by eapply Hneg.
Qed.

Lemma argmax_row_maximal (l : list float) :
  (∀ x y, float_gt x y = true → float_gt y x = false) →
  (∀ x y z, float_gt x y = false → float_gt y z = false →
            float_gt x z = false) →
  l ≠ [] →
  ∃ x, l !! Z.to_nat (argmax_row l) = Some x
       ∧ ∀ j y, l !! j = Some y → float_gt y x = false.
Proof.
  intros Hasym Hneg Hl. destruct l as [|x0 l]; [done|].
  destruct (argmax_from_maximal l x0 0 1 Hasym Hneg)
    as (x & Hwhere & Hx0 & Hall).
  exists x. unfold argmax_row. split.
  - destruct Hwhere as [[-> ->]|(j & Hj & ->)]; [done|].
    by replace (Z.to_nat (1 + Z.of_nat j)) with (S j) by lia.
  - intros [|j] y Hy; [by injection Hy as <-|]. by eapply Hall.
Qed.

Lemma runtime_logits_length (self : Decoder) (fd : Feed)
    (logits : list Mat) :
  runtime_logits self fd = Ok logits →
  length logits = Z.to_nat (max_output_len self).
Proof.
  unfold runtime_logits, runtime_loop. intros Hrun.
  apply bind_Ok in Hrun as ([[l st] m] & Hloop & [= ->]).
  apply _decoding_loop_Ok in Hloop as (s & Hs & <- & _).
  by apply loop_after_length in Hs as (-> & _).
Qed.

(** C4.  For every decoder whose vocabulary has at least two ids and whose
    runtime logits have one entry per id: at every step [t] below
    [max_output_len], the decoded token of every example is 1 plus the
    argmax of the example's runtime logits without index 0; it lies in
    [1, vocab_size), so id 0 is never decoded. *)
Theorem C4_decoded_skips_index_0
    (self : Decoder) (fd : Feed) (logits : list Mat) :
  runtime_logits self fd = Ok logits →
  (2 ≤ vocabulary_len (vocabulary self))%Z →
  Forall (Forall (λ row : list float,
            Z.of_nat (length row) = vocabulary_len (vocabulary self)))
    logits →
  ∃ dec,
    decoded self fd = Ok dec
    ∧ length dec = Z.to_nat (max_output_len self)
    ∧ ∀ t, t < Z.to_nat (max_output_len self) →
        ∃ l ids,
          logits !! t = Some l
          ∧ dec !! t = Some ids
          ∧ ids = (λ row, 1 + argmax_row (drop 1 row))%Z <$> l
          ∧ Forall (λ id, 1 ≤ id < vocabulary_len (vocabulary self))%Z ids.
Proof.
  intros Hrun Hvocab Hshape.
  pose proof (runtime_logits_length _ _ _ Hrun) as Hlen.
  exists (decoded_of logits). unfold decoded. rewrite Hrun.
  split; [done|]. unfold decoded_of. split; [by rewrite length_fmap|].
  intros t Ht.
  destruct (lookup_lt_is_Some_2 logits t) as [l Hl]; [lia|].
  exists l. eexists. split; [done|].
  rewrite list_lookup_fmap, Hl. split; [done|].
  unfold tf_argmax, slice_from_1. rewrite <- !list_fmap_compose.
  split; [by apply list_fmap_ext; intros i row _; simpl; lia|].
  apply Forall_fmap, Forall_forall. intros row Hrow. simpl.
  pose proof (proj1 (Forall_lookup _ _) Hshape t l Hl) as Hl_shape.
  pose proof (proj1 (Forall_forall _ _) Hl_shape row Hrow) as Hrow_len.
  simpl in Hrow_len.
  assert (drop 1 row ≠ []) as Hne.
  { intros Hnil. apply (f_equal length) in Hnil.
    rewrite length_drop in Hnil. simpl in Hnil. lia. }
  pose proof (argmax_row_bounds _ Hne) as Hb.
  rewrite length_drop in Hb. lia.
Qed.

End decoded.

(** The free-running toy decoder over ten ids, whose logits peak at
    index 0: the decoded token is 1 at each of the five steps. *)
Lemma C4_witness :
  ∃ logits dec,
    runtime_logits (toy_decoder "GRU" false true) (toy_feed false 0)
      = Ok logits
    ∧ (2 ≤ vocabulary_len (vocabulary (toy_decoder "GRU" false true)))%Z
    ∧ Forall (Forall (λ row : list Z,
                Z.of_nat (length row)
                = vocabulary_len
                    (vocabulary (toy_decoder "GRU" false true))))
        logits
    ∧ decoded (toy_decoder "GRU" false true) (toy_feed false 0) = Ok dec
    ∧ length dec = 5.
Proof.
  edestruct C4_decoded_skips_index_0
    with (self := toy_decoder "GRU" false true) (fd := toy_feed false 0)
    as (dec & Hdec & Hlen & _);
    [vm_compute; reflexivity | vm_compute; discriminate
    | by repeat constructor |].
  eexists _, dec. split; [vm_compute; reflexivity|].
  split; [vm_compute; discriminate|]. split; [by repeat constructor|].
  split; [exact Hdec | exact Hlen].
Defined.

(** ** The token fed back in free-running mode (C9) *)

Section feedback.
Context `{Ops}.

(** C9.  In free-running mode the input of step [i > 0] is the embedding
    (with dropout) of the argmax of step [i-1]'s logits over all indices,
    index 0 included, whereas the decoded token leaves index 0 out: for
    every example whose overall argmax at step [i-1] is index 0, the token
    fed to step [i] is 0 and differs from the decoded token of step
    [i-1], which is at least 1. *)
Theorem C9_fed_token_is_full_argmax
    (self : Decoder) (fd : Feed) (logits : list Mat) (i : nat)
    (prev : Mat) :
  runtime_logits self fd = Ok logits →
  0 < i → i < Z.to_nat (max_output_len self) →
  logits !! (i - 1) = Some prev →
  ∃ before l st ctx,
    loop_after self fd (embedded_go_symbols self fd) None false i
      = Ok before
    ∧ ls_step_logits before = Some prev
    ∧ choose_input self fd (embedded_go_symbols self fd) None false i
        (ls_step_logits before)
      = Ok (embed_and_dropout self fd (argmax_row <$> prev))
    ∧ step self fd (att_objects self false)
        (embed_and_dropout self fd (argmax_row <$> prev))
        (ls_state before) (ls_attns before) = Ok (l, st, ctx)
    ∧ logits !! i = Some l
    ∧ ∀ b row,
        prev !! b = Some row → argmax_row row = 0%Z →
        ∃ fed token,
          (argmax_row <$> prev) !! b = Some fed
          ∧ decoded_of logits !! (i - 1) ≫= (.!! b) = Some token
          ∧ fed = 0%Z ∧ (1 ≤ token)%Z ∧ fed ≠ token.
Proof.
  intros Hrun Hi HiT Hprev.
  unfold runtime_logits, runtime_loop in Hrun.
  apply bind_Ok in Hrun as ([[ls sts] m] & Hloop & [= ->]).
  apply _decoding_loop_Ok in Hloop as (s & Hs & <- & _).
  destruct (loop_iteration _ _ _ _ _ _ _ _ Hs HiT)
    as (before & next & inp & l & Hb & Hn & Hinp & Hstep & _ & _ & Hl & _).
  destruct (loop_iteration _ _ _ _ _ (Z.to_nat (max_output_len self))
              (i - 1) s Hs)
    as (before' & next' & inp' & l' & _ & Hn' & _ & _ & Esl & _ & Hl' & _);
    [lia|].
  replace (S (i - 1)) with i in Hn' by lia.
  rewrite Hb in Hn'. injection Hn' as <-.
  rewrite Hprev in Hl'. injection Hl' as <-.
  rewrite Esl in Hinp. simpl in Hinp. injection Hinp as <-.
  exists before, l, (ls_state next), (ls_attns next).
  rewrite Esl. repeat split; try done.
  intros b row Hrow Hzero. exists 0%Z, (argmax_row (drop 1 row) + 1)%Z.
  pose proof (argmax_row_nonneg (drop 1 row)).
  repeat split; try lia.
  - by rewrite list_lookup_fmap, Hrow; simpl; rewrite Hzero.
  - unfold decoded_of. rewrite list_lookup_fmap, Hprev. simpl.
    unfold tf_argmax, slice_from_1.
    by rewrite !list_lookup_fmap, Hrow.
Qed.

End feedback.

(** The free-running toy decoder whose logits peak at index 0: step 1 is
    fed token 0 while step 0 decodes token 1. *)
Lemma C9_witness :
  ∃ logits prev,
    runtime_logits (toy_decoder "GRU" false true) (toy_feed false 0)
      = Ok logits
    ∧ 0 < 1
    ∧ 1 < Z.to_nat (max_output_len (toy_decoder "GRU" false true))
    ∧ logits !! (1 - 1) = Some prev
    ∧ (argmax_row <$> prev) !! 0 = Some 0%Z
    ∧ decoded_of logits !! 0 ≫= (.!! 0) = Some 1%Z.
Proof.
  edestruct C9_fed_token_is_full_argmax
    with (self := toy_decoder "GRU" false true) (fd := toy_feed false 0)
         (i := 1)
    as (before & l & st & ctx & _ & _ & _ & _ & _ & Hdiffer);
    [vm_compute; reflexivity | lia | vm_compute; lia
    | vm_compute; reflexivity |].
  destruct (Hdiffer 0 [9; 0; 0; 0; 0; 0; 0; 0; 0; 0]%Z)
    as (fed & token & Hfed & Htoken & _); [reflexivity..|].
  eexists _, _. split; [vm_compute; reflexivity|].
  split; [lia|]. split; [vm_compute; lia|].
  split; [vm_compute; reflexivity|].
  split; vm_compute; reflexivity.
Defined.

(** ** The input of each step (C5) *)

Section step_input.
Context `{Ops}.

Lemma py_index_Ok {A} (xs : list A) (i : Z) (x : A) :
  (0 ≤ i)%Z → py_index xs i = Ok x → xs !! Z.to_nat i = Some x.
Proof.
  unfold py_index. intros Hi.
  destruct (Z.ltb_spec i 0) as [|_]; [lia|].
  destruct (Z.ltb_spec i 0) as [|_]; [lia|].
  destruct (xs !! Z.to_nat i); [by intros [= ->]|done].
Qed.

(** C5.  In teacher-forced and in free-running mode alike, the input of
    step 0 is the embedding lookup of the go symbols with no dropout: it is
    the same for every feed with these go symbols and this embedding
    matrix, whatever the targets and the train flag.  The input of a step
    [i > 0] is an embedding that went through dropout: entry [i-1] of the
    training inputs (the lookup of the targets under dropout) in
    teacher-forced mode, the lookup of the previous argmax under dropout
    in free-running mode. *)
Theorem C5_step_0_input_is_go_embedding
    (self : Decoder) (fd : Feed) (train_inputs : option (list Mat))
    (train_mode : bool)
    (logits : list Mat) (states : list RnnState) (mask : list (list bool)) :
  _decoding_loop self fd (embedded_go_symbols self fd) train_inputs
    train_mode = Ok (logits, states, mask) →
  0 < Z.to_nat (max_output_len self) →
  ∃ s0 l st ctx,
    initial_loop_state self fd train_mode = Ok s0
    ∧ choose_input self fd (embedded_go_symbols self fd) train_inputs
        train_mode 0 (ls_step_logits s0)
      = Ok (tf_embedding_lookup
              (fd_matrix fd (var_id (embedding_matrix self)))
              (fd_go_symbols fd))
    ∧ step self fd (att_objects self train_mode)
        (tf_embedding_lookup
           (fd_matrix fd (var_id (embedding_matrix self)))
           (fd_go_symbols fd))
        (ls_state s0) (ls_attns s0) = Ok (l, st, ctx)
    ∧ logits !! 0 = Some l
    ∧ (∀ fd' train_inputs' train_mode' s0',
         fd_go_symbols fd' = fd_go_symbols fd →
         fd_matrix fd' (var_id (embedding_matrix self))
           = fd_matrix fd (var_id (embedding_matrix self)) →
         initial_loop_state self fd' train_mode' = Ok s0' →
         choose_input self fd' (embedded_go_symbols self fd') train_inputs'
           train_mode' 0 (ls_step_logits s0')
         = choose_input self fd (embedded_go_symbols self fd) train_inputs
             train_mode 0 (ls_step_logits s0))
    ∧ embedded_train_inputs self fd
      = dropout3
          (tf_embedding_lookup
             (fd_matrix fd (var_id (embedding_matrix self)))
             <$> py_but_last (fd_train_inputs fd))
          (dropout_keep_prob self) (fd_train_mode fd)
    ∧ ∀ i s inp,
        0 < i → i < Z.to_nat (max_output_len self) →
        loop_after self fd (embedded_go_symbols self fd) train_inputs
          train_mode i = Ok s →
        choose_input self fd (embedded_go_symbols self fd) train_inputs
          train_mode i (ls_step_logits s) = Ok inp →
        ∃ prev,
          ls_step_logits s = Some prev
          ∧ if train_mode
            then ∃ embedded, train_inputs = Some embedded
                             ∧ embedded !! (i - 1) = Some inp
            else inp = dropout
                         (tf_embedding_lookup
                            (fd_matrix fd (var_id (embedding_matrix self)))
                            (tf_argmax prev))
                         (dropout_keep_prob self) (fd_train_mode fd).
Proof.
  intros Hloop HT.
  apply _decoding_loop_Ok in Hloop as (s & Hs & <- & _).
  destruct (loop_iteration _ _ _ _ _ _ _ _ Hs HT)
    as (s0 & next & inp & l & Hs0 & _ & Hinp & Hstep & _ & _ & Hl & _).
  rewrite loop_after_0 in Hs0.
  assert (∀ fd' tm' s', initial_loop_state self fd' tm' = Ok s' →
            ls_step_logits s' = None) as Hnone.
  { intros fd' tm' s' Hs'. unfold initial_loop_state in Hs'.
    apply bind_Ok in Hs' as (x & _ & Hs').
    apply bind_Ok in Hs' as (y & _ & Hs'). by injection Hs' as <-. }
  rewrite (Hnone _ _ _ Hs0) in Hinp.
  simpl in Hinp. injection Hinp as <-.
  exists s0, l, (ls_state next), (ls_attns next).
  rewrite (Hnone _ _ _ Hs0). repeat split; try done.
  - intros fd' tr' tm' s0' Hgo Hmat Hs0'. rewrite (Hnone _ _ _ Hs0').
    simpl. unfold embedded_go_symbols. by rewrite Hgo, Hmat.
  - intros i si inp Hi HiT Hsi Hinp.
    destruct (loop_iteration _ _ _ _ _ (Z.to_nat (max_output_len self))
                (i - 1) s Hs)
      as (_ & next' & _ & prev & _ & Hn' & _ & _ & Esl & _); [lia|].
    replace (S (i - 1)) with i in Hn' by lia.
    rewrite Hsi in Hn'. injection Hn' as <-.
    exists prev. split; [done|]. rewrite Esl in Hinp. simpl in Hinp.
    destruct train_mode.
    + destruct train_inputs as [embedded|]; [|done].
      exists embedded. split; [done|].
      apply py_index_Ok in Hinp; [|lia].
      by replace (Z.to_nat (Z.of_nat i - 1)) with (i - 1) in Hinp by lia.
    + by injection Hinp as <-.
Qed.

End step_input.

(** The toy decoder in teacher-forced mode while training (dropout
    doubles): step 0 is fed the undoubled embedding [[2; 1]] of the go
    symbol 2, step 1 the doubled embedding [[2; 2]] of the target 1. *)
Lemma C5_witness :
  ∃ logits states mask,
    _decoding_loop (toy_decoder "GRU" false true) (toy_feed true 1)
      (embedded_go_symbols (toy_decoder "GRU" false true) (toy_feed true 1))
      (Some (embedded_train_inputs (toy_decoder "GRU" false true)
               (toy_feed true 1)))
      true = Ok (logits, states, mask)
    ∧ 0 < Z.to_nat (max_output_len (toy_decoder "GRU" false true))
    ∧ choose_input (toy_decoder "GRU" false true) (toy_feed true 1)
        (embedded_go_symbols (toy_decoder "GRU" false true)
           (toy_feed true 1))
        (Some (embedded_train_inputs (toy_decoder "GRU" false true)
                 (toy_feed true 1)))
        true 0 None = Ok [[2; 1]]%Z
    ∧ embedded_train_inputs (toy_decoder "GRU" false true)
        (toy_feed true 1) !! 0 = Some [[2; 2]]%Z.
Proof.
  edestruct C5_step_0_input_is_go_embedding
    with (self := toy_decoder "GRU" false true) (fd := toy_feed true 1)
         (train_inputs :=
            Some (embedded_train_inputs (toy_decoder "GRU" false true)
                    (toy_feed true 1)))
         (train_mode := true)
    as (s0 & l & st & ctx & Hs0 & Hinp & _);
    [vm_compute; reflexivity | vm_compute; lia |].
  eexists _, _, _. split; [vm_compute; reflexivity|].
  split; [vm_compute; lia|]. split; [|vm_compute; reflexivity].
  vm_compute in Hs0. injection Hs0 as <-. exact Hinp.
Defined.

(** ** The step without attention (C8) *)

Section no_attention.
Context `{Ops}.

Lemma RNN_CELL_TYPES_lookup (name : string) :
  RNN_CELL_TYPES !! name =
    if decide (name = "GRU") then Some gru_cell
    else if decide (name = "LSTM") then Some lstm_cell
    else None.
Proof.
  unfold RNN_CELL_TYPES.
  destruct (decide (name = "GRU")) as [->|Hgru].
  - by rewrite lookup_insert_eq.
  - rewrite lookup_insert_ne by done.
    destruct (decide (name = "LSTM")) as [->|Hlstm].
    + by rewrite lookup_insert_eq.
    + by rewrite lookup_insert_ne.
Qed.

(** Without attention objects and with the conditional update off, a step
    is the bare cell on the (possibly projected) input. *)
Lemma step_without_attention (self : Decoder) (fd : Feed) (input_ : Mat)
    (prev_state : RnnState) (prev_attns : list Mat) :
  _conditional_gru self && bool_decide (_rnn_cell_str self = "GRU")
    = false →
  step self fd [] input_ prev_state prev_attns =
    bare_cell_step self fd
      (if _attention_on_input self
       then linear (input_ :: prev_attns) (embedding_size self) None
       else input_)
      prev_state.
Proof.
  intros Hcond. unfold step, bare_cell_step, _get_rnn_cell.
  rewrite Hcond, RNN_CELL_TYPES_lookup.
  destruct (decide (_rnn_cell_str self = "GRU")) as [Hgru|Hgru].
  - rewrite (bool_decide_eq_true_2 _ Hgru). rewrite !ret_bind.
    destruct prev_state as [h|c h]; simpl; [|done].
    by destruct (OrthoGRUCell _ _ h) as [out h'].
  - rewrite (bool_decide_eq_false_2 _ Hgru).
    destruct (decide (_rnn_cell_str self = "LSTM")) as [Hlstm|Hlstm];
      [|done].
    rewrite (bool_decide_eq_true_2 _ Hlstm). rewrite !ret_bind.
    destruct prev_state as [h|c h]; simpl; [done|].
    by destruct (LSTMCell _ _ (c, h)) as [out [c' h']].
Qed.

Lemma bare_cell_step_attns (self : Decoder) (fd : Feed) (x l : Mat)
    (prev_state st : RnnState) (ctx : list Mat) :
  bare_cell_step self fd x prev_state = Ok (l, st, ctx) → ctx = [].
Proof.
  unfold bare_cell_step. intros Hstep.
  apply bind_Ok in Hstep as (cell & _ & Hstep).
  apply bind_Ok in Hstep as ([out st'] & _ & Hstep).
  by injection Hstep as _ _ <-.
Qed.

(** *** The loop runs to its end *)

(** A step on a state of the cell's kind succeeds, and returns a state of
    that kind, when the conditional update is off or can concatenate the
    attention contexts. *)
Lemma step_total (self : Decoder) (fd : Feed)
    (atts : list BaseAttention) (input_ : Mat) (prev_state : RnnState)
    (prev_attns : list Mat) :
  state_matches_cell self prev_state →
  (_conditional_gru self && bool_decide (_rnn_cell_str self = "GRU") = true →
   ∀ ctxs, length ctxs = length atts → is_ok (tf_concat ctxs) = true) →
  ∃ l st ctx,
    step self fd atts input_ prev_state prev_attns = Ok (l, st, ctx)
    ∧ state_matches_cell self st.
Proof.
  intros Hkind Hconcat. unfold step, _get_rnn_cell.
  rewrite RNN_CELL_TYPES_lookup.
  destruct prev_state as [h|c h]; simpl in Hkind.
  - rewrite Hkind in *. simpl.
    destruct (OrthoGRUCell _ _ h) as [out h'] eqn:Hcell. simpl.
    rewrite andb_true_r in *.
    destruct (_conditional_gru self).
    + specialize (Hconcat eq_refl
                    ((λ a, attention a out h
                             (if _attention_on_input self
                              then linear (input_ :: prev_attns)
                                     (embedding_size self) None
                              else input_)) <$> atts)).
      rewrite length_fmap in Hconcat. specialize (Hconcat eq_refl).
      destruct (tf_concat _) as [cond_input|e]; [|done]. simpl.
      destruct (GRUCell _ _ cond_input h') as [out2 h2]. simpl.
      by eexists _, _, _.
    + simpl. by eexists _, _, _.
  - rewrite Hkind in *. simpl.
    destruct (LSTMCell _ _ (c, h)) as [out [c' h']]. simpl.
    rewrite andb_false_r. simpl. by eexists _, _, _.
Qed.

(** With a supported cell, an initial state, a go-symbol embedding and, in
    teacher-forced mode, at least [k - 1] training inputs, the first [k]
    iterations of the loop succeed. *)
Lemma loop_after_total (self : Decoder) (fd : Feed) (go : Mat)
    (train_inputs : option (list Mat)) (train_mode : bool) (k : nat) :
  is_Some (RNN_CELL_TYPES !! _rnn_cell_str self) →
  is_ok (_create_initial_state self fd) = true →
  (_conditional_gru self && bool_decide (_rnn_cell_str self = "GRU") = true →
   ∀ ctxs, length ctxs = length (att_objects self train_mode) →
           is_ok (tf_concat ctxs) = true) →
  (train_mode = true →
   ∃ embedded, train_inputs = Some embedded ∧ k ≤ S (length embedded)) →
  ∃ s, loop_after self fd [go] train_inputs train_mode k = Ok s
       ∧ state_matches_cell self (ls_state s)
       ∧ (ls_step_logits s = None → k = 0).
Proof.
  intros Hcell Hinit Hconcat Htrain.
  induction k as [|k IH].
  - rewrite loop_after_0. unfold initial_loop_state.
    destruct (_create_initial_state self fd) as [st0|e]; [|done].
    rewrite ret_bind. rewrite RNN_CELL_TYPES_lookup in Hcell.
    destruct (decide (_rnn_cell_str self = "GRU")) as [Hgru|Hgru].
    + rewrite (bool_decide_eq_true_2 _ Hgru), ret_bind.
      by eexists.
    + rewrite (bool_decide_eq_false_2 _ Hgru).
      destruct (decide (_rnn_cell_str self = "LSTM")) as [Hlstm|Hlstm];
        [|by destruct Hcell].
      rewrite (bool_decide_eq_true_2 _ Hlstm), ret_bind. by eexists.
  - destruct IH as (s & Hs & Hkind & Hfirst).
    { intros Htm. destruct (Htrain Htm) as (embedded & -> & Hlen).
      exists embedded. split; [done|lia]. }
    rewrite loop_after_S, Hs, ret_bind. unfold loop_body.
    assert (∃ inp, choose_input self fd [go] train_inputs train_mode k
                     (ls_step_logits s) = Ok inp) as [inp Hinp].
    { unfold choose_input.
      destruct (ls_step_logits s) as [prev|] eqn:Hprev.
      - destruct train_mode; [|by eexists].
        destruct (Htrain eq_refl) as (embedded & -> & Hlen).
        assert (k ≠ 0) as Hk.
        { intros ->.
          rewrite loop_after_0 in Hs. unfold initial_loop_state in Hs.
          apply bind_Ok in Hs as (x & _ & Hs).
          apply bind_Ok in Hs as (y & _ & Hs).
          injection Hs as <-. done. }
        unfold py_index.
        destruct (Z.ltb_spec (Z.of_nat k - 1) 0) as [|_]; [lia|].
        destruct (Z.ltb_spec (Z.of_nat k - 1) 0) as [|_]; [lia|].
        destruct (lookup_lt_is_Some_2 embedded (Z.to_nat (Z.of_nat k - 1)))
          as [x ->]; [lia|]. by eexists.
      - rewrite (Hfirst eq_refl). by eexists. }
    rewrite Hinp, ret_bind.
    destruct (step_total self fd (att_objects self train_mode) inp
                (ls_state s) (ls_attns s) Hkind Hconcat)
      as (l & st & ctx & -> & Hkind').
    rewrite ret_bind. eexists. split; [done|]. by split.
Qed.

(** C8 (amended).  When a mode has no active attention objects and the
    conditional update is not taken (the flag is off or the cell is not
    the GRU), each step of the loop is the bare recurrent cell followed by
    the logit layer, applied to the step's input embedding itself when
    [attention_on_input] is off and to [linear([input])] (a learned
    projection of the input embedding alone) when it is on, as by default;
    the list of attention contexts stays empty along the loop, nothing is
    concatenated to the cell output, and the cell output reaches the logit
    function unprojected. *)
Theorem C8_step_without_attention_is_bare_cell
    (self : Decoder) (fd : Feed) (go_symbols : list Mat)
    (train_inputs : option (list Mat)) (train_mode : bool)
    (k : nat) (s : LoopState) (input_ : Mat) :
  att_objects self train_mode = [] →
  _conditional_gru self && bool_decide (_rnn_cell_str self = "GRU")
    = false →
  loop_after self fd go_symbols train_inputs train_mode k = Ok s →
  ls_attns s = []
  ∧ step self fd (att_objects self train_mode) input_ (ls_state s)
      (ls_attns s)
    = bare_cell_step self fd
        (if _attention_on_input self
         then linear [input_] (embedding_size self) None
         else input_)
        (ls_state s)
  ∧ (_attention_on_input self = false →
     step self fd (att_objects self train_mode) input_ (ls_state s)
       (ls_attns s)
     = bare_cell_step self fd input_ (ls_state s)).
Proof.
  intros Hatt Hcond Hs.
  assert (ls_attns s = []) as Hnil.
  { destruct k as [|k].
    - rewrite loop_after_0 in Hs. unfold initial_loop_state in Hs.
      apply bind_Ok in Hs as (x & _ & Hs).
      apply bind_Ok in Hs as (y & _ & Hs).
      injection Hs as <-. simpl. by rewrite Hatt.
    - rewrite loop_after_S in Hs. apply bind_Ok in Hs as (s1 & _ & Hs).
      apply loop_body_Ok in Hs
        as (inp & l & st & ctx & _ & Hstep & _ & _ & <- & _).
      rewrite Hatt, step_without_attention in Hstep by done.
      by apply bare_cell_step_attns in Hstep. }
  rewrite Hnil, Hatt, step_without_attention by done.
  split; [done|]. split; [done|]. by intros ->.
Qed.

End no_attention.

(** The toy decoder with the signature's defaults (GRU, no attention, no
    conditional update, [attention_on_input] on), before the first
    step. *)
Lemma C8_witness :
  ∃ s,
    att_objects (toy_decoder "GRU" false true) false = []
    ∧ _conditional_gru (toy_decoder "GRU" false true)
        && bool_decide (_rnn_cell_str (toy_decoder "GRU" false true) = "GRU")
      = false
    ∧ loop_after (toy_decoder "GRU" false true) (toy_feed false 1)
        (embedded_go_symbols (toy_decoder "GRU" false true)
           (toy_feed false 1)) None false 0 = Ok s
    ∧ step (toy_decoder "GRU" false true) (toy_feed false 1) [] [[2; 1]]%Z
        (ls_state s) (ls_attns s)
      = bare_cell_step (toy_decoder "GRU" false true) (toy_feed false 1)
          [[3; 2]]%Z (ls_state s).
Proof.
  eexists. split; [reflexivity|]. split; [reflexivity|].
  split; [vm_compute; reflexivity|].
  edestruct C8_step_without_attention_is_bare_cell
    with (self := toy_decoder "GRU" false true) (fd := toy_feed false 1)
         (go_symbols :=
            embedded_go_symbols (toy_decoder "GRU" false true)
              (toy_feed false 1))
         (train_inputs := @None (list (list (list Z))))
         (train_mode := false) (k := 0) (input_ := [[2; 1]]%Z)
    as (_ & Hstep & _);
    [reflexivity | reflexivity | vm_compute; reflexivity |].
  exact Hstep.
Defined.

(** C8 as stated fails for the default [attention_on_input = True]: the
    decoder has no attention object, yet its step on the input embedding
    [[2; 1]] is not the bare cell followed by the logit layer on that
    embedding, because the cell receives [linear([input])] instead. *)
Lemma C8_counterexample :
  (__init__ (toy_args "GRU" false true) empty_graph).2
    = Ok (toy_decoder "GRU" false true)
  ∧ att_objects (toy_decoder "GRU" false true) false = []
  ∧ att_objects (toy_decoder "GRU" false true) true = []
  ∧ step (toy_decoder "GRU" false true) (toy_feed false 1) [] [[2; 1]]%Z
      (GRUState [[0; 0]]%Z) []
    = Ok ([[0; 9; 0; 0; 0; 0; 0; 0; 0; 0]]%Z, GRUState [[3; 2]]%Z, [])
  ∧ bare_cell_step (toy_decoder "GRU" false true) (toy_feed false 1)
      [[2; 1]]%Z (GRUState [[0; 0]]%Z)
    = Ok ([[0; 9; 0; 0; 0; 0; 0; 0; 0; 0]]%Z, GRUState [[2; 1]]%Z, [])
  ∧ step (toy_decoder "GRU" false true) (toy_feed false 1) [] [[2; 1]]%Z
      (GRUState [[0; 0]]%Z) []
    ≠ bare_cell_step (toy_decoder "GRU" false true) (toy_feed false 1)
        [[2; 1]]%Z (GRUState [[0; 0]]%Z).
Proof.
  split; [vm_compute; reflexivity|]. split; [reflexivity|].
  split; [reflexivity|]. split; [vm_compute; reflexivity|].
  split; [vm_compute; reflexivity|]. vm_compute. discriminate.
Qed.

(** ** The constructor (C7, C2, C6) *)

#[local] Arguments shape_dim : simpl never.
#[local] Arguments py_sum : simpl never.
#[local] Arguments attention_objects_of : simpl never.

Ltac build_simpl :=
  cbv [mbind mret Build_bind Build_ret log warn lift raise tf_get_variable
       _create_embedding_matrix]; cbn.

(** The case analysis [__init__] performs on its arguments: afterwards
    the graph and the result [__init__] returns are explicit. *)
Ltac init_cases a :=
  unfold __init__;
  destruct a
    as [encs voc did nm mol kp rs es op ep ua src aoi cell cg save load];
  try unfold with_conditional_gru;
  cbn [arg_encoders arg_vocabulary arg_data_id arg_name arg_max_output_len
       arg_dropout_keep_prob arg_rnn_size arg_embedding_size
       arg_output_projection arg_encoder_projection arg_use_attention
       arg_embeddings_source arg_attention_on_input arg_rnn_cell
       arg_conditional_gru arg_save_checkpoint arg_load_checkpoint];
  destruct (RNN_CELL_TYPES !! cell) as [mk|] eqn:Hcell;
  destruct es as [n|], src as [src|], ep as [p|], encs as [|e encs],
    rs as [r|], op as [o|];
  build_simpl;
  try (destruct (shape_dim _ _) as [sz|exn] eqn:Hshape; build_simpl);
  try (destruct (py_sum _) as [total|exn'] eqn:Hsum; build_simpl).

Lemma py_index_Raise {A} (xs : list A) (i : Z) (e : Exception) :
  py_index xs i = Raise e → e = IndexError.
Proof.
  unfold py_index. destruct (_ <? 0)%Z; [by intros [= <-]|].
  destruct (xs !! _); [done|by intros [= <-]].
Qed.

Lemma shape_dim_Raise (v : TfVariable) (i : Z) (e : Exception) :
  shape_dim v i = Raise e → e = IndexError.
Proof. apply py_index_Raise. Qed.

Lemma py_sum_from_Raise (ws : list (option Z)) (acc : Z) (e : Exception) :
  py_sum_from acc ws = Raise e → e = TypeError.
Proof.
  revert acc. induction ws as [|[w|] ws IH]; intros acc; simpl.
  - done.
  - apply IH.
  - by intros [= <-].
Qed.

Lemma py_sum_Raise (ws : list (option Z)) (e : Exception) :
  py_sum ws = Raise e → e = TypeError.
Proof. apply py_sum_from_Raise. Qed.

Ltac known_exceptions :=
  repeat match goal with
  | Hs : shape_dim _ _ = Raise _ |- _ => apply shape_dim_Raise in Hs; subst
  | Hs : py_sum _ = Raise _ |- _ => apply py_sum_Raise in Hs; subst
  end.

Section constructor.
Context `{Ops}.

Lemma no_attention_objects (es : list Encoder) :
  omap id ((λ e, (∅ : gmap nat BaseAttention) !! enc_id e) <$> es) = [].
Proof.
  induction es as [|e es IH]; [done|]. simpl. by rewrite lookup_empty.
Qed.

(** A decoder constructed with [use_attention = False] has no active
    attention object in either mode. *)
Lemma att_objects_without_attention (a : Args) (g g' : Graph)
    (self : Decoder) (train_mode : bool) :
  __init__ a g = (g', Ok self) → arg_use_attention a = false →
  att_objects self train_mode = [].
Proof.
  init_cases a; intros Hinit; try discriminate Hinit;
    injection Hinit as <- <-; intros ->;
    unfold att_objects, get_attention_object;
    cbn [encoders _train_attention_objects _runtime_attention_objects];
    destruct train_mode; apply no_attention_objects.
Qed.

(** The free-running loop of a decoder with a supported cell and an
    initial state returns its three lists, provided the conditional
    update, if it is taken, can concatenate the attention contexts. *)
Lemma runtime_loop_total (self : Decoder) (fd : Feed) :
  is_Some (RNN_CELL_TYPES !! _rnn_cell_str self) →
  is_ok (_create_initial_state self fd) = true →
  (_conditional_gru self && bool_decide (_rnn_cell_str self = "GRU") = true →
   ∀ ctxs, length ctxs = length (att_objects self false) →
           is_ok (tf_concat ctxs) = true) →
  is_ok (runtime_loop self fd) = true.
Proof.
  intros Hcell Hinit Hconcat.
  destruct (loop_after_total self fd
              (tf_embedding_lookup
                 (fd_matrix fd (var_id (embedding_matrix self)))
                 (fd_go_symbols fd))
              None false (Z.to_nat (max_output_len self))
              Hcell Hinit Hconcat) as (s & Hs & _); [done|].
  unfold runtime_loop, _decoding_loop, embedded_go_symbols.
  by rewrite Hs.
Qed.

(** C7 (amended).  The constructor raises the missing-embedding
    configuration error if and only if neither [embedding_size] nor
    [embeddings_source] is given (other configuration errors can still be
    raised when one is given).  When [embeddings_source] is given, a
    locally configured [embedding_size] makes the constructor log the
    overriding warning, and a constructed decoder's embedding matrix is
    the very variable of the source while its [embedding_size] is the
    second dimension of that variable's shape. *)
Theorem C7_embedding_source_is_shared (a : Args) (g : Graph) :
  ((__init__ a g).2 = Raise (ValueError missing_embedding_message)
   ↔ arg_embedding_size a = None ∧ arg_embeddings_source a = None)
  ∧ ∀ src, arg_embeddings_source a = Some src →
      (is_Some (arg_embedding_size a) →
       Warn override_warning ∈ messages (__init__ a g).1)
      ∧ ∀ d, (__init__ a g).2 = Ok d →
          embedding_matrix d = embedding_matrix_of src
          ∧ var_id (embedding_matrix d) = var_id (embedding_matrix_of src)
          ∧ shape_dim (embedding_matrix_of src) 1 = Ok (embedding_size d).
Proof.
  init_cases a; known_exceptions.
  all: split;
    [split; [intros Heq; try done; discriminate Heq
            |intros [? ?]; try done; discriminate]
    |intros src0 Hsrc;
     first [discriminate Hsrc
           |injection Hsrc as <-;
            split;
              [intros Hsome;
               first [by destruct Hsome
                     |rewrite !elem_of_app, !list_elem_of_singleton; tauto]
              |intros d Hd; first [discriminate Hd
                                  |by injection Hd as <-]]]].
Qed.

Lemma for_range_ext {St} (body body' : nat → St → Result St) a n s :
  (∀ i x, body i x = body' i x) →
  for_range body a n s = for_range body' a n s.
Proof.
  intros Hext. revert a s. induction n as [|n IH]; intros a s; [done|].
  simpl. rewrite Hext. destruct (body' a s) as [s'|e]; [|done].
  rewrite !ret_bind. apply IH.
Qed.

(** Outside the GRU the flag [_conditional_gru] changes no step. *)
Lemma step_ignores_conditional_gru (self : Decoder) (fd : Feed)
    (flag : bool) (atts : list BaseAttention) (input_ : Mat)
    (prev_state : RnnState) (prev_attns : list Mat) :
  _rnn_cell_str self ≠ "GRU" →
  step (set_conditional_gru flag self) fd atts input_ prev_state prev_attns
  = step self fd atts input_ prev_state prev_attns.
Proof.
  intros Hcell. unfold step, _get_rnn_cell, _logit_function. simpl.
  rewrite (bool_decide_eq_false_2 _ Hcell), !andb_false_r. done.
Qed.

Lemma loop_ignores_conditional_gru (self : Decoder) (fd : Feed)
    (flag : bool) (go_symbols : list Mat) (train_inputs : option (list Mat))
    (train_mode : bool) :
  _rnn_cell_str self ≠ "GRU" →
  _decoding_loop (set_conditional_gru flag self) fd go_symbols train_inputs
    train_mode
  = _decoding_loop self fd go_symbols train_inputs train_mode.
Proof.
  intros Hcell. unfold _decoding_loop, loop_after.
  change (initial_loop_state (set_conditional_gru flag self) fd train_mode)
    with (initial_loop_state self fd train_mode).
  change (max_output_len (set_conditional_gru flag self))
    with (max_output_len self).
  destruct (initial_loop_state self fd train_mode) as [s0|e]; [|done].
  rewrite !ret_bind.
  rewrite (for_range_ext
             (loop_body (set_conditional_gru flag self) fd go_symbols
                train_inputs train_mode)
             (loop_body self fd go_symbols train_inputs train_mode));
    [done|].
  intros i x. unfold loop_body.
  change (choose_input (set_conditional_gru flag self))
    with (choose_input self).
  destruct (choose_input self fd go_symbols train_inputs train_mode i _)
    as [inp|e]; [|done].
  rewrite !ret_bind. by rewrite step_ignores_conditional_gru.
Qed.

(** C2 (amended).  With [rnn_cell = 'LSTM'] the constructor takes no
    notice of [conditional_gru]: with the flag on it logs the same
    messages, creates the same variables and returns the same outcome as
    with the flag off (the same error, or the same decoder but for the
    stored flag), and it never raises the unsupported-cell error; every
    step and every run of the decoding loop of a decoder with the LSTM
    cell are the same with the flag on and off: the conditional update is
    skipped. *)
Theorem C2_conditional_gru_ignored_with_lstm
    (a : Args) (g : Graph) (self : Decoder) :
  arg_rnn_cell a = "LSTM" →
  _rnn_cell_str self = "LSTM" →
  __init__ (with_conditional_gru true a) g
  = ((__init__ (with_conditional_gru false a) g).1,
     match (__init__ (with_conditional_gru false a) g).2 with
     | Ok d => Ok (set_conditional_gru true d)
     | Raise e => Raise e
     end)
  ∧ (__init__ (with_conditional_gru true a) g).2
    ≠ Raise (ValueError unknown_cell_message)
  ∧ (∀ fd atts input_ prev_state prev_attns,
       step (set_conditional_gru true self) fd atts input_ prev_state
         prev_attns
       = step (set_conditional_gru false self) fd atts input_ prev_state
           prev_attns)
  ∧ ∀ fd go_symbols train_inputs train_mode,
      _decoding_loop (set_conditional_gru true self) fd go_symbols
        train_inputs train_mode
      = _decoding_loop (set_conditional_gru false self) fd go_symbols
          train_inputs train_mode.
Proof.
  intros Hcell Hself.
  assert (∀ fd atts input_ prev_state prev_attns,
            step (set_conditional_gru true self) fd atts input_ prev_state
              prev_attns
            = step (set_conditional_gru false self) fd atts input_
                prev_state prev_attns) as Hstep.
  { intros. rewrite !step_ignores_conditional_gru; [done|..];
      by rewrite Hself. }
  repeat split.
  - clear Hstep. revert Hcell. by init_cases a; intros ->.
  - clear Hstep. revert Hcell.
    init_cases a; intros ->; known_exceptions; try done.
    all: rewrite RNN_CELL_TYPES_lookup in Hcell; by repeat case_decide.
  - exact Hstep.
  - intros fd go_symbols train_inputs train_mode.
    rewrite !loop_ignores_conditional_gru; [done|..]; by rewrite Hself.
Qed.

(** *** The initial state (C6) *)

Lemma py_sum_from_Ok (ws : list (option Z)) (acc total : Z) :
  py_sum_from acc ws = Ok total →
  ∃ widths, ws = Some <$> widths
            ∧ total = (acc + foldr Z.add 0 widths)%Z.
Proof.
  revert acc. induction ws as [|[w|] ws IH]; intros acc; simpl.
  - intros [= <-]. exists []. split; [done|]. simpl. lia.
  - intros Hsum. destruct (IH _ Hsum) as (widths & -> & ->).
    exists (w :: widths). split; [done|]. simpl. lia.
  - done.
Qed.

Lemma py_sum_Ok (ws : list (option Z)) (total : Z) :
  py_sum ws = Ok total →
  ∃ widths, ws = Some <$> widths ∧ total = foldr Z.add 0%Z widths.
Proof.
  intros Hsum. destruct (py_sum_from_Ok _ _ _ Hsum) as (widths & -> & ->).
  by exists widths.
Qed.

Lemma chunks_tile (v : Vec) (n : nat) :
  chunks (length v) n (tf_tile v n) = replicate n v.
Proof.
  unfold tf_tile. induction n as [|n IH]; [done|]. simpl.
  by rewrite take_app_length, drop_app_length, IH.
Qed.

Lemma tf_tile_length (v : Vec) (n : nat) :
  length (tf_tile v n) = n * length v.
Proof.
  unfold tf_tile. induction n as [|n IH]; [done|]. simpl.
  rewrite length_app, IH. lia.
Qed.

(** Tiling a vector over the batch and reshaping to rows of its width
    gives one copy of the vector per example. *)
Lemma tf_reshape_rows_tile (v : Vec) (n : nat) :
  0 < length v →
  tf_reshape_rows (tf_tile v n) (Z.of_nat (length v)) = Ok (replicate n v).
Proof.
  intros Hv. unfold tf_reshape_rows.
  rewrite tf_tile_length, Nat2Z.id, Nat.div_mul by lia.
  rewrite bool_decide_eq_true_2, chunks_tile; [done|].
  split; [lia|]. rewrite Nat2Z.inj_mul. apply Z.mod_mul. lia.
Qed.

Lemma has_shape_replicate (v : Vec) (n : nat) :
  has_shape (replicate n v) n (Z.of_nat (length v)).
Proof.
  split; [apply length_replicate|]. by apply Forall_replicate.
Qed.


End constructor.

(** *** The shape of the initial state (C6) *)

Section initial_state.
Context `{Ops}.

(** The shape contracts of the operations the projection goes through:
    dropout keeps the shape of its argument, and [linear] returns one row
    of the requested size per row of its input. *)
Hypothesis dropout1_length :
  ∀ v keep_prob train, length (dropout1 v keep_prob train) = length v.
Hypothesis dropout_shape :
  ∀ m keep_prob train,
    Forall2 (λ row' row, length row' = length row)
      (dropout m keep_prob train) m.
Hypothesis linear_shape :
  ∀ m size scope,
    (0 ≤ size)%Z → has_shape (linear [m] (Some size) scope) (length m) size.

Lemma dropout_has_shape (m : Mat) (keep_prob : float) (train : bool)
    (rows : nat) (cols : Z) :
  has_shape m rows cols → has_shape (dropout m keep_prob train) rows cols.
Proof.
  intros [Hrows Hcols]. pose proof (dropout_shape m keep_prob train) as Hd.
  split; [by rewrite (Forall2_length _ _ _ Hd)|].
  clear Hrows. induction Hd as [|row' row d m' Hrow _ IH]; [done|].
  apply Forall_cons in Hcols as [Hc Hcols].
  constructor; [by rewrite Hrow|by apply IH].
Qed.

Lemma zip_with_app_shape (m m' : Mat) (rows : nat) (w w' : Z) :
  has_shape m rows w → has_shape m' rows w' →
  has_shape (zip_with app m m') rows (w + w').
Proof.
  intros [Hrows Hw] [Hrows' Hw']. split.
  - rewrite length_zip_with. lia.
  - clear Hrows Hrows'. revert m' Hw'.
    induction Hw as [|row m Hrow _ IH]; intros [|row' m'] Hw'; try done.
    apply Forall_cons in Hw' as [Hrow' Hw']. simpl.
    constructor; [rewrite length_app; lia|by apply IH].
Qed.

Lemma zip_with_app_rows (m m' : Mat) (rows : nat) :
  length m = rows → length m' = rows → length (zip_with app m m') = rows.
Proof. intros Hm Hm'. rewrite length_zip_with. lia. Qed.

Lemma concat_rows_length (ms : list Mat) (rows : nat) :
  ms ≠ [] → Forall (λ m, length m = rows) ms →
  length (concat_rows ms) = rows.
Proof.
  destruct ms as [|m ms]; [done|]. intros _ Hms. simpl.
  apply Forall_cons in Hms as [Hm Hms]. revert m Hm.
  induction Hms as [|m' ms Hm' _ IH]; intros m Hm; [done|]. simpl.
  apply IH. by apply zip_with_app_rows.
Qed.

Lemma concat_rows_shape (ms : list Mat) (ws : list Z) (rows : nat) :
  ms ≠ [] → Forall2 (λ m w, has_shape m rows w) ms ws →
  has_shape (concat_rows ms) rows (foldr Z.add 0%Z ws).
Proof.
  destruct ms as [|m ms]; [done|]. intros _ Hms.
  destruct ws as [|w ws]; [by apply Forall2_length in Hms|].
  apply Forall2_cons in Hms as [Hm Hms]. simpl. revert m w Hm.
  induction Hms as [|m' w' ms ws Hm' _ IH]; intros m w Hm; simpl.
  - by rewrite Z.add_0_r.
  - rewrite Z.add_assoc. apply IH. by apply zip_with_app_shape.
Qed.

Lemma encoded_shapes (fd : Feed) (es : list Encoder) (widths : list Z) :
  Forall (encoded_fits fd) es →
  encoded_width <$> es = Some <$> widths →
  Forall2 (λ m w, has_shape m (batch_size fd) w) (encoded <$> es) widths.
Proof.
  intros Hes. revert widths.
  induction Hes as [|e es [Hrows Hwidth] _ IH]; intros [|w widths] Hws;
    try done; try (by constructor).
  injection Hws as Hw Hws. simpl. constructor; [|by apply IH].
  split; [done|by apply Hwidth].
Qed.

(** The two branches of [_create_initial_state]. *)
Lemma _create_initial_state_Rank1 (self : Decoder) (fd : Feed) (v : Vec) :
  projected_initial_state self fd = Rank1 v →
  (Z.of_nat (length v) = rnn_size self → (0 < rnn_size self)%Z →
   _create_initial_state self fd = Ok (replicate (batch_size fd) v))
  ∧ (Z.of_nat (length v) ≠ rnn_size self →
     _create_initial_state self fd = Raise AssertionError).
Proof.
  intros Hv. unfold _create_initial_state. rewrite Hv. split.
  - intros Hlen Hpos. rewrite (bool_decide_eq_true_2 _ Hlen). cbn.
    rewrite <- Hlen. rewrite tf_reshape_rows_tile by lia. done.
  - intros Hlen. by rewrite (bool_decide_eq_false_2 _ Hlen).
Qed.

Lemma _create_initial_state_Rank2 (self : Decoder) (fd : Feed) (m : Mat) :
  projected_initial_state self fd = Rank2 m →
  _create_initial_state self fd = Ok m.
Proof. intros Hm. unfold _create_initial_state. by rewrite Hm. Qed.

(** The initial state under each of the three policies. *)
Lemma policy_initial_state (self : Decoder) (fd : Feed) :
  (0 < rnn_size self)%Z →
  Forall (encoded_fits fd) (encoders self) →
  encoder_projection self (fd_train_mode fd) (Some (rnn_size self))
    (encoders self)
  = spec_empty_initial_state (fd_train_mode fd) (Some (rnn_size self))
      (encoders self)
  ∨ (encoder_projection self (fd_train_mode fd) (Some (rnn_size self))
       (encoders self)
     = spec_concat_encoder_projection (fd_train_mode fd)
         (Some (rnn_size self)) (encoders self)
     ∧ encoders self ≠ []
     ∧ ∃ widths, encoded_width <$> encoders self = Some <$> widths
                 ∧ rnn_size self = foldr Z.add 0%Z widths)
  ∨ (∃ keep_prob,
       encoder_projection self (fd_train_mode fd) (Some (rnn_size self))
         (encoders self)
       = spec_linear_encoder_projection keep_prob (fd_train_mode fd)
           (Some (rnn_size self)) (encoders self)
       ∧ encoders self ≠ []) →
  ∃ initial_state,
    _create_initial_state self fd = Ok initial_state
    ∧ has_shape initial_state (batch_size fd) (rnn_size self).
Proof.
  intros Hpos Hes [Hp|[(Hp & Hne & widths & Hws & Hsize)|(kp & Hp & Hne)]].
  - set (v := dropout1 (replicate (Z.to_nat (rnn_size self)) float_zero)
                (dropout_keep_prob self) (fd_train_mode fd)).
    assert (projected_initial_state self fd = Rank1 v) as Hv.
    { unfold projected_initial_state. by rewrite Hp. }
    assert (Z.of_nat (length v) = rnn_size self) as Hlen.
    { unfold v. rewrite dropout1_length, length_replicate. lia. }
    exists (replicate (batch_size fd) v).
    split; [by apply _create_initial_state_Rank1|].
    rewrite <- Hlen. apply has_shape_replicate.
  - eexists. split.
    + apply _create_initial_state_Rank2.
      unfold projected_initial_state. rewrite Hp. reflexivity.
    + apply dropout_has_shape. rewrite Hsize. apply concat_rows_shape.
      * by destruct (encoders self).
      * by apply encoded_shapes.
  - eexists. split.
    + apply _create_initial_state_Rank2.
      unfold projected_initial_state. rewrite Hp. reflexivity.
    + apply dropout_has_shape.
      assert (length (dropout (concat_rows (encoded <$> encoders self)) kp
                        (fd_train_mode fd)) = batch_size fd) as <-.
      { rewrite (Forall2_length _ _ _ (dropout_shape _ _ _)).
        apply concat_rows_length; [by destruct (encoders self)|].
        apply Forall_fmap. eapply Forall_impl; [exact Hes|].
        by intros e [Hrows _]. }
      apply linear_shape. lia.
Qed.

(** C6.  (a) When the constructor is given no [encoder_projection], no
    [rnn_size] and a non-empty encoder list, the decoder's [rnn_size] is
    the sum of the encoders' widths and the projection is the
    concatenation.  (b) Whatever the projector: when its result (under
    dropout) is a single vector of [rnn_size] entries, the initial state
    is that vector tiled, one copy per example, of shape
    (batch_size x rnn_size); a single vector of another size fails the
    assertion.  (c) Under each of the three policies (no encoders; no
    explicit [rnn_size]; explicit [rnn_size]), with the projector doing
    what section 4.2 says of the policy and encoders whose summaries hold
    one row per example, the initial state exists and has shape
    (batch_size x rnn_size), and it is the state the loop starts from. *)
Theorem C6_initial_state_shape
    (a : Args) (g g' : Graph) (self : Decoder) (fd : Feed) :
  __init__ a g = (g', Ok self) →
  Forall (encoded_fits fd) (arg_encoders a) →
  (0 < rnn_size self)%Z →
  (arg_encoder_projection a = None → arg_rnn_size a = None →
   arg_encoders a ≠ [] →
   ∃ widths,
     encoded_width <$> arg_encoders a = Some <$> widths
     ∧ rnn_size self = foldr Z.add 0%Z widths
     ∧ encoder_projection self = concat_encoder_projection)
  ∧ (∀ v, projected_initial_state self fd = Rank1 v →
          (Z.of_nat (length v) = rnn_size self →
           _create_initial_state self fd
           = Ok (replicate (batch_size fd) v)
           ∧ has_shape (replicate (batch_size fd) v) (batch_size fd)
               (rnn_size self))
          ∧ (Z.of_nat (length v) ≠ rnn_size self →
             _create_initial_state self fd = Raise AssertionError))
  ∧ (arg_encoder_projection a = None →
     encoder_projection self (fd_train_mode fd) (Some (rnn_size self))
       (encoders self)
     = spec_encoder_projection a (fd_train_mode fd) (Some (rnn_size self))
         (encoders self) →
     ∃ initial_state,
       _create_initial_state self fd = Ok initial_state
       ∧ has_shape initial_state (batch_size fd) (rnn_size self)
       ∧ ∀ train_mode s0,
           initial_loop_state self fd train_mode = Ok s0 →
           ls_state s0 = GRUState initial_state
           ∨ ls_state s0 = LSTMStateTuple initial_state initial_state).
Proof.
  intros Hinit Hes Hpos.
  assert (Hsum : arg_encoder_projection a = None → arg_rnn_size a = None →
                 arg_encoders a ≠ [] →
                 ∃ widths,
                   encoded_width <$> arg_encoders a = Some <$> widths
                   ∧ rnn_size self = foldr Z.add 0%Z widths
                   ∧ encoder_projection self = concat_encoder_projection).
  { clear Hes Hpos. revert Hinit.
    init_cases a; intros Hinit; try discriminate Hinit;
      injection Hinit as <- <-; cbn; intros Hproj Hsize Hencs; try done.
    all: destruct (py_sum_Ok _ _ Hsum) as (widths & Hwidths & ->).
    all: by exists widths. }
  assert (Hself : encoders self = arg_encoders a).
  { clear Hsum Hes Hpos. revert Hinit.
    init_cases a; intros Hinit; try discriminate Hinit;
      by injection Hinit as <- <-. }
  split; [exact Hsum|]. split.
  - intros v Hv.
    destruct (_create_initial_state_Rank1 self fd v Hv) as [Htile Hfail].
    split; [|exact Hfail]. intros Hlen. split; [by apply Htile|].
    rewrite <- Hlen. apply has_shape_replicate.
  - intros Hproj Hspec.
    destruct (policy_initial_state self fd Hpos) as (st & Hst & Hshape).
    { by rewrite Hself. }
    { rewrite Hspec. unfold spec_encoder_projection. rewrite Hself.
      destruct (arg_encoders a) as [|e es] eqn:Hencs; [by left|].
      right. destruct (arg_rnn_size a) as [r|] eqn:Hsize.
      - right. eexists. by split.
      - left. split; [done|]. split; [done|].
        destruct Hsum as (widths & Hw & Hr & _); [done..|].
        by exists widths. }
    exists st. split; [done|]. split; [done|].
    intros train_mode s0 Hs0. unfold initial_loop_state in Hs0.
    rewrite Hst, ret_bind in Hs0.
    apply bind_Ok in Hs0 as (st' & Hst' & Hs0). injection Hs0 as <-. simpl.
    repeat case_bool_decide; simplify_eq; by eauto.
Qed.

End initial_state.

(** A decoder that borrows the matrix of [toy_source] and also passes
    [embedding_size = 3]: the warning is logged, the matrix is variable 7
    of the source and the embedding size is 16. *)
Lemma C7_witness :
  arg_embeddings_source toy_borrowing_args = Some toy_source
  ∧ Warn override_warning
      ∈ messages (__init__ toy_borrowing_args empty_graph).1
  ∧ ∃ d, (__init__ toy_borrowing_args empty_graph).2 = Ok d
         ∧ var_id (embedding_matrix d) = 7
         ∧ embedding_size d = Some 16%Z.
Proof.
  destruct (C7_embedding_source_is_shared toy_borrowing_args empty_graph)
    as [_ Hsrc].
  destruct (Hsrc toy_source) as [Hwarn Hmatrix]; [reflexivity|].
  split; [reflexivity|]. split; [by apply Hwarn; eexists|].
  eexists. split; [vm_compute; reflexivity|].
  edestruct Hmatrix as (_ & Hid & Hsize); [vm_compute; reflexivity|].
  split; [exact Hid|]. vm_compute. reflexivity.
Defined.

(** The toy decoder with the LSTM cell and [conditional_gru = True]. *)
Lemma C2_witness :
  arg_rnn_cell (toy_args "LSTM" true true) = "LSTM"
  ∧ _rnn_cell_str (toy_decoder "LSTM" true true) = "LSTM"
  ∧ (__init__ (toy_args "LSTM" true true) empty_graph).2
    ≠ Raise (ValueError unknown_cell_message)
  ∧ runtime_loop (toy_decoder "LSTM" true true) (toy_feed false 1)
    = runtime_loop (toy_decoder "LSTM" false true) (toy_feed false 1).
Proof.
  destruct (C2_conditional_gru_ignored_with_lstm
              (toy_args "LSTM" true true) empty_graph
              (toy_decoder "LSTM" true true) eq_refl eq_refl)
    as (_ & Hinit & _ & Hloop).
  split; [reflexivity|]. split; [reflexivity|]. split; [exact Hinit|].
  exact (Hloop (toy_feed false 1)
           (embedded_go_symbols (toy_decoder "LSTM" true true)
              (toy_feed false 1))
           None false).
Defined.

(** C2 as stated fails: with [conditional_gru = True] and
    [rnn_cell = 'LSTM'] the constructor raises nothing and returns a
    decoder, whose loops run in both modes and produce what they produce
    with the flag off. *)
Lemma C2_counterexample :
  arg_conditional_gru (toy_args "LSTM" true true) = true
  ∧ arg_rnn_cell (toy_args "LSTM" true true) = "LSTM"
  ∧ (__init__ (toy_args "LSTM" true true) empty_graph).2
    = Ok (toy_decoder "LSTM" true true)
  ∧ is_ok (train_logits (toy_decoder "LSTM" true true) (toy_feed true 1))
    = true
  ∧ is_ok (runtime_loop (toy_decoder "LSTM" true true) (toy_feed false 1))
    = true
  ∧ runtime_loop (toy_decoder "LSTM" true true) (toy_feed false 1)
    = runtime_loop (toy_decoder "LSTM" false true) (toy_feed false 1)
  ∧ ¬ (∀ (a : Args) (g : Graph),
         arg_conditional_gru a = true → arg_rnn_cell a = "LSTM" →
         ∃ msg, (__init__ a g).2 = Raise (ValueError msg)).
Proof.
  repeat split; try (vm_compute; reflexivity).
  intros Hreject.
  destruct (Hreject (toy_args "LSTM" true true) empty_graph eq_refl eq_refl)
    as [msg Hmsg].
  vm_compute in Hmsg. discriminate Hmsg.
Qed.

Lemma toy_dropout1_length (v : list Z) (keep_prob : Z) (train : bool) :
  length (dropout1 v keep_prob train) = length v.
Proof. destruct train; simpl; [apply length_fmap|done]. Qed.

Lemma toy_dropout_shape (m : list (list Z)) (keep_prob : Z) (train : bool) :
  Forall2 (λ row' row : list Z, length row' = length row)
    (dropout m keep_prob train) m.
Proof.
  destruct train; simpl.
  - unfold double. induction m as [|row m IH]; constructor; [|done].
    apply length_fmap.
  - induction m as [|row m IH]; by constructor.
Qed.

Lemma toy_linear_shape (m : list (list Z)) (size : Z)
    (scope : option string) :
  (0 ≤ size)%Z → has_shape (linear [m] (Some size) scope) (length m) size.
Proof.
  intros Hsize. simpl. unfold widen. simpl. split; [apply length_fmap|].
  apply Forall_fmap, Forall_forall. intros row _. simpl. unfold fit.
  rewrite length_take, length_app, length_replicate. lia.
Qed.

(** A language-model decoder on a batch of three: the constant vector of
    two zeros is tiled into three rows.  A decoder over the two toy
    encoders (widths 2 and 3) with neither [rnn_size] nor
    [encoder_projection]: its [rnn_size] is 5 and its initial state is the
    concatenated row of the single example. *)
Lemma C6_witness :
  (∃ g' self,
     __init__ (toy_args "GRU" false true) empty_graph = (g', Ok self)
     ∧ (0 < rnn_size self)%Z
     ∧ projected_initial_state self (toy_batch_feed 3) = Rank1 [0; 0]%Z
     ∧ _create_initial_state self (toy_batch_feed 3)
       = Ok [[0; 0]; [0; 0]; [0; 0]]%Z
     ∧ has_shape [[0; 0]; [0; 0]; [0; 0]]%Z (batch_size (toy_batch_feed 3))
         (rnn_size self))
  ∧ ∃ g' self initial_state,
      __init__ toy_encoder_args empty_graph = (g', Ok self)
      ∧ Forall (encoded_fits (toy_feed false 1)) toy_encoders
      ∧ rnn_size self = 5%Z
      ∧ _create_initial_state self (toy_feed false 1) = Ok initial_state
      ∧ initial_state = [[1; 2; 3; 4; 5]]%Z
      ∧ has_shape initial_state 1 5.
Proof.
  split.
  - edestruct (C6_initial_state_shape (H := toy_scalar) (H0 := toy_ops)
                 toy_dropout1_length toy_dropout_shape
                 toy_linear_shape (toy_args "GRU" false true) empty_graph)
      with (fd := toy_batch_feed 3)
      as (_ & Htile & _);
      [vm_compute; reflexivity | constructor | reflexivity |].
    eexists _, _. split; [vm_compute; reflexivity|].
    split; [reflexivity|]. split; [reflexivity|].
    destruct (Htile [0; 0]%Z eq_refl) as [Hok _].
    exact (Hok eq_refl).
  - assert (Forall (encoded_fits (toy_feed false 1)) toy_encoders) as Hfit.
    { unfold toy_encoders. repeat apply Forall_cons_2; [| |constructor];
        (split; [reflexivity|]; intros w [= <-]; by repeat constructor). }
    edestruct (C6_initial_state_shape (H := toy_scalar) (H0 := toy_ops)
                 toy_dropout1_length toy_dropout_shape
                 toy_linear_shape toy_encoder_args empty_graph)
      with (fd := toy_feed false 1)
      as (Hsum & _ & Hpolicy);
      [vm_compute; reflexivity | exact Hfit | reflexivity |].
    destruct Hsum as (widths & Hwidths & Hsize & _);
      [reflexivity | reflexivity | discriminate |].
    destruct Hpolicy as (initial_state & Hstate & Hshape & _);
      [reflexivity | reflexivity |].
    eexists _, _, initial_state. split; [vm_compute; reflexivity|].
    split; [exact Hfit|]. split.
    { destruct widths as [|w1 [|w2 [|w3 widths]]];
        try discriminate Hwidths.
      injection Hwidths as <- <-. exact Hsize. }
    split; [exact Hstate|]. split; [|exact Hshape].
    vm_compute in Hstate. by injection Hstate as <-.
Defined.

(** C7 as stated fails: a configuration error is also raised when an
    embedding size is given, here for an unsupported cell name; so
    raising a configuration error is not equivalent to giving neither
    [embedding_size] nor [embeddings_source]. *)
Lemma C7_counterexample :
  arg_embedding_size (toy_args "RNN" false true) = Some 2%Z
  ∧ (__init__ (toy_args "RNN" false true) empty_graph).2
    = Raise (ValueError unknown_cell_message)
  ∧ ¬ (∀ (a : Args) (g : Graph),
         (∃ msg, (__init__ a g).2 = Raise (ValueError msg))
         ↔ arg_embedding_size a = None ∧ arg_embeddings_source a = None).
Proof.
  split; [reflexivity|]. split; [vm_compute; reflexivity|].
  intros Hiff.
  destruct (proj1 (Hiff (toy_args "RNN" false true) empty_graph))
    as [Hnone _]; [|discriminate Hnone].
  eexists. vm_compute. reflexivity.
Qed.

(** ** The loop runs to the horizon *)

Section loop_more.
Context `{Ops}.

Lemma loop_after_Raise (self : Decoder) (fd : Feed) (go_symbols : list Mat)
    (train_inputs : option (list Mat)) (train_mode : bool) (k n : nat)
    (e : Exception) :
  loop_after self fd go_symbols train_inputs train_mode k = Raise e →
  k ≤ n →
  loop_after self fd go_symbols train_inputs train_mode n = Raise e.
Proof.
  intros Hk Hkn. induction Hkn as [|n Hkn IH]; [done|].
  by rewrite loop_after_S, IH.
Qed.

Lemma initial_step_logits (self : Decoder) (fd : Feed)
    (go_symbols : list Mat) (train_inputs : option (list Mat))
    (train_mode : bool) (s : LoopState) :
  loop_after self fd go_symbols train_inputs train_mode 0 = Ok s →
  ls_step_logits s = None ∧ ls_finished s = tf_zeros_bool (batch_size fd)
  ∧ ls_attns s
    = (λ a, tf_zeros (batch_size fd) (attn_size a))
        <$> att_objects self train_mode.
Proof.
  rewrite loop_after_0. unfold initial_loop_state. intros Hs.
  apply bind_Ok in Hs as (x & _ & Hs).
  apply bind_Ok in Hs as (y & _ & Hs). by injection Hs as <-.
Qed.

(** The lists of a shorter run are the beginnings of those of a longer
    one. *)
Lemma loop_after_take (self : Decoder) (fd : Feed) (go_symbols : list Mat)
    (train_inputs : option (list Mat)) (train_mode : bool) (n k : nat)
    (sn : LoopState) :
  loop_after self fd go_symbols train_inputs train_mode n = Ok sn → k ≤ n →
  ∃ sk, loop_after self fd go_symbols train_inputs train_mode k = Ok sk
    ∧ ls_logits sk = take k (ls_logits sn)
    ∧ ls_states sk = take k (ls_states sn)
    ∧ ls_mask sk = take k (ls_mask sn).
Proof.
  intros Hn Hk.
  destruct (loop_after_le _ _ _ _ _ _ _ _ Hn Hk)
    as (sk & Hsk & [l1 El] & [l2 Est] & [l3 Em]).
  destruct (loop_after_length _ _ _ _ _ _ _ Hsk) as (Ll & Lst & Lm).
  exists sk. split; [done|]. rewrite El, Est, Em.
  by rewrite !take_app_length'.
Qed.

(** X1.  [_decoding_loop] has no early exit: in either mode the lists of
    logits, of states and of mask entries it returns have exactly
    [max_output_len] entries each, whatever was decoded; for a horizon
    that is zero or negative they are empty. *)
Theorem X1_loop_runs_full_horizon
    (self : Decoder) (fd : Feed) (go_symbols : list Mat)
    (train_inputs : option (list Mat)) (train_mode : bool)
    (logits : list Mat) (states : list RnnState) (mask : list (list bool)) :
  _decoding_loop self fd go_symbols train_inputs train_mode
    = Ok (logits, states, mask) →
  length logits = Z.to_nat (max_output_len self)
  ∧ length states = Z.to_nat (max_output_len self)
  ∧ length mask = Z.to_nat (max_output_len self)
  ∧ ((max_output_len self ≤ 0)%Z →
     logits = [] ∧ states = [] ∧ mask = []).
Proof.
  intros Hloop.
  apply _decoding_loop_Ok in Hloop as (s & Hs & <- & <- & <-).
  destruct (loop_after_length _ _ _ _ _ _ _ Hs) as (Ll & Lst & Lm).
  split; [done|]. split; [done|]. split; [done|].
  intros Hneg. repeat split; apply length_zero_iff_nil; lia.
Qed.

End loop_more.

Lemma X1_witness :
  ∃ logits states mask,
    runtime_loop (toy_decoder "GRU" false true) (toy_feed false 1)
      = Ok (logits, states, mask)
    ∧ length logits = 5 ∧ length mask = 5.
Proof.
  edestruct X1_loop_runs_full_horizon
    with (self := toy_decoder "GRU" false true) (fd := toy_feed false 1)
         (go_symbols :=
            embedded_go_symbols (toy_decoder "GRU" false true)
              (toy_feed false 1))
         (train_inputs := @None (list (list (list Z))))
         (train_mode := false)
    as (Hl & _ & Hm & _); [vm_compute; reflexivity|].
  eexists _, _, _. split; [vm_compute; reflexivity|].
  split; [exact Hl | exact Hm].
Defined.

(** ** The loss mask in closed form *)

Section mask_more.
Context `{Ops}.

(** After [k] steps an example is finished exactly when the end token was
    the argmax of its logits at one of these steps. *)
Lemma finished_closed_form (self : Decoder) (fd : Feed)
    (go_symbols : list Mat) (train_inputs : option (list Mat))
    (train_mode : bool) (n : nat) (sn : LoopState) :
  loop_after self fd go_symbols train_inputs train_mode n = Ok sn →
  Forall (λ l, length l = batch_size fd) (ls_logits sn) →
  ∀ k sk b, k ≤ n → b < batch_size fd →
    loop_after self fd go_symbols train_inputs train_mode k = Ok sk →
    ls_finished sk !! b
    = Some (existsb
              (λ l : Mat,
                 bool_decide (argmax_row <$> l !! b = Some END_TOKEN_INDEX))
              (take k (ls_logits sn))).
Proof.
  intros Hn Hrows k. induction k as [|k IH]; intros sk b Hk Hb Hsk.
  - apply initial_step_logits in Hsk as (_ & -> & _).
    unfold tf_zeros_bool. by rewrite lookup_replicate_2.
  - destruct (loop_iteration _ _ _ _ _ n k sn Hn)
      as (before & next & inp & l & Hbf & Hnx & _ & _ & _ & Efin & Hl & _);
      [lia|].
    rewrite Hnx in Hsk. injection Hsk as <-.
    pose proof (proj1 (Forall_lookup _ _) Hrows k l Hl) as Hlen.
    simpl in Hlen.
    destruct (lookup_lt_is_Some_2 l b) as [row Hrow]; [lia|].
    rewrite (take_S_r _ _ _ Hl), existsb_app. simpl.
    rewrite Efin. unfold tf_logical_or, tf_equal, tf_argmax.
    rewrite lookup_zip_with, !list_lookup_fmap, Hrow.
    rewrite (IH before b); [|lia|done|done]. simpl.
    rewrite orb_false_r, orb_comm. f_equal. f_equal.
    apply bool_decide_ext. split; [by intros ->|by intros [= ->]].
Qed.

(** X2.  The loss mask in closed form: when every step's logits hold one
    row per example, the mask entry of step [t] for example [b] is true
    exactly when the end token has not been the argmax of the example's
    logits at any step up to and including [t]; hence an entry that is
    false stays false at every later step. *)
Theorem X2_mask_closed_form
    (self : Decoder) (fd : Feed) (go_symbols : list Mat)
    (train_inputs : option (list Mat)) (train_mode : bool)
    (logits : list Mat) (states : list RnnState) (mask : list (list bool))
    (t b : nat) :
  _decoding_loop self fd go_symbols train_inputs train_mode
    = Ok (logits, states, mask) →
  Forall (λ l, length l = batch_size fd) logits →
  t < Z.to_nat (max_output_len self) →
  b < batch_size fd →
  mask !! t ≫= (.!! b)
  = Some (negb (existsb
                  (λ l : Mat,
                     bool_decide
                       (argmax_row <$> l !! b = Some END_TOKEN_INDEX))
                  (take (S t) logits)))
  ∧ ∀ t', t ≤ t' → t' < Z.to_nat (max_output_len self) →
          mask !! t ≫= (.!! b) = Some false →
          mask !! t' ≫= (.!! b) = Some false.
Proof.
  intros Hloop Hrows Ht Hb.
  apply _decoding_loop_Ok in Hloop as (s & Hs & <- & <- & <-).
  assert (∀ u, u < Z.to_nat (max_output_len self) →
            ls_mask s !! u ≫= (.!! b)
            = Some (negb (existsb
                            (λ l : Mat,
                               bool_decide
                                 (argmax_row <$> l !! b
                                  = Some END_TOKEN_INDEX))
                            (take (S u) (ls_logits s))))) as Hclosed.
  { intros u Hu.
    destruct (loop_iteration _ _ _ _ _ _ _ _ Hs Hu)
      as (before & next & inp & l & _ & Hnx & _ & _ & _ & _ & _ & _ & Hm).
    rewrite Hm. simpl. unfold tf_logical_not.
    rewrite list_lookup_fmap.
    by rewrite (finished_closed_form _ _ _ _ _ _ _ Hs Hrows (S u) next b)
      by (done || lia). }
  split; [by apply Hclosed|].
  intros t' Htt' Ht'. rewrite !Hclosed by done.
  intros [= Hfin]. f_equal. apply negb_false_iff in Hfin.
  apply negb_false_iff.
  apply existsb_exists in Hfin as (l & Hin & Hl).
  apply existsb_exists. exists l. split; [|done].
  apply list_elem_of_In. apply list_elem_of_In in Hin.
  apply list_elem_of_lookup in Hin as [i Hi].
  apply list_elem_of_lookup. exists i.
  apply lookup_take_Some in Hi as [Hi Hlt].
  apply lookup_take_Some. split; [done|lia].
Qed.

End mask_more.

Lemma X2_witness :
  ∃ logits states mask,
    runtime_loop (toy_decoder "GRU" false true) (toy_feed false 1)
      = Ok (logits, states, mask)
    ∧ Forall (λ l, length l = batch_size (toy_feed false 1)) logits
    ∧ 2 < Z.to_nat (max_output_len (toy_decoder "GRU" false true))
    ∧ 0 < batch_size (toy_feed false 1)
    ∧ mask !! 2 ≫= (.!! 0) = Some false.
Proof.
  edestruct X2_mask_closed_form
    with (self := toy_decoder "GRU" false true) (fd := toy_feed false 1)
         (go_symbols :=
            embedded_go_symbols (toy_decoder "GRU" false true)
              (toy_feed false 1))
         (train_inputs := @None (list (list (list Z))))
         (train_mode := false) (t := 0) (b := 0)
    as (_ & Hlater);
    [vm_compute; reflexivity | by repeat constructor | vm_compute; lia
    | vm_compute; lia |].
  eexists _, _, _. split; [vm_compute; reflexivity|].
  split; [by repeat constructor|]. split; [vm_compute; lia|].
  split; [vm_compute; lia|].
  apply (Hlater 2); [lia | vm_compute; lia | vm_compute; reflexivity].
Defined.

(** ** What the loop threads and what it does not read *)

Section threading.
Context `{Ops}.

(** A step that succeeds was given a state of the cell's kind, returns one
    of the same kind, and returns one attention context per attention
    object. *)
Lemma step_Ok_kind (self : Decoder) (fd : Feed)
    (atts : list BaseAttention) (input_ : Mat) (prev_state : RnnState)
    (prev_attns : list Mat) (l : Mat) (st : RnnState) (ctx : list Mat) :
  step self fd atts input_ prev_state prev_attns = Ok (l, st, ctx) →
  state_matches_cell self prev_state ∧ state_matches_cell self st
  ∧ length ctx = length atts.
Proof.
  unfold step, _get_rnn_cell. rewrite RNN_CELL_TYPES_lookup.
  destruct (decide (_rnn_cell_str self = "GRU")) as [Hgru|Hgru].
  - rewrite (bool_decide_eq_true_2 _ Hgru). simpl.
    destruct prev_state as [h|c h]; simpl; [|done].
    destruct (OrthoGRUCell _ _ h) as [out h']. simpl.
    rewrite andb_true_r. destruct (_conditional_gru self).
    + destruct (tf_concat _) as [cond_input|e]; [|done]. simpl.
      destruct (GRUCell _ _ cond_input h') as [out2 h2]. simpl.
      intros [= <- <- <-]. by rewrite length_fmap.
    + simpl. intros [= <- <- <-]. by rewrite length_fmap.
  - rewrite (bool_decide_eq_false_2 _ Hgru).
    destruct (decide (_rnn_cell_str self = "LSTM")) as [Hlstm|Hlstm];
      [|done].
    rewrite (bool_decide_eq_true_2 _ Hlstm). simpl.
    destruct prev_state as [h|c h]; simpl; [done|].
    destruct (LSTMCell _ _ (c, h)) as [out [c' h']]. simpl.
    rewrite andb_false_r. simpl. intros [= <- <- <-].
    by rewrite length_fmap.
Qed.

Lemma loop_invariant (self : Decoder) (fd : Feed) (go_symbols : list Mat)
    (train_inputs : option (list Mat)) (train_mode : bool) (k : nat)
    (s : LoopState) :
  loop_after self fd go_symbols train_inputs train_mode k = Ok s →
  state_matches_cell self (ls_state s)
  ∧ length (ls_attns s) = length (att_objects self train_mode)
  ∧ Forall (state_matches_cell self) (ls_states s).
Proof.
  revert s. induction k as [|k IH]; intros s Hs.
  - rewrite loop_after_0 in Hs. unfold initial_loop_state in Hs.
    apply bind_Ok in Hs as (st0 & _ & Hs).
    apply bind_Ok in Hs as (st & Hst & Hs). injection Hs as <-. simpl.
    rewrite length_fmap. split; [|done].
    repeat case_bool_decide; by simplify_eq.
  - rewrite loop_after_S in Hs. apply bind_Ok in Hs as (s1 & Hs1 & Hs).
    destruct (IH _ Hs1) as (_ & _ & Hall).
    apply loop_body_Ok in Hs
      as (inp & l & st & ctx & _ & Hstep & _ & -> & -> & -> & _).
    apply step_Ok_kind in Hstep as (_ & Hst & Hctx).
    split; [done|]. split; [done|].
    apply Forall_app. split; [done|]. by constructor.
Qed.

(** X3.  The kind of the recurrent state never changes along a run: in
    either mode every state the loop returns is a plain tensor when the
    cell is the GRU and an [LSTMStateTuple] when it is the LSTM, and a
    loop that returns at all belongs to a decoder with one of these two
    cells. *)
Theorem X3_state_kind_is_fixed
    (self : Decoder) (fd : Feed) (go_symbols : list Mat)
    (train_inputs : option (list Mat)) (train_mode : bool)
    (logits : list Mat) (states : list RnnState) (mask : list (list bool)) :
  _decoding_loop self fd go_symbols train_inputs train_mode
    = Ok (logits, states, mask) →
  (_rnn_cell_str self = "GRU" ∨ _rnn_cell_str self = "LSTM")
  ∧ (_rnn_cell_str self = "GRU" →
     Forall (λ st, ∃ h, st = GRUState h) states)
  ∧ (_rnn_cell_str self = "LSTM" →
     Forall (λ st, ∃ c h, st = LSTMStateTuple c h) states).
Proof.
  intros Hloop.
  apply _decoding_loop_Ok in Hloop as (s & Hs & _ & <- & _).
  destruct (loop_invariant _ _ _ _ _ _ _ Hs) as (Hlast & _ & Hall).
  split; [by destruct (ls_state s); [left|right]|].
  split; intros Hcell; eapply Forall_impl; try exact Hall.
  - intros [h|c h] Hkind; simpl in Hkind; [by eexists|congruence].
  - intros [h|c h] Hkind; simpl in Hkind; [congruence|by eexists _, _].
Qed.

(** X4.  The free-running mode reads neither training placeholder: the
    loop's logits, states and mask and the decoded tokens are the same
    whatever is fed for [train_inputs] and [train_padding]. *)
Theorem X4_runtime_ignores_training_placeholders
    (self : Decoder) (fd : Feed) (inputs : list (list Z)) (padding : Mat) :
  runtime_loop self (set_training_placeholders inputs padding fd)
  = runtime_loop self fd
  ∧ decoded self (set_training_placeholders inputs padding fd)
    = decoded self fd.
Proof. split; reflexivity. Qed.

Lemma py_but_last_snoc {A} (l : list A) (x : A) : py_but_last (l ++ [x]) = l.
Proof.
  unfold py_but_last. rewrite length_app. simpl.
  replace (length l + 1 - 1) with (length l) by lia.
  apply take_app_length.
Qed.

(** X5.  The last row of the training inputs is never fed to the decoder
    (it only serves as a target): the teacher-forced logits are the same
    for two feeds that differ in that row, and in the padding weights,
    only. *)
Theorem X5_last_target_is_not_an_input
    (self : Decoder) (fd : Feed) (inputs : list (list Z))
    (last last' : list Z) (padding padding' : Mat) :
  train_logits self
    (set_training_placeholders (inputs ++ [last]) padding fd)
  = train_logits self
      (set_training_placeholders (inputs ++ [last']) padding' fd).
Proof.
  unfold train_logits, embedded_train_inputs. simpl.
  by rewrite !py_but_last_snoc.
Qed.

End threading.

Lemma X3_witness :
  ∃ logits states mask,
    runtime_loop (toy_decoder "LSTM" false true) (toy_feed false 1)
      = Ok (logits, states, mask)
    ∧ Forall (λ st, ∃ c h, st = LSTMStateTuple c h) states.
Proof.
  edestruct X3_state_kind_is_fixed
    with (self := toy_decoder "LSTM" false true) (fd := toy_feed false 1)
         (go_symbols :=
            embedded_go_symbols (toy_decoder "LSTM" false true)
              (toy_feed false 1))
         (train_inputs := @None (list (list (list Z))))
         (train_mode := false)
    as (_ & _ & Hlstm); [vm_compute; reflexivity|].
  eexists _, _, _. split; [vm_compute; reflexivity|].
  by apply Hlstm.
Defined.

(** ** Teacher forcing *)

Section teacher_forcing.
Context `{Ops}.

(** The first [k] iterations of the teacher-forced loop read the first
    [k - 1] training inputs only. *)
Lemma loop_after_train_prefix (self : Decoder) (fd : Feed)
    (go_symbols : list Mat) (tr tr' : list Mat) (k : nat) :
  take (k - 1) tr = take (k - 1) tr' →
  loop_after self fd go_symbols (Some tr) true k
  = loop_after self fd go_symbols (Some tr') true k.
Proof.
  induction k as [|k IH]; intros Htake.
  - by rewrite !loop_after_0.
  - rewrite !loop_after_S, <- IH.
    2:{ replace (k - 1) with (min (k - 1) (S k - 1)) by lia.
        by rewrite <- !take_take, Htake. }
    destruct (loop_after self fd go_symbols (Some tr) true k)
      as [s|e] eqn:Hs; [|done].
    rewrite !ret_bind. unfold loop_body.
    assert (choose_input self fd go_symbols (Some tr) true k
              (ls_step_logits s)
            = choose_input self fd go_symbols (Some tr') true k
                (ls_step_logits s)) as ->; [|done].
    unfold choose_input. destruct (ls_step_logits s) as [prev|] eqn:Hprev;
      [|done].
    destruct k as [|k].
    { apply initial_step_logits in Hs as (Hnone & _). congruence. }
    unfold py_index.
    destruct (Z.ltb_spec (Z.of_nat (S k) - 1) 0) as [|_]; [lia|].
    destruct (Z.ltb_spec (Z.of_nat (S k) - 1) 0) as [|_]; [lia|].
    replace (Z.to_nat (Z.of_nat (S k) - 1)) with k by lia.
    replace (S (S k) - 1) with (S k) in Htake by lia.
    assert (tr !! k = tr' !! k) as ->; [|done].
    rewrite <- (lookup_take_lt tr (S k) k), <- (lookup_take_lt tr' (S k) k)
      by lia.
    by rewrite Htake.
Qed.

(** X6.  Teacher forcing looks at no future target: the logits, states
    and mask of the first [k] steps of the teacher-forced loop are
    determined by the first [k - 1] training inputs; two runs whose
    training inputs agree up to there agree on these steps. *)
Theorem X6_teacher_forcing_reads_no_future_input
    (self : Decoder) (fd : Feed) (go_symbols : list Mat)
    (tr tr' : list Mat) (k : nat)
    (logits logits' : list Mat) (states states' : list RnnState)
    (mask mask' : list (list bool)) :
  _decoding_loop self fd go_symbols (Some tr) true
    = Ok (logits, states, mask) →
  _decoding_loop self fd go_symbols (Some tr') true
    = Ok (logits', states', mask') →
  k ≤ Z.to_nat (max_output_len self) →
  take (k - 1) tr = take (k - 1) tr' →
  take k logits = take k logits' ∧ take k states = take k states'
  ∧ take k mask = take k mask'.
Proof.
  intros Hrun Hrun' Hk Htake.
  apply _decoding_loop_Ok in Hrun as (s & Hs & <- & <- & <-).
  apply _decoding_loop_Ok in Hrun' as (s' & Hs' & <- & <- & <-).
  destruct (loop_after_take _ _ _ _ _ _ k _ Hs Hk)
    as (sk & Hsk & <- & <- & <-).
  destruct (loop_after_take _ _ _ _ _ _ k _ Hs' Hk)
    as (sk' & Hsk' & <- & <- & <-).
  rewrite (loop_after_train_prefix _ _ _ tr tr' k Htake) in Hsk.
  rewrite Hsk in Hsk'. by injection Hsk' as <-.
Qed.

(** X7.  The index [train_inputs[i - 1]] of the teacher-forced loop is
    always in range: the embedded training inputs hold
    [max_output_len - 1] steps (the placeholder has [max_output_len] rows
    and the constructor cuts the last), which are the steps 1 to
    [max_output_len - 1] of the loop.  So with a supported cell, an
    initial state and (when the conditional update is taken) contexts
    that concatenate, the teacher-forced loop returns [max_output_len]
    logits. *)
Theorem X7_teacher_forcing_inputs_in_range (self : Decoder) (fd : Feed) :
  is_Some (RNN_CELL_TYPES !! _rnn_cell_str self) →
  is_ok (_create_initial_state self fd) = true →
  (_conditional_gru self && bool_decide (_rnn_cell_str self = "GRU") = true →
   ∀ ctxs, length ctxs = length (att_objects self true) →
           is_ok (tf_concat ctxs) = true) →
  length (embedded_train_inputs self fd)
  = Z.to_nat (max_output_len self) - 1 →
  ∃ logits,
    train_logits self fd = Ok logits
    ∧ length logits = Z.to_nat (max_output_len self).
Proof.
  intros Hcell Hinit Hconcat Hlen.
  destruct (loop_after_total self fd
              (tf_embedding_lookup
                 (fd_matrix fd (var_id (embedding_matrix self)))
                 (fd_go_symbols fd))
              (Some (embedded_train_inputs self fd)) true
              (Z.to_nat (max_output_len self)) Hcell Hinit Hconcat)
    as (s & Hs & _).
  { intros _. eexists. split; [done|]. lia. }
  exists (ls_logits s). unfold train_logits, _decoding_loop.
  unfold embedded_go_symbols. rewrite Hs. split; [done|].
  by apply loop_after_length in Hs as (-> & _).
Qed.

End teacher_forcing.

Lemma X6_witness :
  ∃ logits states mask logits' states' mask',
    _decoding_loop (toy_decoder "GRU" false true) (toy_feed true 1)
      [[[2; 1]]]%Z (Some (replicate 4 [[2; 2]]%Z)) true
    = Ok (logits, states, mask)
    ∧ _decoding_loop (toy_decoder "GRU" false true) (toy_feed true 1)
        [[[2; 1]]]%Z (Some ([[2; 2]] :: replicate 3 [[6; 2]])%Z) true
      = Ok (logits', states', mask')
    ∧ 2 ≤ Z.to_nat (max_output_len (toy_decoder "GRU" false true))
    ∧ take 2 states = take 2 states'
    ∧ take 3 states ≠ take 3 states'.
Proof.
  edestruct X6_teacher_forcing_reads_no_future_input
    with (self := toy_decoder "GRU" false true) (fd := toy_feed true 1)
         (go_symbols := [[[2; 1]]]%Z) (tr := replicate 4 [[2; 2]]%Z)
         (tr' := ([[2; 2]] :: replicate 3 [[6; 2]])%Z) (k := 2)
    as (_ & Hstates & _);
    [vm_compute; reflexivity | vm_compute; reflexivity | vm_compute; lia
    | reflexivity |].
  eexists _, _, _, _, _, _. split; [vm_compute; reflexivity|].
  split; [vm_compute; reflexivity|]. split; [vm_compute; lia|].
  split; [exact Hstates|]. vm_compute. discriminate.
Defined.

Lemma X7_witness :
  length (embedded_train_inputs (toy_decoder "GRU" false true)
            (toy_feed true 1)) = 4
  ∧ ∃ logits,
      train_logits (toy_decoder "GRU" false true) (toy_feed true 1)
        = Ok logits
      ∧ length logits = 5.
Proof.
  split; [reflexivity|].
  edestruct X7_teacher_forcing_inputs_in_range
    with (self := toy_decoder "GRU" false true) (fd := toy_feed true 1)
    as (logits & Hlogits & Hlen);
    [by eexists | reflexivity | discriminate | reflexivity |].
  exists logits. split; [exact Hlogits | exact Hlen].
Defined.

(** ** The attention objects of a constructed decoder *)

Section attention_more.
Context `{Ops}.

Lemma attention_objects_of_snoc (es : list Encoder) (e : Encoder) :
  attention_objects_of (es ++ [e])
  = match create_attention_object e with
    | Some a => <[enc_id e := a]> (attention_objects_of es)
    | None => attention_objects_of es
    end.
Proof. unfold attention_objects_of. by rewrite foldl_app. Qed.

Lemma attention_objects_of_None (es : list Encoder) (i : nat) :
  Forall (λ e, enc_id e ≠ i) es → attention_objects_of es !! i = None.
Proof.
  induction es as [|e es IH] using rev_ind; intros Hids; [done|].
  apply Forall_app in Hids as [Hes He].
  apply (proj1 (Forall_singleton _ _)) in He.
  rewrite attention_objects_of_snoc.
  destruct (create_attention_object e) as [a|]; [|by apply IH].
  rewrite lookup_insert_ne by done. by apply IH.
Qed.

(** Looking an encoder of the list up in the dictionary built from the
    list gives the attention object the encoder creates (none for an
    encoder that is not attentive), when equal identities mean the same
    encoder. *)
Lemma attention_objects_of_lookup (es : list Encoder) (e : Encoder) :
  (∀ e1 e2, e1 ∈ es → e2 ∈ es → enc_id e1 = enc_id e2 →
            create_attention_object e1 = create_attention_object e2) →
  e ∈ es →
  attention_objects_of es !! enc_id e = create_attention_object e.
Proof.
  revert e. induction es as [|x es IH] using rev_ind; intros e Hsame He.
  { by apply elem_of_nil in He. }
  assert (∀ e1 e2, e1 ∈ es → e2 ∈ es → enc_id e1 = enc_id e2 →
            create_attention_object e1 = create_attention_object e2)
    as Hsame'.
  { intros e1 e2 H1 H2. apply Hsame; apply elem_of_app; by left. }
  assert (x ∈ es ++ [x]) as Hx.
  { apply elem_of_app. right. by apply list_elem_of_singleton. }
  rewrite attention_objects_of_snoc.
  destruct (decide (enc_id x = enc_id e)) as [Hid|Hid].
  - rewrite <- (Hsame x e Hx He Hid), <- Hid.
    destruct (create_attention_object x) as [a|] eqn:Hcreate.
    + by rewrite lookup_insert_eq.
    + destruct (decide (Exists (λ e', enc_id e' = enc_id x) es))
        as [Hex|Hnex].
      * apply Exists_exists in Hex as (e' & He' & Hid').
        rewrite <- Hid', (IH e' Hsame' He'), <- Hcreate.
        apply Hsame; [|done|done]. apply elem_of_app. by left.
      * apply attention_objects_of_None.
        apply Forall_forall. intros e' He' Hid'.
        apply Hnex, Exists_exists. by exists e'.
  - assert (e ∈ es) as Hes.
    { apply elem_of_app in He as [He|He]; [done|].
      apply list_elem_of_singleton in He. by subst. }
    destruct (create_attention_object x) as [a|].
    + rewrite lookup_insert_ne by done. by apply IH.
    + by apply IH.
Qed.

Lemma omap_id_fmap_ext {A B} (f g : A → option B) (l : list A) :
  Forall (λ x, f x = g x) l → omap id (f <$> l) = omap g l.
Proof.
  induction 1 as [|x l Hx _ IH]; [done|]. csimpl. rewrite Hx.
  destruct (g x); by rewrite IH.
Qed.

Lemma attention_dictionaries (a : Args) (g g' : Graph) (self : Decoder) :
  __init__ a g = (g', Ok self) →
  encoders self = arg_encoders a
  ∧ _train_attention_objects self
    = (if arg_use_attention a then attention_objects_of (arg_encoders a)
       else ∅)
  ∧ _runtime_attention_objects self = _train_attention_objects self.
Proof.
  init_cases a; intros Hinit; try discriminate Hinit;
    by injection Hinit as <- <-.
Qed.

(** X8.  The attention objects of a mode are what the encoders create, in
    the order of the encoder list: for a decoder constructed with
    [use_attention = True] over encoders whose equal identities mean the
    same encoder, each mode's active attention objects are the attention
    objects of the attentive encoders, one per occurrence in the list and
    none for an encoder that is not attentive; with
    [use_attention = False] there is none. *)
Theorem X8_attention_objects_follow_encoders
    (a : Args) (g g' : Graph) (self : Decoder) (train_mode : bool) :
  __init__ a g = (g', Ok self) →
  (∀ e1 e2, e1 ∈ arg_encoders a → e2 ∈ arg_encoders a →
            enc_id e1 = enc_id e2 →
            create_attention_object e1 = create_attention_object e2) →
  att_objects self train_mode
  = if arg_use_attention a
    then omap create_attention_object (arg_encoders a)
    else [].
Proof.
  intros Hinit Hsame.
  destruct (attention_dictionaries _ _ _ _ Hinit) as (Hes & Htrain & Hrun).
  unfold att_objects, get_attention_object.
  rewrite Hrun, Htrain, Hes.
  destruct train_mode;
    (destruct (arg_use_attention a); [|apply no_attention_objects];
     apply omap_id_fmap_ext, Forall_forall; intros e He;
     by apply attention_objects_of_lookup).
Qed.

(** X9.  Both modes start alike: for a constructed decoder and a feed
    that is not a training feed (dropout is then a no-op, so the separate
    dropout operations of the two loops cannot differ), the logits of
    step 0 of the teacher-forced loop and of the free-running loop are
    the same, whatever the targets; the two loops can only differ from
    step 1 on. *)
Theorem X9_first_step_same_in_both_modes
    (a : Args) (g g' : Graph) (self : Decoder) (fd : Feed)
    (train free : list Mat) :
  __init__ a g = (g', Ok self) →
  fd_train_mode fd = false →
  train_logits self fd = Ok train →
  runtime_logits self fd = Ok free →
  train !! 0 = free !! 0.
Proof.
  intros Hinit _ Htrain Hfree.
  destruct (attention_dictionaries _ _ _ _ Hinit) as (_ & _ & Hdict).
  assert (att_objects self true = att_objects self false) as Hatt.
  { unfold att_objects, get_attention_object. by rewrite Hdict. }
  unfold train_logits in Htrain. unfold runtime_logits, runtime_loop in Hfree.
  apply bind_Ok in Htrain as ([[tl ts] tm] & Htrain & [= ->]).
  apply bind_Ok in Hfree as ([[fl fs] fm] & Hfree & [= ->]).
  apply _decoding_loop_Ok in Htrain as (s & Hs & <- & _).
  apply _decoding_loop_Ok in Hfree as (s' & Hs' & <- & _).
  destruct (Z.to_nat (max_output_len self)) as [|n] eqn:HT.
  - apply loop_after_length in Hs as (Hl & _).
    apply loop_after_length in Hs' as (Hl' & _).
    rewrite !lookup_ge_None_2; [done|lia..].
  - destruct (loop_iteration _ _ _ _ _ (S n) 0 s Hs)
      as (b & nx & inp & l & Hb & _ & Hinp & Hstep & _ & _ & Hl & _);
      [lia|].
    destruct (loop_iteration _ _ _ _ _ (S n) 0 s' Hs')
      as (b' & nx' & inp' & l' & Hb' & _ & Hinp' & Hstep' & _ & _ & Hl'
          & _); [lia|].
    rewrite loop_after_0 in Hb, Hb'.
    unfold initial_loop_state in Hb, Hb'. rewrite Hatt in Hb.
    rewrite Hb' in Hb. injection Hb as <-.
    assert (ls_step_logits b' = None) as Hnone.
    { apply bind_Ok in Hb' as (x & _ & Hb').
      apply bind_Ok in Hb' as (y & _ & Hb'). by injection Hb' as <-. }
    rewrite Hnone in Hinp, Hinp'. simpl in Hinp, Hinp'.
    rewrite Hinp' in Hinp. injection Hinp as <-.
    rewrite Hatt, Hstep' in Hstep. injection Hstep as <- _ _.
    by rewrite Hl, Hl'.
Qed.

End attention_more.

Lemma X8_witness :
  ∃ g' self,
    __init__ (toy_attentive_args false) empty_graph = (g', Ok self)
    ∧ att_objects self false = [toy_attention]
    ∧ att_objects self true = [toy_attention].
Proof.
  eexists _, _. split; [vm_compute; reflexivity|].
  split.
  - erewrite (X8_attention_objects_follow_encoders
               (toy_attentive_args false) empty_graph);
      [reflexivity | vm_compute; reflexivity |].
    intros e1 e2 H1 H2 Hid.
    apply list_elem_of_In in H1, H2. simpl in H1, H2.
    destruct H1 as [<-|[<-|[]]], H2 as [<-|[<-|[]]]; done.
  - vm_compute. reflexivity.
Defined.

Lemma X9_witness :
  ∃ g' self train free,
    __init__ (toy_args "GRU" false true) empty_graph = (g', Ok self)
    ∧ fd_train_mode (toy_feed false 1) = false
    ∧ train_logits self (toy_feed false 1) = Ok train
    ∧ runtime_logits self (toy_feed false 1) = Ok free
    ∧ train !! 0 = free !! 0.
Proof.
  eexists _, _, _, _. split; [vm_compute; reflexivity|].
  split; [reflexivity|].
  split; [vm_compute; reflexivity|]. split; [vm_compute; reflexivity|].
  eapply (X9_first_step_same_in_both_modes (toy_args "GRU" false true)
            empty_graph _ _ (toy_feed false 1));
    [vm_compute; reflexivity | reflexivity | vm_compute; reflexivity
    | vm_compute; reflexivity].
Defined.

(** ** The decoded tokens and the argmax *)

Section decoded_more.
Context `{Ops}.

Lemma argmax_from_shift (l : list float) (best : float) (best_i i c : Z) :
  argmax_from best (best_i + c) (i + c) l
  = (argmax_from best best_i i l + c)%Z.
Proof.
  revert best best_i i. induction l as [|x l IH]; intros best best_i i;
    simpl; [done|].
  replace (i + c + 1)%Z with (i + 1 + c)%Z by lia.
  destruct (float_gt x best); apply IH.
Qed.

(** Starting the scan from a candidate that is not better changes nothing
    once the first candidate has been replaced. *)
Lemma argmax_from_weaker_start (l : list float) (b b' : float)
    (bi bi' i : Z) :
  (∀ x y z, float_gt x y = false → float_gt y z = false →
            float_gt x z = false) →
  float_gt b' b = false →
  argmax_from b bi i l ≠ bi →
  argmax_from b bi i l = argmax_from b' bi' i l.
Proof.
  intros Hneg. revert b b' bi bi' i.
  induction l as [|x l IH]; intros b b' bi bi' i Hle Hmoved; simpl in *;
    [done|].
  destruct (float_gt x b) eqn:Hxb.
  - destruct (float_gt x b') eqn:Hxb'; [done|].
    by rewrite (Hneg x b' b Hxb' Hle) in Hxb.
  - destruct (float_gt x b') eqn:Hxb'; by apply IH.
Qed.

(** When the best entry of a row is not its first one, the argmax of the
    row is one more than the argmax of the row without its first
    entry. *)
Lemma argmax_row_drop_1 (row : list float) :
  (∀ x y z, float_gt x y = false → float_gt y z = false →
            float_gt x z = false) →
  argmax_row row ≠ 0%Z →
  argmax_row row = (1 + argmax_row (drop 1 row))%Z.
Proof.
  intros Hneg. destruct row as [|x0 [|x1 l]]; [done..|].
  unfold argmax_row. simpl. intros Hmoved.
  replace (1 + argmax_from x1 0 1 l)%Z with (argmax_from x1 0 1 l + 1)%Z
    by lia.
  rewrite <- argmax_from_shift. simpl.
  destruct (float_gt x1 x0) eqn:Hgt; [done|].
  by apply argmax_from_weaker_start.
Qed.

(** X10.  Decoding and feeding back disagree on index 0 only.  When
    comparing scores is a strict weak order, the decoded token of an
    example at a step equals the argmax of its logits over all indices
    (the token fed to the next step and tested against the end token)
    whenever that argmax is not 0; in particular, if the end-token index
    is not 0, a step whose argmax is the end token decodes the end
    token. *)
Theorem X10_decoded_agrees_with_argmax_off_index_0
    (self : Decoder) (fd : Feed) (logits : list Mat) (dec : list (list Z))
    (t b : nat) (l : Mat) (row : list float) :
  (∀ x y z, float_gt x y = false → float_gt y z = false →
            float_gt x z = false) →
  runtime_logits self fd = Ok logits →
  decoded self fd = Ok dec →
  logits !! t = Some l → l !! b = Some row →
  argmax_row row ≠ 0%Z →
  dec !! t ≫= (.!! b) = Some (argmax_row row)
  ∧ dec !! t ≫= (.!! b) = tf_argmax l !! b
  ∧ (argmax_row row = END_TOKEN_INDEX →
     dec !! t ≫= (.!! b) = Some END_TOKEN_INDEX).
Proof.
  intros Hneg Hrun Hdec Hl Hrow Hmoved.
  unfold decoded in Hdec. rewrite Hrun in Hdec. injection Hdec as <-.
  assert (decoded_of logits !! t ≫= (.!! b) = Some (argmax_row row)) as ->.
  { unfold decoded_of, tf_argmax, slice_from_1.
    rewrite list_lookup_fmap, Hl. simpl.
    rewrite !list_lookup_fmap, Hrow. simpl.
    rewrite (argmax_row_drop_1 row Hneg Hmoved). f_equal. lia. }
  unfold tf_argmax. rewrite list_lookup_fmap, Hrow. simpl.
  split; [done|]. split; [done|]. by intros ->.
Qed.

(** X11.  The decoded token is a best-scoring id other than 0: when
    comparing scores is a strict weak order and the row has at least two
    entries, the logit at the decoded token is exceeded by no logit at an
    index from 1 on. *)
Theorem X11_decoded_token_is_best_nonzero_id
    (logits : list Mat) (t b : nat) (l : Mat) (row : list float) :
  (∀ x y, float_gt x y = true → float_gt y x = false) →
  (∀ x y z, float_gt x y = false → float_gt y z = false →
            float_gt x z = false) →
  logits !! t = Some l → l !! b = Some row → 2 ≤ length row →
  ∃ token x,
    decoded_of logits !! t ≫= (.!! b) = Some token
    ∧ (1 ≤ token < Z.of_nat (length row))%Z
    ∧ row !! Z.to_nat token = Some x
    ∧ ∀ j y, 1 ≤ j → row !! j = Some y → float_gt y x = false.
Proof.
  intros Hasym Hneg Hl Hrow Hlen.
  assert (drop 1 row ≠ []) as Hne.
  { intros Hnil. apply (f_equal length) in Hnil.
    rewrite length_drop in Hnil. simpl in Hnil. lia. }
  destruct (argmax_row_maximal (drop 1 row) Hasym Hneg Hne)
    as (x & Hx & Hmax).
  pose proof (argmax_row_bounds (drop 1 row) Hne) as Hbound.
  rewrite length_drop in Hbound.
  exists (argmax_row (drop 1 row) + 1)%Z, x. repeat split; try lia.
  - unfold decoded_of, tf_argmax, slice_from_1.
    rewrite list_lookup_fmap, Hl. simpl.
    by rewrite !list_lookup_fmap, Hrow.
  - rewrite lookup_drop in Hx.
    by replace (Z.to_nat (argmax_row (drop 1 row) + 1))
      with (1 + Z.to_nat (argmax_row (drop 1 row))) by lia.
  - intros j y Hj Hy. apply (Hmax (j - 1)). rewrite lookup_drop.
    by replace (1 + (j - 1)) with j by lia.
Qed.

End decoded_more.

Lemma toy_gt_asymmetric (x y : Z) : Z.gtb x y = true → Z.gtb y x = false.
Proof. lia. Qed.

Lemma toy_gt_negatively_transitive (x y z : Z) :
  Z.gtb x y = false → Z.gtb y z = false → Z.gtb x z = false.
Proof. lia. Qed.

Lemma X10_witness :
  ∃ logits dec l row,
    runtime_logits (toy_decoder "GRU" false true) (toy_feed false 1)
      = Ok logits
    ∧ decoded (toy_decoder "GRU" false true) (toy_feed false 1) = Ok dec
    ∧ logits !! 0 = Some l ∧ l !! 0 = Some row
    ∧ argmax_row row ≠ 0%Z
    ∧ dec !! 0 ≫= (.!! 0) = Some 1%Z.
Proof.
  eexists _, _, _, _. split; [vm_compute; reflexivity|].
  split; [vm_compute; reflexivity|]. split; [reflexivity|].
  split; [reflexivity|]. split; [vm_compute; discriminate|].
  edestruct X10_decoded_agrees_with_argmax_off_index_0
    with (self := toy_decoder "GRU" false true) (fd := toy_feed false 1)
         (t := 0) (b := 0)
    as (Hdec & _);
    [exact toy_gt_negatively_transitive | vm_compute; reflexivity
    | vm_compute; reflexivity | reflexivity | reflexivity
    | vm_compute; discriminate |].
  exact Hdec.
Defined.

Lemma X11_witness :
  ∃ token x,
    decoded_of (H := toy_scalar) [[[5; 1; 7; 7; 2]]]%Z !! 0 ≫= (.!! 0)
      = Some token
    ∧ [5; 1; 7; 7; 2]%Z !! Z.to_nat token = Some x
    ∧ token = 2%Z ∧ x = 7%Z.
Proof.
  edestruct (X11_decoded_token_is_best_nonzero_id (H := toy_scalar)
               [[[5; 1; 7; 7; 2]]]%Z 0 0 [[5; 1; 7; 7; 2]]%Z
               [5; 1; 7; 7; 2]%Z)
    as (token & x & Htoken & _ & Hx & _);
    [exact toy_gt_asymmetric | exact toy_gt_negatively_transitive
    | reflexivity | reflexivity | simpl; lia |].
  exists token, x. split; [exact Htoken|]. split; [exact Hx|].
  vm_compute in Htoken. injection Htoken as <-.
  vm_compute in Hx. injection Hx as <-. done.
Defined.

(** ** The variables and the policies of the constructor *)

Section constructor_more.
Context `{Ops}.

(** X12.  The variables the constructor creates itself: a constructed
    decoder has [state_to_word_W] of shape [rnn_size, len(vocabulary)]
    and [state_to_word_b] of shape [len(vocabulary)], two distinct
    variables that the graph did not have before.  With an
    [embeddings_source] the embedding matrix is the source's own matrix
    and no matrix is created; without one it is a further new variable
    [word_embeddings] of shape [len(vocabulary), embedding_size], with
    the configured size, created before the other two. *)
Theorem X12_constructor_variables
    (a : Args) (g g' : Graph) (self : Decoder) :
  __init__ a g = (g', Ok self) →
  next_var g ≤ var_id (decoding_w self)
  ∧ var_id (decoding_w self) < var_id (decoding_b self)
  ∧ var_id (decoding_b self) < next_var g'
  ∧ var_name (decoding_w self) = "state_to_word_W"
  ∧ var_name (decoding_b self) = "state_to_word_b"
  ∧ var_shape (decoding_w self)
    = [Some (rnn_size self); Some (vocabulary_len (vocabulary self))]
  ∧ var_shape (decoding_b self)
    = [Some (vocabulary_len (vocabulary self))]
  ∧ match arg_embeddings_source a with
    | Some src => embedding_matrix self = embedding_matrix_of src
    | None =>
        next_var g ≤ var_id (embedding_matrix self)
        ∧ var_id (embedding_matrix self) < var_id (decoding_w self)
        ∧ var_name (embedding_matrix self) = "word_embeddings"
        ∧ var_shape (embedding_matrix self)
          = [Some (vocabulary_len (vocabulary self)); arg_embedding_size a]
        ∧ embedding_size self = arg_embedding_size a
    end.
Proof.
  init_cases a; intros Hinit; try discriminate Hinit;
    injection Hinit as <- <-; cbn; repeat split; lia.
Qed.

Lemma constructed_cell (a : Args) (g g' : Graph) (self : Decoder) :
  __init__ a g = (g', Ok self) →
  is_Some (RNN_CELL_TYPES !! _rnn_cell_str self)
  ∧ (_rnn_cell_str self = "GRU" ∨ _rnn_cell_str self = "LSTM").
Proof.
  init_cases a; intros Hinit; try discriminate Hinit;
    injection Hinit as <- <-; cbn; rewrite Hcell;
    (split; [by eexists|]);
    rewrite RNN_CELL_TYPES_lookup in Hcell;
    repeat case_decide; by eauto.
Qed.

(** X13.  In a constructed decoder the cell is one of the two supported
    kinds, so the loop's [Unknown RNN cell] branches are never taken:
    whenever the initial state exists and, if the conditional update is
    taken, the attention contexts concatenate, the free-running loop
    returns [max_output_len] logits, states and mask entries, and the
    decoded tokens exist. *)
Theorem X13_constructed_decoder_decodes
    (a : Args) (g g' : Graph) (self : Decoder) (fd : Feed) :
  __init__ a g = (g', Ok self) →
  is_ok (_create_initial_state self fd) = true →
  (_conditional_gru self && bool_decide (_rnn_cell_str self = "GRU") = true →
   ∀ ctxs, length ctxs = length (att_objects self false) →
           is_ok (tf_concat ctxs) = true) →
  (arg_rnn_cell a = "GRU" ∨ arg_rnn_cell a = "LSTM")
  ∧ ∃ logits states mask,
      runtime_loop self fd = Ok (logits, states, mask)
      ∧ decoded self fd = Ok (decoded_of logits)
      ∧ length logits = Z.to_nat (max_output_len self).
Proof.
  intros Hinit Hstate Hconcat.
  destruct (constructed_cell _ _ _ _ Hinit) as [Hcell Hkind].
  split.
  { revert Hinit Hkind. clear.
    init_cases a; intros Hinit; try discriminate Hinit;
      by injection Hinit as <- <-. }
  pose proof (runtime_loop_total self fd Hcell Hstate Hconcat) as Hrun.
  destruct (runtime_loop self fd) as [[[logits states] mask]|e] eqn:Hloop;
    [|done].
  exists logits, states, mask. split; [done|].
  unfold decoded, runtime_logits. rewrite Hloop. split; [done|].
  unfold runtime_loop in Hloop.
  apply _decoding_loop_Ok in Hloop as (s & Hs & <- & _).
  by apply loop_after_length in Hs as (-> & _).
Qed.

(** X14.  How the constructor resolves the initial-state projection and
    [rnn_size]: an explicit [encoder_projection] is kept; without one, no
    encoders select [empty_initial_state], and encoders with an explicit
    [rnn_size] select [linear_encoder_projection(dropout_keep_prob)]; an
    explicit [rnn_size] is never changed, and only the concatenation
    policy supplies a missing one. *)
Theorem X14_projection_policy
    (a : Args) (g g' : Graph) (self : Decoder) :
  __init__ a g = (g', Ok self) →
  (∀ projection, arg_encoder_projection a = Some projection →
     encoder_projection self = projection)
  ∧ (arg_encoder_projection a = None → arg_encoders a = [] →
     encoder_projection self = empty_initial_state)
  ∧ (arg_encoder_projection a = None → arg_encoders a ≠ [] →
     is_Some (arg_rnn_size a) →
     encoder_projection self
     = linear_encoder_projection (arg_dropout_keep_prob a))
  ∧ (∀ n, arg_rnn_size a = Some n → rnn_size self = n)
  ∧ (arg_rnn_size a = None →
     arg_encoder_projection a = None ∧ arg_encoders a ≠ []
     ∧ encoder_projection self = concat_encoder_projection).
Proof.
  init_cases a; intros Hinit; try discriminate Hinit;
    injection Hinit as <- <-; cbn; repeat split;
    try done; try (by intros ? [= <-]); try (by intros _ _ [? [=]]).
Qed.

End constructor_more.

Lemma X12_witness :
  ∃ g' self,
    __init__ (toy_args "GRU" false true) empty_graph = (g', Ok self)
    ∧ var_id (embedding_matrix self) < var_id (decoding_w self)
    ∧ var_id (decoding_w self) < var_id (decoding_b self)
    ∧ var_shape (decoding_w self) = [Some 2%Z; Some 10%Z].
Proof.
  edestruct X12_constructor_variables
    with (a := toy_args "GRU" false true) (g := empty_graph)
    as (_ & Hwb & _ & _ & _ & Hshape & _ & Hmatrix);
    [vm_compute; reflexivity|].
  eexists _, _. split; [vm_compute; reflexivity|].
  destruct Hmatrix as (_ & Hew & _).
  split; [exact Hew|]. split; [exact Hwb | exact Hshape].
Defined.

Lemma X13_witness :
  ∃ g' self logits states mask,
    __init__ (toy_args "LSTM" false true) empty_graph = (g', Ok self)
    ∧ is_ok (_create_initial_state self (toy_feed false 1)) = true
    ∧ runtime_loop self (toy_feed false 1) = Ok (logits, states, mask)
    ∧ length logits = 5.
Proof.
  edestruct X13_constructed_decoder_decodes
    with (a := toy_args "LSTM" false true) (g := empty_graph)
         (fd := toy_feed false 1)
    as (_ & logits & states & mask & Hrun & _ & Hlen);
    [vm_compute; reflexivity | reflexivity | discriminate |].
  eexists _, _, logits, states, mask.
  split; [vm_compute; reflexivity|]. split; [reflexivity|].
  split; [exact Hrun | exact Hlen].
Defined.

Lemma X14_witness :
  ∃ g' self,
    __init__ (toy_attentive_args false) empty_graph = (g', Ok self)
    ∧ encoder_projection self
      = linear_encoder_projection
          (arg_dropout_keep_prob (toy_attentive_args false))
    ∧ rnn_size self = 2%Z.
Proof.
  edestruct X14_projection_policy
    with (a := toy_attentive_args false) (g := empty_graph)
    as (_ & _ & Hlinear & Hsize & _); [vm_compute; reflexivity|].
  eexists _, _. split; [vm_compute; reflexivity|].
  split; [apply Hlinear; [reflexivity | discriminate | by eexists]|].
  by apply Hsize.
Defined.

(** ** The errors of the constructor *)

Section constructor_errors.
Context `{Ops}.

Lemma py_sum_from_is_ok (ws : list (option Z)) (acc : Z) :
  is_ok (py_sum_from acc ws) = bool_decide (None ∉ ws).
Proof.
  revert acc.
  induction ws as [|[w|] ws IH]; intros acc; cbn [py_sum_from is_ok].
  - symmetry. apply bool_decide_eq_true_2. by intros ?%elem_of_nil.
  - rewrite IH. apply bool_decide_ext. rewrite not_elem_of_cons.
    split; [by intros ?|by intros [_ ?]].
  - symmetry. apply bool_decide_eq_false_2. intros Hn. apply Hn. left.
Qed.

Lemma py_sum_is_ok (ws : list (option Z)) :
  is_ok (py_sum ws) = bool_decide (None ∉ ws).
Proof. apply py_sum_from_is_ok. Qed.

Ltac sum_facts :=
  try match goal with
  | Hs : py_sum ?ws = _ |- _ =>
      let Hok := fresh "Hok" in
      pose proof (py_sum_is_ok ws) as Hok; rewrite Hs in Hok;
      symmetry in Hok;
      first [apply bool_decide_eq_true_1 in Hok
            |apply bool_decide_eq_false_1 in Hok]
  end.

(** X15.  The constructor fails its [assert self.rnn_size is not None]
    exactly when the embedding arguments are accepted, no [rnn_size] is
    given, and either an [encoder_projection] is given or there is no
    encoder: the size is only derived for the concatenation policy. *)
Theorem X15_assertion_error_iff (a : Args) (g : Graph) :
  (__init__ a g).2 = Raise AssertionError
  ↔ embedding_args_ok a
    ∧ arg_rnn_size a = None
    ∧ (is_Some (arg_encoder_projection a) ∨ arg_encoders a = []).
Proof.
  unfold embedding_args_ok.
  init_cases a; known_exceptions; cbn; rewrite ?Hshape; cbn;
    (split; [try discriminate; intros _ | try done]);
    try (split; [by eauto|split; [done|by eauto]]);
    try (intros (He & Hr & Hp); exfalso;
         first [ discriminate He | discriminate Hr
               | by destruct He | by destruct Hp as [[? [=]]|[=]] ]).
Qed.

(** X16.  The constructor raises [TypeError] exactly when it has to sum
    the widths of the encoders (no projection, no [rnn_size], some
    encoder) and one of the encoders has a statically unknown width. *)
Theorem X16_type_error_iff (a : Args) (g : Graph) :
  (__init__ a g).2 = Raise TypeError
  ↔ embedding_args_ok a
    ∧ arg_encoder_projection a = None
    ∧ arg_rnn_size a = None
    ∧ None ∈ encoded_width <$> arg_encoders a.
Proof.
  unfold embedding_args_ok.
  init_cases a; sum_facts; known_exceptions; cbn; rewrite ?Hshape; cbn;
    (split; [try discriminate; intros _ | try done]);
    try (intros (He & Hp & Hr & Hn); exfalso;
         first [ discriminate He | discriminate Hr | discriminate Hp
               | by destruct He | by apply elem_of_nil in Hn
               | by apply Hok ]);
    try (apply dec_stable in Hok;
         split; [by eauto|split; [done|split; [done|exact Hok]]]).
Qed.

(** The checks [__init__] makes on its arguments before it builds
    anything pass exactly for the arguments of [passes_argument_checks],
    and raise one of five errors. *)
Lemma argument_checks_pass_iff (a : Args) (g : Graph) :
  is_ok (__init__ a g).2 = true ↔ passes_argument_checks a.
Proof.
  assert (Hcells : ∀ cell : string,
            (cell = "GRU" ∨ cell = "LSTM")
            ↔ is_Some (RNN_CELL_TYPES !! cell)).
  { intros cell. rewrite RNN_CELL_TYPES_lookup.
    repeat case_decide; split; try (by eauto); try (by intros [? [=]]).
    by intros [|]. }
  unfold passes_argument_checks, embedding_args_ok.
  init_cases a; sum_facts; known_exceptions; cbn;
    rewrite ?Hshape, Hcells, Hcell; cbn;
    (split; [try discriminate; intros _ | try done]);
    try (split; [by eauto|split; [by eauto|]];
         first [left; by eauto | right; by eauto]);
    try (intros (He & Hc & Hr); exfalso;
         first [ discriminate He | by destruct He | by destruct Hc as [? [=]]
               | destruct Hr as [[? [=]]|(Hp & Hne & Hn)];
                 first [discriminate Hp | done] ]).
Qed.

Lemma argument_checks_errors (a : Args) (g : Graph) (err : Exception) :
  (__init__ a g).2 = Raise err →
  err ∈ [ValueError missing_embedding_message; IndexError; AssertionError;
         TypeError; ValueError unknown_cell_message].
Proof.
  init_cases a; known_exceptions; cbn; intros Hraise;
    first [discriminate Hraise | injection Hraise as <-];
    repeat first [by left | right].
Qed.

(** X17.  What the constructor requires of its arguments.  A decoder is
    only constructed from arguments that pass the checks: the embedding
    arguments are accepted (a size or a source is given, and a given
    source's matrix has a second dimension), the cell is ['GRU'] or
    ['LSTM'], and [rnn_size] is given, or else no projection is given and
    there are encoders, all of known width.  Arguments that fail a check
    are rejected with the missing-embedding [ValueError], an [IndexError],
    an [AssertionError], a [TypeError] or the unknown-cell [ValueError]. *)
Theorem X17_invalid_arguments_are_rejected (a : Args) (g : Graph) :
  (∀ g' self, __init__ a g = (g', Ok self) → passes_argument_checks a)
  ∧ (¬ passes_argument_checks a →
     ∃ g' e,
       __init__ a g = (g', Raise e)
       ∧ e ∈ [ValueError missing_embedding_message; IndexError;
              AssertionError; TypeError;
              ValueError unknown_cell_message]).
Proof.
  split.
  - intros g' self Hinit. apply (argument_checks_pass_iff a g).
    by rewrite Hinit.
  - intros Hrejected.
    destruct (__init__ a g) as [g' [self|e]] eqn:Hinit.
    + exfalso. apply Hrejected, (argument_checks_pass_iff a g).
      by rewrite Hinit.
    + exists g', e. split; [done|].
      apply (argument_checks_errors a g). by rewrite Hinit.
Qed.

End constructor_errors.

(** ** Feeding the decoder *)

Section feeding.
Context `{Ops}.
Variable sentences_to_tensor :
  Vocabulary → list (list string) → Z → bool → bool → bool →
  list (list Z) * Mat.

Lemma np_shape_is_true {A} (m : list (list A)) (rows : Z) (cols : nat) :
  np_shape_is m rows cols = true →
  Z.of_nat (length m) = rows ∧ ∀ r, r ∈ m → length r = cols.
Proof.
  unfold np_shape_is. intros [Hrows Hcols]%bool_decide_eq_true_1.
  split; [done|]. by apply Forall_forall.
Qed.

(** X18.  What a successful [feed_dict] feeds: [train_mode] is the flag,
    [go_symbols] is one row of [len(dataset)] copies of the index of the
    start token, and the two training placeholders are fed exactly when
    the dataset has the series [data_id] (also when not training), with
    the tensors of [sentences_to_tensor], each of [max_output_len] rows of
    one entry per sentence; without the series the run is not a training
    run and the dictionary has the two input placeholders only. *)
Theorem X18_feed_dict_contents
    (self : Decoder) (dataset : Dataset) (train : bool)
    (fd : gmap string FeedValue) :
  feed_dict sentences_to_tensor self dataset train = Ok fd →
  fd !! train_mode_placeholder = Some (FBool train)
  ∧ fd !! go_symbols_placeholder
    = Some (FIds [replicate (dataset_len dataset)
                    (get_word_index (vocabulary self) START_TOKEN)])
  ∧ match get_series dataset (data_id self) with
    | None =>
        train = false ∧ size fd = 2
        ∧ fd !! train_inputs_placeholder = None
        ∧ fd !! train_padding_placeholder = None
    | Some sentences_list =>
        ∃ inputs weights,
          sentences_to_tensor (vocabulary self) sentences_list
            (max_output_len self) false false true = (inputs, weights)
          ∧ size fd = 4
          ∧ fd !! train_inputs_placeholder = Some (FIds inputs)
          ∧ fd !! train_padding_placeholder = Some (FFloats weights)
          ∧ Z.of_nat (length inputs) = max_output_len self
          ∧ Z.of_nat (length weights) = max_output_len self
          ∧ (∀ row, row ∈ inputs → length row = length sentences_list)
          ∧ (∀ row, row ∈ weights → length row = length sentences_list)
    end.
Proof.
  unfold feed_dict.
  destruct (get_series dataset (data_id self)) as [sentences_list|].
  - cbn. destruct (sentences_to_tensor _ _ _ _ _ _) as [inputs weights].
    destruct (np_shape_is inputs _ _) eqn:Hinputs; [|done].
    destruct (np_shape_is weights _ _) eqn:Hweights; [|done].
    cbn. intros [= <-].
    apply np_shape_is_true in Hinputs as [? ?].
    apply np_shape_is_true in Hweights as [? ?].
    split; [done|]. split; [done|]. exists inputs, weights.
    repeat split; try done.
  - destruct train; [done|]. cbn. intros [= <-]. done.
Qed.

(** X19.  The two ways [feed_dict] fails: with the [ValueError] exactly
    when a training run has no reference series, and with an
    [AssertionError] exactly when the series is present and one of the
    tensors of [sentences_to_tensor] is not of shape
    [max_output_len, len(sentences)]. *)
Theorem X19_feed_dict_errors
    (self : Decoder) (dataset : Dataset) (train : bool) (e : Exception) :
  feed_dict sentences_to_tensor self dataset train = Raise e
  ↔ (get_series dataset (data_id self) = None ∧ train = true
     ∧ e = ValueError "When training, you must feed reference sentences")
    ∨ (∃ sentences_list,
         get_series dataset (data_id self) = Some sentences_list
         ∧ e = AssertionError
         ∧ let tensors :=
             sentences_to_tensor (vocabulary self) sentences_list
               (max_output_len self) false false true in
           np_shape_is tensors.1 (max_output_len self)
             (length sentences_list)
           && np_shape_is tensors.2 (max_output_len self)
                (length sentences_list) = false).
Proof.
  unfold feed_dict.
  destruct (get_series dataset (data_id self)) as [sentences_list|].
  - cbn.
    destruct (sentences_to_tensor _ _ _ _ _ _)
      as [inputs weights] eqn:Htensors.
    cbn.
    destruct (np_shape_is inputs _ _) eqn:Hinputs; cbn;
      [destruct (np_shape_is weights _ _) eqn:Hweights; cbn|]; split;
      try discriminate;
      try (intros [= <-]; right; exists sentences_list;
           rewrite Htensors; cbn; by rewrite Hinputs, ?Hweights);
      (intros [(? & _)|(l & [= <-] & Hexn & Hshape)]; [done|];
       rewrite Htensors in Hshape; cbn in Hshape;
       rewrite Hinputs, ?Hweights in Hshape; first [done | by subst]).
  - destruct train; cbn; split.
    + intros [= <-]. by left.
    + by intros [(_ & _ & ->)|(? & ? & _)].
    + done.
    + by intros [(_ & ? & _)|(? & ? & _)].
Qed.

End feeding.

Lemma X18_witness :
  ∃ fd,
    feed_dict toy_sentences_to_tensor (toy_decoder "GRU" false true)
      toy_dataset true = Ok fd
    ∧ fd !! go_symbols_placeholder = Some (FIds [[2; 2]%Z])
    ∧ size fd = 4.
Proof.
  edestruct X18_feed_dict_contents
    with (sentences_to_tensor := toy_sentences_to_tensor)
         (self := toy_decoder "GRU" false true) (dataset := toy_dataset)
         (train := true)
    as (_ & Hgo & Hseries); [reflexivity|].
  eexists. split; [reflexivity|]. split; [exact Hgo|].
  destruct Hseries as (inputs & weights & _ & Hsize & _). exact Hsize.
Defined.

(** ** The output projection *)

Section output_projection_unused.
Context `{Ops}.

(** X20.  The [output_projection] argument is stored and never applied:
    a decoder constructed with any other output projection (or with none,
    which selects [no_deep_output]) creates the same variables and has
    the same teacher-forced logits, free-running logits, states and mask,
    and decoded tokens. *)
Theorem X20_output_projection_is_never_applied
    (a : Args) (projection : option OutputProjection)
    (g g1 : Graph) (self : Decoder) (fd : Feed) :
  __init__ a g = (g1, Ok self) →
  ∃ g2 self2,
    __init__ (with_output_projection projection a) g = (g2, Ok self2)
    ∧ output_projection self2 = default no_deep_output projection
    ∧ next_var g2 = next_var g1
    ∧ train_logits self2 fd = train_logits self fd
    ∧ runtime_loop self2 fd = runtime_loop self fd
    ∧ decoded self2 fd = decoded self fd.
Proof.
  unfold with_output_projection.
  init_cases a; intros Hinit; try discriminate Hinit;
    injection Hinit as <- <-;
    destruct projection as [projection|]; build_simpl;
    rewrite ?Hcell, ?Hshape, ?Hsum; build_simpl;
    eexists _, _; (split; [reflexivity|]);
    repeat split; reflexivity.
Qed.

End output_projection_unused.

Lemma X20_witness :
  ∃ g2 self2,
    __init__ (with_output_projection (Some (λ _ _ _, []))
                (toy_args "GRU" false true)) empty_graph = (g2, Ok self2)
    ∧ decoded self2 (toy_feed false 1)
      = decoded (toy_decoder "GRU" false true) (toy_feed false 1).
Proof.
  edestruct X20_output_projection_is_never_applied
    with (a := toy_args "GRU" false true)
         (projection :=
            Some (λ (_ _ : list (list Z)) (_ : list (list (list Z))),
                    @nil (list Z)))
         (g := empty_graph) (fd := toy_feed false 1)
    as (g2 & self2 & Hinit & _ & _ & _ & _ & Hdecoded);
    [vm_compute; reflexivity|].
  exists g2, self2. split; [exact Hinit | exact Hdecoded].
Defined.

End decoder_theory.

(** * Properties of the sequence regressor *)

Module sequence_regressor_theory.
Import sequence_regressor.

Section decoded.
Variable ModelPart__init__ :
  string → option string → option string → Object.
Variable assert_shape_ok : Tensor → bool.

(** The attributes [__init__] assigns are the eleven it names: any other
    attribute is looked up in the object the base constructor left. *)
Lemma __init___getattr (a : Args) (g g' : Graph) (self : Object)
    (name : string) :
  __init__ ModelPart__init__ assert_shape_ok a g = (g', Ok self) →
  name ∉ ["encoders"; "data_id"; "layers"; "activation";
          "dropout_keep_prob"; "max_output_len"; "learning_step";
          "dropout_placeholder"; "gt_inputs"; "prediction"; "cost"] →
  getattr self name
  = getattr (ModelPart__init__ (arg_name a) (arg_save_checkpoint a)
               (arg_load_checkpoint a)) name.
Proof.
  intros Hinit Hname. unfold __init__ in Hinit.
  cbv [mbind mret Build_bind Build_ret lift tf_get_variable] in Hinit.
  destruct (tf_concat _) as [mlp_input|e]; [|done].
  destruct (py_assert _) as [[]|e]; [|done].
  injection Hinit as _ <-. unfold getattr, setattr. simpl.
  rewrite !not_elem_of_cons in Hname. destruct_and!.
  by rewrite !lookup_insert_ne by done.
Qed.

(** C10.  For every constructed [SequenceRegressor] (over a base class
    that neither sets nor defines [decoded_logit]), reading [decoded]
    raises the attribute error for [decoded_logit]: the constructor does
    not assign that attribute and no other method assigns any. *)
Theorem C10_decoded_raises_attribute_error
    (a : Args) (g g' : Graph) (self : Object) :
  __init__ ModelPart__init__ assert_shape_ok a g = (g', Ok self) →
  obj_dict (ModelPart__init__ (arg_name a) (arg_save_checkpoint a)
              (arg_load_checkpoint a)) !! "decoded_logit" = None →
  obj_class (ModelPart__init__ (arg_name a) (arg_save_checkpoint a)
               (arg_load_checkpoint a)) !! "decoded_logit" = None →
  decoded self = Raise (AttributeError "decoded_logit")
  ∧ is_ok (train_loss self) = true
  ∧ is_ok (runtime_loss self) = true.
Proof.
  intros Hinit Hdict Hclass. split.
  - unfold decoded. rewrite (__init___getattr a g g' self); [|done|].
    + unfold getattr. by rewrite Hdict, Hclass.
    + rewrite !not_elem_of_cons. repeat split; try done.
      apply not_elem_of_nil.
  - unfold __init__ in Hinit.
    cbv [mbind mret Build_bind Build_ret lift tf_get_variable] in Hinit.
    destruct (tf_concat _) as [mlp_input|e]; [|done].
    destruct (py_assert _) as [[]|e]; [|done].
    injection Hinit as _ <-.
    unfold train_loss, runtime_loss, getattr, setattr. simpl.
    by rewrite lookup_insert_eq.
Qed.

End decoded.

(** A regressor over one encoder, on a base object with the attribute
    [_name] only. *)
Lemma C10_witness :
  ∃ g' self,
    __init__ toy_model_part (λ _, true) toy_args toy.empty_graph
      = (g', Ok self)
    ∧ obj_dict (toy_model_part (arg_name toy_args)
                  (arg_save_checkpoint toy_args)
                  (arg_load_checkpoint toy_args)) !! "decoded_logit" = None
    ∧ obj_class (toy_model_part (arg_name toy_args)
                   (arg_save_checkpoint toy_args)
                   (arg_load_checkpoint toy_args)) !! "decoded_logit" = None
    ∧ decoded self = Raise (AttributeError "decoded_logit").
Proof.
  eexists _, _. split; [vm_compute; reflexivity|].
  split; [reflexivity|]. split; [reflexivity|].
  edestruct C10_decoded_raises_attribute_error
    with (ModelPart__init__ := toy_model_part)
         (assert_shape_ok := λ _ : Tensor, true)
         (a := toy_args) (g := toy.empty_graph)
    as (Hdecoded & _);
    [vm_compute; reflexivity | reflexivity | reflexivity |].
  exact Hdecoded.
Defined.

(** ** Feeding and the attributes of the regressor *)

Section regressor_feeding.
Variable ModelPart__init__ :
  string → option string → option string → Object.
Variable assert_shape_ok : Tensor → bool.

Lemma foldr_min_pos (n : nat) (ls : list nat) :
  0 < foldr Nat.min n ls ↔ 0 < n ∧ Forall (λ l, 0 < l) ls.
Proof.
  induction ls as [|l ls IH]; simpl.
  - rewrite Forall_nil. tauto.
  - rewrite Forall_cons. split.
    + intros Hmin. assert (0 < foldr Nat.min n ls) as Hrest%IH by lia.
      destruct Hrest. repeat split; [done|lia|done].
    + intros [Hn [Hl Hls]].
      assert (0 < foldr Nat.min n ls) by (by apply IH). lia.
Qed.

(** The first element of the [zip] of the unpacked [rows]: the first
    entries of the rows, when there is a row and no row is empty;
    [IndexError] otherwise. *)
Lemma py_zip_star_first (rows : list (list Z)) :
  py_index (py_zip_star rows) 0
  = if bool_decide (rows ≠ [] ∧ Forall (λ row, row ≠ []) rows)
    then Ok ((λ row, default 0%Z (head row)) <$> rows)
    else Raise IndexError.
Proof.
  destruct rows as [|row rows'].
  { rewrite bool_decide_eq_false_2; [done|]. by intros [? _]. }
  unfold py_zip_star, py_index.
  set (rows := row :: rows').
  set (width := foldr Nat.min (length row) (length <$> rows')).
  assert (Hwidth : 0 < width
                   ↔ rows ≠ [] ∧ Forall (λ row, row ≠ []) rows).
  { unfold width, rows. rewrite foldr_min_pos, Forall_fmap, Forall_cons.
    split.
    - intros [Hrow Hrows]. split; [done|]. split.
      + by destruct row; [simpl in Hrow; lia|].
      + eapply Forall_impl; [exact Hrows|]. intros [|] Hl; [|done].
        simpl in Hl. lia.
    - intros [_ [Hrow Hrows]]. split.
      + destruct row; [done|simpl; lia].
      + eapply Forall_impl; [exact Hrows|]. intros [|] Hl; [done|].
        simpl. lia. }
  cbn [Z.ltb Z.compare Z.to_nat].
  destruct width as [|width'] eqn:Hw.
  - rewrite bool_decide_eq_false_2; [done|]. intros Hok%Hwidth. lia.
  - rewrite bool_decide_eq_true_2 by (apply Hwidth; lia).
    cbn. f_equal. f_equal; [by destruct row|].
    apply list_fmap_ext. intros i r _. by destruct r.
Qed.

(** X21.  [feed_dict] of a constructed regressor: without the series it
    fails with a [TypeError] (unpacking [None]); with no sentence, or with an
    empty sentence, it fails with an [IndexError]; otherwise it feeds the
    first entry of every sentence to the placeholder [targets], and to the
    placeholder [dropout_plc] the configured [dropout_keep_prob] when
    training and 1.0 when not. *)
Theorem X21_regressor_feed_dict
    (a : Args) (g g' : Graph) (self : Object)
    (sentences : option (list (list Z))) (train : bool) :
  __init__ ModelPart__init__ assert_shape_ok a g = (g', Ok self) →
  feed_dict self sentences train
  = match sentences with
    | None => Raise TypeError
    | Some sentences_list =>
        if bool_decide (sentences_list ≠ []
                        ∧ Forall (λ row, row ≠ []) sentences_list)
        then Ok [(VTensor (TPlaceholder "targets"),
                  VInts (Some ((λ row, default 0%Z (head row))
                                 <$> sentences_list)));
                 (VTensor (TPlaceholder "dropout_plc"),
                  if train
                  then VFloat (arg_dropout_keep_prob a).1
                         (arg_dropout_keep_prob a).2
                  else VFloat 1 1)]
        else Raise IndexError
    end.
Proof.
  intros Hinit. unfold __init__ in Hinit.
  cbv [mbind mret Build_bind Build_ret lift tf_get_variable] in Hinit.
  destruct (tf_concat _) as [mlp_input|e]; [|done].
  destruct (py_assert _) as [[]|e]; [|done].
  injection Hinit as _ <-.
  destruct sentences as [sentences_list|]; [|done].
  unfold feed_dict. cbn [mbind Result_bind].
  rewrite py_zip_star_first. destruct (bool_decide _); [|done].
  unfold getattr, setattr. cbn.
  destruct train; cbn;
    repeat (rewrite lookup_insert_eq || rewrite lookup_insert_ne by done);
    cbn;
    repeat (rewrite lookup_insert_eq || rewrite lookup_insert_ne by done);
    cbn;
    repeat (rewrite lookup_insert_eq || rewrite lookup_insert_ne by done);
    done.
Qed.

(** X22.  What a successful construction leaves: the logits of the MLP
    have passed [assert_shape], [max_output_len] is 1, [prediction] is the
    output of the MLP over the concatenation of the encoders, of output
    size 1 and with the dropout placeholder, [cost] is the mean squared
    difference to the targets, [train_loss] and [runtime_loss] both read
    [cost], and [learning_step] is a scalar variable of that name which
    the graph did not have before. *)
Theorem X22_regressor_attributes
    (a : Args) (g g' : Graph) (self : Object) :
  __init__ ModelPart__init__ assert_shape_ok a g = (g', Ok self) →
  let logits :=
    TMlpLogits (TConcat (TEncoded <$> arg_encoders a) 1) (arg_layers a)
      (TPlaceholder "dropout_plc") 1 in
  assert_shape_ok logits = true
  ∧ getattr self "max_output_len" = Ok (VInt 1)
  ∧ getattr self "prediction" = Ok (VTensor logits)
  ∧ getattr self "cost"
    = Ok (VTensor (TReduceMean
                     (TSquare (TSub logits (TPlaceholder "targets")))))
  ∧ train_loss self = getattr self "cost"
  ∧ runtime_loss self = getattr self "cost"
  ∧ ∃ v, getattr self "learning_step" = Ok (VTensor (TVariable v))
         ∧ var_name v = "learning_step" ∧ var_shape v = []
         ∧ next_var g ≤ var_id v.
Proof.
  intros Hinit logits. subst logits. unfold __init__ in Hinit.
  cbv [mbind mret Build_bind Build_ret lift tf_get_variable] in Hinit.
  destruct (arg_encoders a) as [|enc encs] eqn:Hencs; [done|].
  cbn [tf_concat fmap list_fmap] in Hinit.
  unfold py_assert in Hinit.
  destruct (assert_shape_ok _) eqn:Hshape; [|done].
  injection Hinit as <- <-.
  split; [done|].
  unfold train_loss, runtime_loss, getattr, setattr. cbn.
  repeat (rewrite lookup_insert_eq || rewrite lookup_insert_ne by done).
  repeat split; try done. by eexists.
Qed.

End regressor_feeding.

Lemma X21_witness :
  ∃ g' self,
    __init__ toy_model_part (λ _, true) toy_args toy.empty_graph
      = (g', Ok self)
    ∧ feed_dict self (Some [[3; 4]; [5]]%Z) true
      = Ok [(VTensor (TPlaceholder "targets"), VInts (Some [3; 5]%Z));
            (VTensor (TPlaceholder "dropout_plc"), VFloat 1 2)]
    ∧ feed_dict self (Some [[3; 4]; []]%Z) true = Raise IndexError.
Proof.
  eexists _, _.
  split; [lazy -[setattr toy_model_part]; reflexivity|]. split.
  - erewrite X21_regressor_feed_dict
      with (ModelPart__init__ := toy_model_part)
           (assert_shape_ok := λ _ : Tensor, true)
           (a := toy_args) (g := toy.empty_graph);
      [reflexivity | lazy -[setattr toy_model_part]; reflexivity].
  - erewrite X21_regressor_feed_dict
      with (ModelPart__init__ := toy_model_part)
           (assert_shape_ok := λ _ : Tensor, true)
           (a := toy_args) (g := toy.empty_graph);
      [reflexivity | lazy -[setattr toy_model_part]; reflexivity].
Defined.

Lemma X22_witness :
  ∃ g' self,
    __init__ toy_model_part (λ _, true) toy_args toy.empty_graph
      = (g', Ok self)
    ∧ getattr self "max_output_len" = Ok (VInt 1)
    ∧ train_loss self = getattr self "cost".
Proof.
  edestruct X22_regressor_attributes
    with (ModelPart__init__ := toy_model_part)
         (assert_shape_ok := λ _ : Tensor, true)
         (a := toy_args) (g := toy.empty_graph)
    as (_ & Hlen & _ & _ & Hloss & _);
    [lazy -[setattr toy_model_part]; reflexivity|].
  eexists _, _. split; [lazy -[setattr toy_model_part]; reflexivity|].
  split; [exact Hlen | exact Hloss].
Defined.

End sequence_regressor_theory.
